(** * Navigation assistant: zone classifier, voice notifications,
      recorder and frame pipeline

    A shallow embedding of the Python sources

      - [src/utils/zone_detector.py]   (module [ZoneDetector])
      - [src/audio/tts_engine.py]      (modules [VoiceNotificationManager],
                                        [TTSEngine])
      - [src/gui/main_window.py]       ([handle_voice_notifications])
      - [src/utils/video_recorder.py]  (modules [VideoRecorder],
                                        [VideoRecorderFiles])
      - [src/core/video_processor.py]  (modules [VideoProcessorThread],
                                        [VideoProcessorControl])
      - [src/core/tracker.py]          (module [ObjectTracker])
      - [src/core/detector.py]         (module [YOLODetector])

    Conventions.  Python [int] is [Z], with [//] being [Z.div] (floor
    division); a [numpy.int64] is a [Z] in the 64-bit range, and a sum
    of two of them is wrapped by [int64_wrap].  A Python float is the
    rational [Q] it denotes, so comparing two floats is comparing two
    rationals.  Where the code compares a difference of clock readings
    with the cooldown (the voice manager), the subtraction of floats is
    an argument [fsub] of the model, and [double_sub] is the rounded
    subtraction of doubles; the frame rate and the duration of a
    recording are computed exactly.  A reading of the clock is an
    explicit argument of the function that performs it.  A [str] is the
    string of its UTF-8 bytes, and [py_len] counts its characters.
    Paths are joined as [pathlib] joins them on a POSIX system.
    A [dict] keyed by strings is a [gmap string _], a [set] of strings a
    [gset string].  Objects mutated in place are passed and returned
    explicitly, and the calls a method makes on a collaborator (speech
    sink, video writer, capture handle, Qt signals, OpenCV) are given
    as outcomes or returned as the list of events produced, oldest
    first. *)

From Stdlib Require Import ZArith QArith Qround Qabs String List Lia Lqa.
From stdpp Require Import base gmap strings list pretty sorting.

Local Open Scope string_scope.
Local Open Scope list_scope.

(** ** Exceptions and results *)

Inductive exn : Type :=
  | ZeroDivisionError
  | TypeError
  | RuntimeError (msg : string)
  | OtherError (msg : string).

Inductive result (A : Type) : Type :=
  | Return (a : A)
  | Raise (e : exn).

Arguments Return {A} a.
Arguments Raise {A} e.

Definition is_raise {A : Type} (r : result A) : bool :=
  match r with
  | Return _ => false
  | Raise _ => true
  end.

(** Strict comparison of two clock readings, [x < y] on floats. *)
Definition Qltb (x y : Q) : bool := negb (Qle_bool y x).

(** The integer nearest to [q], the even one of the two when [q] is
    half-way. *)
Definition round_half_even (q : Q) : Z :=
  let below := Qfloor q in
  let rest := (q - inject_Z below)%Q in
  if Qltb rest (1 # 2) then below
  else if Qltb (1 # 2) rest then (below + 1)%Z
  else if Z.even below then below else (below + 1)%Z.

(** The double nearest to [q], ties to even: [q] rounded to 53
    significant bits.  (The range of the exponent is not bounded: the
    value is the one IEEE 754 gives whenever that one is finite and not
    subnormal.) *)
Definition binary64 (q : Q) : Q :=
  if Qeq_bool q 0 then 0%Q
  else
    let magnitude := Qabs q in
    let e := (Z.log2 (Qnum magnitude) - Z.log2 (Zpos (Qden magnitude)))%Z in
    let e := if Qltb magnitude (2 ^ e)%Q then (e - 1)%Z else e in
    let ulp := (2 ^ (e - 52))%Q in
    (inject_Z (round_half_even (q / ulp)) * ulp)%Q.

(** [x - y] on two doubles: the exact difference, rounded.  The
    difference of two doubles that is subnormal is exact, so this is
    the IEEE 754 result whenever that one is finite. *)
Definition double_sub (x y : Q) : Q := binary64 (x - y).

(** The value a [numpy.int64] holds after an operation whose exact
    result is [z]: overflow wraps around modulo [2^64]. *)
Definition int64_wrap (z : Z) : Z := ((z + 2 ^ 63) mod 2 ^ 64 - 2 ^ 63)%Z.

Definition fits_int64 (z : Z) : Prop := (- 2 ^ 63 <= z < 2 ^ 63)%Z.

(** Bytes [10xxxxxx] continue a character of a UTF-8 string. *)
Definition is_continuation (c : Ascii.ascii) : bool :=
  (128 <=? Ascii.nat_of_ascii c)%nat && (Ascii.nat_of_ascii c <? 192)%nat.

(** [len(s)] of a Python [str], held here as its UTF-8 bytes: the
    number of characters, not of bytes. *)
Fixpoint py_len (s : string) : nat :=
  match s with
  | EmptyString => 0%nat
  | String c rest => ((if is_continuation c then 0 else 1) + py_len rest)%nat
  end.

(** A video frame: rows of BGR pixels, as in a height * width * 3 array. *)
Definition Frame : Type := list (list (Z * Z * Z)).

Definition frame_shape (frame : Frame) : Z * Z :=
  (Z.of_nat (length frame), Z.of_nat (length (hd [] frame))).

(** One entry of the list [ObjectTracker.track] returns. *)
Record TrackedObject : Type := mkTracked {
  obj_id : Z;
  obj_bbox : Z * Z * Z * Z;
  obj_center : Z * Z;
  obj_confidence : Q;
  obj_class : string;
  obj_class_id : Z
}.

(** The same dict once the frame pipeline has stored its ["zone"]. *)
Record Detection : Type := mkDetection {
  det_obj : TrackedObject;
  det_zone : string
}.

Definition det_class (det : Detection) : string := obj_class (det_obj det).

(** ** Zone detector ([src/utils/zone_detector.py]) *)

Module ZoneDetector.

Local Open Scope Z_scope.

Record t : Type := mk {
  frame_width : Z;
  divisions : Z;
  left_boundary : Z;
  right_boundary : Z
}.

Definition update_boundaries (frame_width : Z) (self : t) : t :=
  {| frame_width := frame_width;
     divisions := divisions self;
     left_boundary := frame_width / 3;
     right_boundary := 2 * frame_width / 3 |}.

(** [ZoneDetector(frame_width, divisions)]: the constructor stores its
    arguments and calls [update_boundaries]. *)
Definition init (frame_width divisions : Z) : t :=
  update_boundaries frame_width
    {| frame_width := frame_width; divisions := divisions;
       left_boundary := 0; right_boundary := 0 |}.

Definition get_zone (bbox : option (Z * Z * Z * Z)) (center_x : option Z)
    (self : t) : string :=
  let center_x :=
    match center_x, bbox with
    | None, Some (x1, _, x2, _) => Some ((x1 + x2) / 2)
    | _, _ => center_x
    end in
  match center_x with
  | None => "milieu"
  | Some cx =>
      if cx <? left_boundary self then "gauche"
      else if cx >? right_boundary self then "droite"
      else "milieu"
  end.

Definition zone_names : list string := ["gauche"; "milieu"; "droite"].

(** The boundary refresh at the head of [draw_zones]. *)
Definition draw_zones_boundaries (frame : Frame) (self : t) : t :=
  let '(_, width) := frame_shape frame in
  if negb (width =? frame_width self) then update_boundaries width self
  else self.

End ZoneDetector.

(** ** Voice notifications ([src/audio/tts_engine.py]) *)

Module VoiceNotificationManager.

(** The manager's own fields.  The [tts_engine] it holds is the speech
    sink: every [self.tts_engine.speak(message)] is reported in the
    returned list of speech requests.

    The cooldown and the clock readings are floats, held as the
    rationals they are; comparing two of them is exact, but subtracting
    them rounds.  The two methods that subtract take the subtraction of
    floats as [fsub], so that what is proved of them holds for the
    rounded difference the code tests ([double_sub]) as for the exact
    one ([Qminus]). *)
Record t : Type := mk {
  cooldown : Q;
  last_spoken_time : gmap string Q;
  spoken_objects : gset string
}.

Definition init (cooldown : Q) : t :=
  {| cooldown := cooldown; last_spoken_time := ∅; spoken_objects := ∅ |}.

Definition no_detection_id : string := "no_detection".

(** [f"{class_name}_{zone}"] *)
Definition object_zone_id (class_name zone : string) : string :=
  class_name +:+ "_" +:+ zone.

(** The message built by [announce_detection]. *)
Definition build_message (class_name zone : string) (include_zone : bool)
    (count : Z) : string :=
  let message :=
    if (count >? 1)%Z then pretty count +:+ " " +:+ class_name
    else class_name in
  if include_zone then message +:+ " à " +:+ zone else message.

Definition announce_detection (fsub : Q → Q → Q) (current_time : Q)
    (class_name zone : string) (include_zone : bool) (count : Z) (self : t)
    : t * list string :=
  let object_zone_id := object_zone_id class_name zone in
  let within_cooldown :=
    match last_spoken_time self !! object_zone_id with
    | Some last => Qltb (fsub current_time last) (cooldown self)
    | None => false
    end in
  if within_cooldown then (self, [])
  else
    ({| cooldown := cooldown self;
        last_spoken_time :=
          <[object_zone_id := current_time]> (last_spoken_time self);
        spoken_objects := spoken_objects self ∪ {[object_zone_id]} |},
     [build_message class_name zone include_zone count]).

Definition announce_no_detection (fsub : Q → Q → Q) (current_time : Q)
    (self : t) : t * list string :=
  let should_announce :=
    match last_spoken_time self !! no_detection_id with
    | None => true
    | Some last => Qltb (cooldown self) (fsub current_time last)
    end in
  if should_announce then
    ({| cooldown := cooldown self;
        last_spoken_time :=
          <[no_detection_id := current_time]> (last_spoken_time self);
        spoken_objects := ∅ |},
     ["Aucun objet détecté"])
  else (self, []).

Definition keys_to_remove (current_objects : gset string) (self : t)
    : list string :=
  filter (λ key, key ≠ no_detection_id ∧ key ∉ current_objects)
         (elements (dom (last_spoken_time self))).

Definition cleanup_old_objects (current_objects : gset string) (self : t)
    : t :=
  {| cooldown := cooldown self;
     last_spoken_time :=
       foldl (λ m key, delete key m) (last_spoken_time self)
             (keys_to_remove current_objects self);
     spoken_objects := spoken_objects self |}.

Definition reset (self : t) : t :=
  {| cooldown := cooldown self; last_spoken_time := ∅; spoken_objects := ∅ |}.

End VoiceNotificationManager.

(** ** Per-frame voice handling ([src/gui/main_window.py]) *)

Module MainWindow.

Import VoiceNotificationManager.

(** A value of the [zone_objects] dict. *)
Record obj_info : Type := mk_info {
  info_class : string;
  info_zone : string;
  info_count : Z
}.

(** [zone_objects] keeps its keys in insertion order, which is the order
    [.values()] is walked in: an association list with unique keys. *)
Fixpoint count_detection (key class_name zone : string)
    (zone_objects : list (string * obj_info)) : list (string * obj_info) :=
  match zone_objects with
  | [] => [(key, mk_info class_name zone (0 + 1))]
  | (k, info) :: rest =>
      if String.eqb k key
      then (k, mk_info (info_class info) (info_zone info)
                       (info_count info + 1)) :: rest
      else (k, info) :: count_detection key class_name zone rest
  end.

(** The grouping loop: returns [zone_objects] and [current_objects]. *)
Definition group_detections (detections : list Detection)
    : list (string * obj_info) * gset string :=
  foldl (λ '(zone_objects, current_objects) det,
           let key := det_class det +:+ "_" +:+ det_zone det in
           (count_detection key (det_class det) (det_zone det) zone_objects,
            current_objects ∪ {[key]}))
        ([], ∅) detections.

(** The announcing loop; [clock i] is the reading [time.time()] returns
    to the [i]-th call made while the frame is handled. *)
Fixpoint announce_groups (fsub : Q → Q → Q) (clock : nat → Q) (i : nat)
    (include_zone : bool) (infos : list obj_info) (voice_manager : t)
    : t * list string :=
  match infos with
  | [] => (voice_manager, [])
  | info :: rest =>
      let '(vm, said) :=
        announce_detection fsub (clock i) (info_class info) (info_zone info)
                           include_zone (info_count info) voice_manager in
      let '(vm', said') :=
        announce_groups fsub clock (S i) include_zone rest vm in
      (vm', said ++ said')
  end.

Definition handle_voice_notifications (fsub : Q → Q → Q)
    (voice_checked zone_checked : bool) (clock : nat → Q)
    (detections : list Detection) (voice_manager : t) : t * list string :=
  if negb voice_checked then (voice_manager, [])
  else
    match detections with
    | [] => announce_no_detection fsub (clock 0%nat) voice_manager
    | _ :: _ =>
        let '(zone_objects, current_objects) := group_detections detections in
        let '(vm, said) :=
          announce_groups fsub clock 0 zone_checked (map snd zone_objects)
                          voice_manager in
        (cleanup_old_objects current_objects vm, said)
    end.

(** The zone of a detection is one of the names [get_zone] returns. *)
Definition valid_detection (det : Detection) : Prop :=
  In (det_zone det) ZoneDetector.zone_names.

Definition valid_info (info : obj_info) : Prop :=
  In (info_zone info) ZoneDetector.zone_names.

End MainWindow.

(** ** Paths ([pathlib] on a POSIX system) *)

Module PosixPath.

(** A parsed path: its root (none, one slash or two) and its
    components. *)
Record t : Type := mk {
  root : string;
  parts : list string
}.

(** [s.split("/")] *)
Fixpoint split (s : string) : list string :=
  match s with
  | EmptyString => [EmptyString]
  | String c rest =>
      if String.eqb (String c EmptyString) "/" then EmptyString :: split rest
      else
        match split rest with
        | part :: others => String c part :: others
        | [] => [String c EmptyString]
        end
  end.

(** Exactly two leading slashes are kept; one, or three and more, are
    one. *)
Definition root_of (s : string) : string :=
  if String.prefix "///" s then "/"
  else if String.prefix "//" s then "//"
  else if String.prefix "/" s then "/"
  else "".

(** [Path(s)]: empty components and ["."] are dropped. *)
Definition parse (s : string) : t :=
  {| root := root_of s;
     parts := filter (λ part, part ≠ "" ∧ part ≠ ".") (split s) |}.

(** [p / name] *)
Definition joinpath (p : t) (name : string) : t :=
  let q := parse name in
  if String.eqb (root q) "" then
    {| root := root p; parts := parts p ++ parts q |}
  else q.

(** [str(p)] *)
Definition str (p : t) : string :=
  if String.eqb (root p) "" then
    match parts p with
    | [] => "."
    | _ :: _ => String.concat "/" (parts p)
    end
  else root p +:+ String.concat "/" (parts p).

End PosixPath.

(** ** Video recorder ([src/utils/video_recorder.py]) *)

Module VideoRecorder.

(** A [cv2.VideoWriter] handle, known by the arguments it was built from. *)
Record VideoWriter : Type := mk_writer {
  vw_path : string;
  vw_fourcc : string;
  vw_fps : Q;
  vw_size : Z * Z
}.

(** Calls on the video backend. *)
Inductive event : Type :=
  | NewWriter (w : VideoWriter)
  | WriteFrame (w : VideoWriter) (frame : Frame)
  | ReleaseWriter (w : VideoWriter).

Record t : Type := mk {
  output_dir : string;
  writer : option VideoWriter;
  output_path : option string;
  is_recording_flag : bool;
  frame_count : Z;
  start_time : option Q
}.

(** [output_dir] is the text [self.output_dir] was built from; it is
    read through [PosixPath.parse]. *)
Definition init (output_dir : string) : t :=
  {| output_dir := output_dir; writer := None; output_path := None;
     is_recording_flag := false; frame_count := 0; start_time := None |}.

(** [cv2.VideoWriter_fourcc] is applied to the characters of [codec], and
    takes exactly four of them. *)
Definition VideoWriter_fourcc (codec : string) : result string :=
  if (py_len codec =? 4)%nat then Return codec else Raise TypeError.

(** [str(self.output_dir / filename)] *)
Definition file_path (filename : string) (self : t) : string :=
  PosixPath.str
    (PosixPath.joinpath (PosixPath.parse (output_dir self)) filename).

(** [timestamp] is what [time.strftime] returns, [opened] what
    [writer.isOpened()] answers and [now] the reading of [time.time()]. *)
Definition start_recording (timestamp : string) (opened : bool) (now : Q)
    (frame_width frame_height : Z) (fps : Q) (codec : string) (self : t)
    : result (option string) * t * list event :=
  if is_recording_flag self then (Return (output_path self), self, [])
  else
    let filename := "recording_" +:+ timestamp +:+ ".mp4" in
    let path := file_path filename self in
    let self1 :=
      {| output_dir := output_dir self; writer := writer self;
         output_path := Some path;
         is_recording_flag := is_recording_flag self;
         frame_count := frame_count self; start_time := start_time self |} in
    match VideoWriter_fourcc codec with
    | Raise e => (Raise e, self1, [])
    | Return fourcc =>
        let w := mk_writer path fourcc fps (frame_width, frame_height) in
        let self2 :=
          {| output_dir := output_dir self; writer := Some w;
             output_path := Some path;
             is_recording_flag := is_recording_flag self;
             frame_count := frame_count self;
             start_time := start_time self |} in
        if negb opened then
          (Raise (RuntimeError ("Failed to open video writer for " +:+ path)),
           self2, [NewWriter w])
        else
          (Return (Some path),
           {| output_dir := output_dir self; writer := Some w;
              output_path := Some path; is_recording_flag := true;
              frame_count := 0; start_time := Some now |},
           [NewWriter w])
    end.

(** [write_result] is the outcome of [self.writer.write(frame)]. *)
Definition write_frame (write_result : result unit) (frame : Frame) (self : t)
    : result bool * t * list event :=
  match is_recording_flag self, writer self with
  | true, Some w =>
      match write_result with
      | Return _ =>
          (Return true,
           {| output_dir := output_dir self; writer := writer self;
              output_path := output_path self;
              is_recording_flag := is_recording_flag self;
              frame_count := frame_count self + 1;
              start_time := start_time self |},
           [WriteFrame w frame])
      | Raise _ => (Return false, self, [])
      end
  | _, _ => (Return false, self, [])
  end.

(** [x if self.start_time else 0.0]: [None] and [0.0] are both falsy. *)
Definition duration_since (now : Q) (start_time : option Q) : Q :=
  match start_time with
  | Some start => if Qeq_bool start 0 then 0%Q else (now - start)%Q
  | None => 0%Q
  end.

Definition stop_recording (now : Q) (self : t)
    : result (option string * Z * Q) * t * list event :=
  if negb (is_recording_flag self) then (Return (None, 0%Z, 0%Q), self, [])
  else
    let duration := duration_since now (start_time self) in
    (Return (output_path self, frame_count self, duration),
     {| output_dir := output_dir self; writer := None; output_path := None;
        is_recording_flag := false; frame_count := 0; start_time := None |},
     match writer self with
     | Some w => [ReleaseWriter w]
     | None => []
     end).

Definition is_recording (self : t) : bool := is_recording_flag self.

End VideoRecorder.

(** ** Frame pipeline ([src/core/video_processor.py]) *)

Module VideoProcessorThread.

(** What the thread does to its capture handle and the signals it emits. *)
Inductive action : Type :=
  | CapRead
  | CapSetPosFrames (pos : Z)
  | CapRelease
  | Sleep
  | EmitFrameReady (frame : Frame) (detections : list Detection)
  | EmitCameraError (msg : string)
  | EmitFpsUpdate (fps : Q).

(** [model_loaded] is the truth value of [self.detector.current_model],
    [tracker] that of [self.tracker]. *)
Record t : Type := mk {
  source_type : string;
  flip_frame : bool;
  conf_threshold : Q;
  running : bool;
  paused : bool;
  frame_rate : Q;
  last_time : Q;
  frame_count : Z;
  current_frame_width : Z;
  current_frame_height : Z;
  tracker : bool;
  model_loaded : bool;
  zone_detector : option ZoneDetector.t
}.

Definition set_running (b : bool) (self : t) : t :=
  mk (source_type self) (flip_frame self) (conf_threshold self) b
     (paused self) (frame_rate self) (last_time self) (frame_count self)
     (current_frame_width self) (current_frame_height self) (tracker self)
     (model_loaded self) (zone_detector self).

Definition set_paused (b : bool) (self : t) : t :=
  mk (source_type self) (flip_frame self) (conf_threshold self)
     (running self) b (frame_rate self) (last_time self) (frame_count self)
     (current_frame_width self) (current_frame_height self) (tracker self)
     (model_loaded self) (zone_detector self).

Definition set_fps_fields (frame_rate last_time : Q) (frame_count : Z)
    (self : t) : t :=
  mk (source_type self) (flip_frame self) (conf_threshold self)
     (running self) (paused self) frame_rate last_time frame_count
     (current_frame_width self) (current_frame_height self) (tracker self)
     (model_loaded self) (zone_detector self).

Definition set_zone_detector (zd : ZoneDetector.t) (self : t) : t :=
  mk (source_type self) (flip_frame self) (conf_threshold self)
     (running self) (paused self) (frame_rate self) (last_time self)
     (frame_count self) (current_frame_width self)
     (current_frame_height self) (tracker self) (model_loaded self)
     (Some zd).

(** [__init__]: [now] is the reading of [time.time()], [model_loaded]
    whether the detector handed in has a model. *)
Definition init (now : Q) (model_loaded : bool) : t :=
  {| source_type := "webcam"; flip_frame := true; conf_threshold := 25 # 100;
     running := false; paused := false; frame_rate := 0; last_time := now;
     frame_count := 0; current_frame_width := 640;
     current_frame_height := 480; tracker := false;
     model_loaded := model_loaded; zone_detector := None |}.

(** [set_source] *)
Definition set_source (source_type : string) (self : t) : t :=
  mk source_type
     (if String.eqb source_type "webcam" then true else false)
     (conf_threshold self) (running self) (paused self) (frame_rate self)
     (last_time self) (frame_count self) (current_frame_width self)
     (current_frame_height self) (tracker self) (model_loaded self)
     (zone_detector self).

(** The first assignments of [run] once the source is open. *)
Definition enter_loop (width height : Z) (self : t) : t :=
  mk (source_type self) (flip_frame self) (conf_threshold self) true
     (paused self) (frame_rate self) (last_time self) (frame_count self)
     width height true (model_loaded self)
     (Some (ZoneDetector.init width 3)).

(** Python's [x / y] on floats raises on a zero divisor. *)
Definition float_truediv (x y : Q) : result Q :=
  if Qeq_bool y 0 then Raise ZeroDivisionError else Return (x / y)%Q.

(** [_update_fps], over the division it uses: [current_time] is the
    reading of [time.time()]. *)
Definition _update_fps_with (truediv : Q → Q → result Q) (current_time : Q)
    (self : t) : result (t * list action) :=
  if Qltb 0 (current_time - last_time self) then
    match truediv 1%Q (current_time - last_time self)%Q with
    | Raise e => Raise e
    | Return rate =>
        Return (set_fps_fields rate current_time (frame_count self + 1) self,
                [EmitFpsUpdate rate])
    end
  else
    Return (set_fps_fields (frame_rate self) current_time
                           (frame_count self + 1) self, []).

Definition _update_fps : Q → t → result (t * list action) :=
  _update_fps_with float_truediv.

(** What the OpenCV calls made for one frame do: the outcome of
    [cv2.flip], of the drawing calls of [draw_zones], of those of
    [draw_detection_with_zone] over the tracked objects and of those of
    [_draw_overlays], and the pixels they leave in the frame when none
    of them raises. *)
Record drawing : Type := mk_drawing {
  flipped : result unit;
  zones_drawn : result unit;
  boxes_drawn : result unit;
  overlays_drawn : result unit;
  pixels : Frame
}.

(** [self.zone_detector.get_zone(bbox=obj["bbox"])]: the corners are the
    [numpy.int64] scalars the tracker stored, so the sum [get_zone]
    halves is formed on 64 bits. *)
Definition zone_of_bbox (bbox : Z * Z * Z * Z) (zd : ZoneDetector.t)
    : string :=
  let '(x1, _, x2, _) := bbox in
  ZoneDetector.get_zone None (Some (int64_wrap (x1 + x2) / 2)%Z) zd.

(** The loop over the tracked objects: [draw_detection_with_zone] is
    called once per object. *)
Definition zone_detections (boxes_drawn : result unit)
    (objs : list TrackedObject) (zd : ZoneDetector.t)
    : result (list Detection) :=
  match objs, boxes_drawn with
  | _ :: _, Raise e => Raise e
  | _, _ =>
      Return (map (λ obj, mkDetection obj (zone_of_bbox (obj_bbox obj) zd))
                  objs)
  end.

(** [_process_frame]: [tracked] is the outcome of
    [self.tracker.track(frame, self.conf_threshold)] and [drawn] that of
    the OpenCV calls. *)
Definition _process_frame (tracked : result (list TrackedObject))
    (drawn : drawing) (frame : Frame) (self : t)
    : result (Frame * list Detection) * t :=
  match (if flip_frame self then flipped drawn else Return tt) with
  | Raise e => (Raise e, self)
  | Return _ =>
      match zone_detector self with
      | None =>
          (Raise (OtherError "'NoneType' object has no attribute 'draw_zones'"),
           self)
      | Some zd =>
          let zd := ZoneDetector.draw_zones_boundaries frame zd in
          let self := set_zone_detector zd self in
          match zones_drawn drawn with
          | Raise e => (Raise e, self)
          | Return _ =>
              let detections :=
                if tracker self && model_loaded self then
                  match tracked with
                  | Raise e => Raise e
                  | Return objs => zone_detections (boxes_drawn drawn) objs zd
                  end
                else Return [] in
              match detections, overlays_drawn drawn with
              | Raise e, _ => (Raise e, self)
              | Return _, Raise e => (Raise e, self)
              | Return detections, Return _ =>
                  (Return (pixels drawn, detections), self)
              end
          end
      end
  end.

(** What one turn of the [while] loop meets: the flags as the control
    thread left them ([stop()] clears [running], [pause()] and
    [resume()] write [paused]), then the outcome of [cap.read()], of the
    tracker, of the drawing calls, and the clock. *)
Record tick : Type := mk_tick {
  tick_stop : bool;
  tick_paused : bool;
  tick_read : result (option Frame);
  tick_tracked : result (list TrackedObject);
  tick_drawn : drawing;
  tick_time : Q
}.

Definition control (tk : tick) (self : t) : t :=
  set_paused (tick_paused tk)
    (set_running (running self && negb (tick_stop tk)) self).

(** Prefix the actions of the turns already taken. *)
Definition after {A : Type} (acts : list action)
    (r : option (A * t * list action)) : option (A * t * list action) :=
  match r with
  | Some (a, self, acts') => Some (a, self, acts ++ acts')
  | None => None
  end.

(** The [while self.running] loop of [run].  [None]: the turns given
    are used up and the loop has not been left.  [Some (Return tt, ..)]:
    left by the loop test or by [break]; [Some (Raise e, ..)]: left by
    an exception. *)
Fixpoint processing_loop (ticks : list tick) (self : t)
    : option (result unit * t * list action) :=
  match ticks with
  | [] => None
  | tk :: rest =>
      let self := control tk self in
      if negb (running self) then Some (Return tt, self, [])
      else if paused self then after [Sleep] (processing_loop rest self)
      else
        match tick_read tk with
        | Raise e => Some (Raise e, self, [CapRead])
        | Return None =>
            if String.eqb (source_type self) "file" then
              after [CapRead; CapSetPosFrames 0] (processing_loop rest self)
            else Some (Return tt, self, [CapRead])
        | Return (Some frame) =>
            match _process_frame (tick_tracked tk) (tick_drawn tk) frame self with
            | (Raise e, self) => Some (Raise e, self, [CapRead])
            | (Return (processed_frame, detections), self) =>
                match _update_fps (tick_time tk) self with
                | Raise e => Some (Raise e, self, [CapRead])
                | Return (self, emitted) =>
                    after (CapRead :: emitted
                             ++ [EmitFrameReady processed_frame detections])
                          (processing_loop rest self)
                end
            end
        end
  end.

(** The answer of [cv2.VideoCapture(self.source)]. *)
Inductive open_result : Type :=
  | Opened (width height : Z)
  | NotOpened
  | OpenRaised (msg : string).

(** [str(e)] *)
Definition exn_message (e : exn) : string :=
  match e with
  | ZeroDivisionError => "float division by zero"
  | TypeError => "TypeError"
  | RuntimeError msg => msg
  | OtherError msg => msg
  end.

(** [_open_video_source]: whether a handle is returned, and the signal
    emitted when none is. *)
Definition _open_video_source (o : open_result) (self : t)
    : option (Z * Z) * list action :=
  match o with
  | Opened width height => (Some (width, height), [])
  | NotOpened =>
      (None, [EmitCameraError ("Cannot open video source: " +:+ source_type self)])
  | OpenRaised msg =>
      (None, [EmitCameraError ("Error opening video source: " +:+ msg)])
  end.

(** [run]: [try] / [except Exception] / [finally] around the loop. *)
Definition run (o : open_result) (ticks : list tick) (self : t)
    : option (t * list action) :=
  match _open_video_source o self with
  | (None, acts) => Some (set_running false self, acts)
  | (Some (width, height), acts) =>
      match processing_loop ticks (enter_loop width height self) with
      | None => None
      | Some (outcome, self, acts') =>
          let reported :=
            match outcome with
            | Raise e =>
                [EmitCameraError ("Error in video processing: " +:+ exn_message e)]
            | Return _ => []
            end in
          Some (set_running false self,
                acts ++ acts' ++ reported ++ [CapRelease])
      end
  end.

End VideoProcessorThread.

(** ** Sample inputs used by the worked scenarios *)

Module Scenario.

Definition person (zone : string) : Detection :=
  mkDetection (mkTracked 1 (40, 80, 120, 300)%Z (80, 190)%Z (9 # 10) "person" 0)
              zone.

(** A frame handled so fast that every clock reading is [now]. *)
Definition at_time (now : Q) : nat → Q := λ _, now.

(** One frame through [handle_voice_notifications], both boxes ticked,
    with the subtraction of doubles. *)
Definition frame (now : Q) (detections : list Detection)
    (vm : VoiceNotificationManager.t) : VoiceNotificationManager.t * list string :=
  MainWindow.handle_voice_notifications double_sub true true (at_time now)
                                        detections vm.

(** Every OpenCV call succeeds and leaves [frame]. *)
Definition drawn (frame : Frame) : VideoProcessorThread.drawing :=
  VideoProcessorThread.mk_drawing (Return tt) (Return tt) (Return tt)
                                  (Return tt) frame.

(** Turns of the processing loop: the stream ends, the control thread
    asks to stop, the read raises. *)
Definition end_of_stream : VideoProcessorThread.tick :=
  VideoProcessorThread.mk_tick false false (Return None) (Return [])
                               (drawn []) 1.

Definition stop_request : VideoProcessorThread.tick :=
  VideoProcessorThread.mk_tick true false (Return None) (Return [])
                               (drawn []) 2.

Definition broken_read : VideoProcessorThread.tick :=
  VideoProcessorThread.mk_tick false false (Raise (OtherError "device lost"))
                               (Return []) (drawn []) 1.

Definition webcam_thread : VideoProcessorThread.t :=
  VideoProcessorThread.init 0 true.

Definition file_thread : VideoProcessorThread.t :=
  VideoProcessorThread.set_source "file" webcam_thread.

End Scenario.

(** ** Speech queue ([TTSEngine] in [src/audio/tts_engine.py]) *)

Module TTSEngine.

Record t : Type := mk {
  message_queue : list string;
  running : bool
}.

Definition speak (message : string) (immediate : bool) (self : t) : t :=
  {| message_queue :=
       (if immediate then [] else message_queue self) ++ [message];
     running := running self |}.

Definition add_message (message : string) (self : t) : t :=
  speak message false self.

Definition clear_queue (self : t) : t :=
  {| message_queue := []; running := running self |}.

Definition get_queue_size (self : t) : Z :=
  Z.of_nat (length (message_queue self)).

Definition is_speaking (self : t) : bool := (get_queue_size self >? 0)%Z.

(** One turn of the loop of [run]: the head of the queue is popped,
    and spoken when it is a non-empty string and the engine does not
    raise ([say_result] is the outcome of [say] and [runAndWait]).
    Returns the messages spoken. *)
Definition run_iteration (say_result : result unit) (self : t)
    : t * list string :=
  match message_queue self with
  | [] => (self, [])
  | message :: rest =>
      ({| message_queue := rest; running := running self |},
       if negb (String.eqb message "") && negb (is_raise say_result)
       then [message] else [])
  end.

(** Successive turns, one engine outcome each, while [running] holds. *)
Fixpoint run (say_results : list (result unit)) (self : t)
    : t * list string :=
  match say_results with
  | [] => (self, [])
  | say_result :: later =>
      if running self then
        let '(self, spoken) := run_iteration say_result self in
        let '(self, spoken') := run later self in
        (self, spoken ++ spoken')
      else (self, [])
  end.

(** The part of [stop] that touches the queue. *)
Definition stop (self : t) : t :=
  clear_queue {| message_queue := message_queue self; running := false |}.

(** The requests a notification manager hands over, in order. *)
Definition speak_all (messages : list string) (self : t) : t :=
  foldl (λ engine message, speak message false engine) self messages.

End TTSEngine.

(** ** Object tracker ([src/core/tracker.py]) *)

Module ObjectTracker.

(** One row of [result.boxes]: the corners after [astype(int)], which
    are [numpy.int64] scalars, the confidence, the class number and the
    name [result.names] gives it. *)
Record Box : Type := mk_box {
  box_xyxy : Z * Z * Z * Z;
  box_conf : Q;
  box_cls : Z;
  box_name : string
}.

(** One element of what [self.model.track] returns: its boxes and
    [boxes.id] as a list, when there is one. *)
Record Result : Type := mk_result {
  res_boxes : list Box;
  res_ids : option (list Z)
}.

Record t : Type := mk {
  model : bool;
  tracked_objects : gmap Z TrackedObject
}.

Definition init (model : bool) : t :=
  {| model := model; tracked_objects := ∅ |}.

(** The body of the inner loop for the box at index [i].  The sums
    [x1 + x2] and [y1 + y2] are formed on [numpy.int64] scalars. *)
Definition make_detection (track_ids : option (list Z)) (i : nat) (box : Box)
    : TrackedObject :=
  let '(x1, y1, x2, y2) := box_xyxy box in
  let track_id :=
    match track_ids with
    | Some ids =>
        match ids !! i with
        | Some id => id
        | None => Z.of_nat i
        end
    | None => Z.of_nat i
    end in
  mkTracked track_id (x1, y1, x2, y2)
            (int64_wrap (x1 + x2) / 2, int64_wrap (y1 + y2) / 2)%Z
            (box_conf box) (box_name box) (box_cls box).

(** The detections of one result, with [enumerate] starting at [i]. *)
Fixpoint result_detections (track_ids : option (list Z)) (i : nat)
    (boxes : list Box) : list TrackedObject :=
  match boxes with
  | [] => []
  | box :: rest =>
      make_detection track_ids i box
        :: result_detections track_ids (S i) rest
  end.

Definition all_detections (results : list Result) : list TrackedObject :=
  concat (map (λ r, result_detections (res_ids r) 0 (res_boxes r)) results).

(** [self.tracked_objects[track_id] = detection], in order. *)
Definition register (detections : list TrackedObject)
    (tracked : gmap Z TrackedObject) : gmap Z TrackedObject :=
  foldl (λ m det, <[obj_id det := det]> m) tracked detections.

(** [track]: [results] is what [self.model.track(...)] returns. *)
Definition track (results : list Result) (self : t)
    : list TrackedObject * t :=
  if negb (model self) then ([], self)
  else
    let detections := all_detections results in
    (detections,
     {| model := model self;
        tracked_objects := register detections (tracked_objects self) |}).

Definition get_object_by_id (track_id : Z) (self : t) : option TrackedObject :=
  tracked_objects self !! track_id.

Definition clear_tracks (self : t) : t :=
  {| model := model self; tracked_objects := ∅ |}.

Definition get_active_tracks (self : t) : list Z :=
  elements (dom (tracked_objects self)).

(** The centre is half the wrapped sum of opposite corners.  When the
    sum fits in 64 bits it is the floor of the midpoint of the box, and
    lies inside the box when the corners are in order. *)
Definition centered (det : TrackedObject) : Prop :=
  let '(x1, y1, x2, y2) := obj_bbox det in
  obj_center det = (int64_wrap (x1 + x2) / 2, int64_wrap (y1 + y2) / 2)%Z
  ∧ (fits_int64 (x1 + x2) ->
     (obj_center det).1 = ((x1 + x2) / 2)%Z
     ∧ ((x1 <= x2)%Z -> (x1 <= (obj_center det).1 <= x2)%Z))
  ∧ (fits_int64 (y1 + y2) ->
     (obj_center det).2 = ((y1 + y2) / 2)%Z
     ∧ ((y1 <= y2)%Z -> (y1 <= (obj_center det).2 <= y2)%Z)).

End ObjectTracker.

(** ** Detector models ([src/core/detector.py]) *)

Module YOLODetector.

(** A loaded model is known by the file it was loaded from.  [models]
    is a dict walked in insertion order. *)
Record t : Type := mk {
  models : list (string * option string);
  current_model_name : string;
  current_model : option string
}.

(** [d[key] = value] on an insertion-ordered dict. *)
Fixpoint dict_set (key : string) (value : option string)
    (d : list (string * option string)) : list (string * option string) :=
  match d with
  | [] => [(key, value)]
  | (k, v) :: rest =>
      if String.eqb k key then (k, value) :: rest
      else (k, v) :: dict_set key value rest
  end.

(** [d.get(key)], where a missing key and a [None] value both read [None]. *)
Fixpoint dict_get (key : string) (d : list (string * option string))
    : option string :=
  match d with
  | [] => None
  | (k, v) :: rest => if String.eqb k key then v else dict_get key rest
  end.

(** [key in d] *)
Definition dict_mem (key : string) (d : list (string * option string)) : bool :=
  existsb (λ kv, String.eqb kv.1 key) d.

Definition model_configs : list (string * string) :=
  [("yolov8n", "yolov8n.pt"); ("yolo11n", "yolo11n.pt");
   ("yolo8_personnalisé", "best8.pt"); ("yolo11_personnalisé", "best11.pt")].

Definition builtin (model_name : string) : bool :=
  String.eqb model_name "yolov8n" || String.eqb model_name "yolo11n".

(** [load_all_models]: [path_exists] answers [os.path.exists] and
    [yolo_loads file] tells whether [YOLO(file)] returns (it raises
    otherwise). *)
Definition load_all_models (path_exists yolo_loads : string → bool) (self : t)
    : t :=
  let models :=
    foldl (λ models '(model_name, model_file),
             if path_exists model_file || builtin model_name then
               if yolo_loads model_file
               then dict_set model_name (Some model_file) models
               else dict_set model_name None models
             else dict_set model_name None models)
          (models self) model_configs in
  {| models := models;
     current_model_name := current_model_name self;
     current_model := dict_get (current_model_name self) models |}.

Definition init (path_exists yolo_loads : string → bool)
    (default_model : string) : t :=
  load_all_models path_exists yolo_loads
    {| models := []; current_model_name := default_model;
       current_model := None |}.

Definition switch_model (model_name : string) (self : t) : bool * t :=
  if negb (dict_mem model_name (models self)) then (false, self)
  else
    match dict_get model_name (models self) with
    | None => (false, self)
    | Some model =>
        (true,
         {| models := models self; current_model_name := model_name;
            current_model := Some model |})
    end.

Definition get_available_models (self : t) : list string :=
  map fst (filter (λ kv, is_Some kv.2) (models self)).

Definition is_model_loaded (model_name : string) (self : t) : bool :=
  dict_mem model_name (models self)
  && bool_decide (is_Some (dict_get model_name (models self))).

(** The current model is the one registered under the current name:
    what [load_all_models] sets up. *)
Definition consistent (self : t) : Prop :=
  NoDup (map fst (models self))
  ∧ current_model self = dict_get (current_model_name self) (models self).

End YOLODetector.

(** ** Zone colours and order ([src/utils/zone_detector.py]) *)

Module ZoneDisplay.

Definition ZONE_COLORS : gmap string (Z * Z * Z) :=
  list_to_map [("gauche", (70, 70, 200)%Z); ("milieu", (70, 200, 70)%Z);
               ("droite", (200, 70, 70)%Z)].

(** [self.ZONE_COLORS.get(zone, (255, 255, 255))] *)
Definition get_zone_color (zone : string) : Z * Z * Z :=
  default (255, 255, 255)%Z (ZONE_COLORS !! zone).

(** The dict [get_boundaries] returns. *)
Definition get_boundaries (self : ZoneDetector.t) : gmap string Z :=
  list_to_map [("left_boundary", ZoneDetector.left_boundary self);
               ("right_boundary", ZoneDetector.right_boundary self);
               ("frame_width", ZoneDetector.frame_width self)].

(** Position of a zone on screen, from left to right. *)
Definition zone_rank (zone : string) : Z :=
  if String.eqb zone "gauche" then 0
  else if String.eqb zone "milieu" then 1 else 2.

(** The boundaries are the thirds of the recorded frame width. *)
Definition in_thirds (self : ZoneDetector.t) : Prop :=
  ZoneDetector.left_boundary self = (ZoneDetector.frame_width self / 3)%Z
  ∧ ZoneDetector.right_boundary self
    = (2 * ZoneDetector.frame_width self / 3)%Z.

End ZoneDisplay.

(** ** Controls of the frame pipeline ([src/core/video_processor.py]) *)

Module VideoProcessorControl.

Import VideoProcessorThread.

Definition MIN_CONF_THRESHOLD : Q := 1 # 100.
Definition MAX_CONF_THRESHOLD : Q := 1.

(** Python's [min(x, y)] and [max(x, y)]: the first argument unless the
    second is strictly smaller (larger). *)
Definition py_min (x y : Q) : Q := if Qltb y x then y else x.
Definition py_max (x y : Q) : Q := if Qltb x y then y else x.

Definition clamp_threshold (threshold : Q) : Q :=
  py_max MIN_CONF_THRESHOLD (py_min threshold MAX_CONF_THRESHOLD).

Definition set_conf_threshold (threshold : Q) (self : t) : t :=
  mk (source_type self) (flip_frame self) (clamp_threshold threshold)
     (running self) (paused self) (frame_rate self) (last_time self)
     (frame_count self) (current_frame_width self)
     (current_frame_height self) (tracker self) (model_loaded self)
     (zone_detector self).

(** [change_conf_threshold] of the main window: the slider position
    over 100, handed to [set_conf_threshold]. *)
Definition change_conf_threshold (slider_value : Z) (self : t) : t :=
  set_conf_threshold (slider_value # 100) self.

Definition pause (self : t) : t := set_paused true self.
Definition resume (self : t) : t := set_paused false self.

Definition get_frame_dimensions (self : t) : Z * Z :=
  (current_frame_width self, current_frame_height self).

(** How many times an action of a given kind occurs in a trace. *)
Definition count_actions (P : action → bool) (acts : list action) : Z :=
  Z.of_nat (length (List.filter P acts)).

Definition is_frame_ready (a : action) : bool :=
  match a with EmitFrameReady _ _ => true | _ => false end.

Definition is_read (a : action) : bool :=
  match a with CapRead => true | _ => false end.

Definition is_camera_error (a : action) : bool :=
  match a with EmitCameraError _ => true | _ => false end.

Definition is_fps_update (a : action) : bool :=
  match a with EmitFpsUpdate _ => true | _ => false end.

(** An [fps_update] signal carries a positive rate. *)
Definition fps_positive (a : action) : Prop :=
  match a with
  | EmitFpsUpdate rate => (0 < rate)%Q
  | _ => True
  end.

(** The detection lists handed to [frame_ready], oldest first. *)
Definition emitted_detections (acts : list action) : list (list Detection) :=
  flat_map (λ a, match a with
                 | EmitFrameReady _ detections => [detections]
                 | _ => []
                 end) acts.

End VideoProcessorControl.

(** ** Repeated calls and whole sessions *)

Module Sessions.

Import VoiceNotificationManager.

(** [announce_detection] called for one object at each of [times];
    returns the readings at which it spoke. *)
Fixpoint announce_at (fsub : Q → Q → Q) (class_name zone : string)
    (include_zone : bool) (count : Z) (times : list Q) (self : t)
    : t * list Q :=
  match times with
  | [] => (self, [])
  | now :: later =>
      let '(self', said) :=
        announce_detection fsub now class_name zone include_zone count self in
      let '(self'', spoke) :=
        announce_at fsub class_name zone include_zone count later self' in
      (self'', match said with [] => spoke | _ :: _ => now :: spoke end)
  end.

(** Every pair of neighbours of [times] is at least [gap] apart, the
    distance being the difference [fsub] computes. *)
Fixpoint spaced (fsub : Q → Q → Q) (gap : Q) (times : list Q) : Prop :=
  match times with
  | [] => True
  | t1 :: rest =>
      match rest with
      | [] => True
      | t2 :: _ => (gap <= fsub t2 t1)%Q
      end ∧ spaced fsub gap rest
  end.

(** [write_frame] for each frame of a list, each with the outcome of
    the backend write; returns the booleans answered. *)
Fixpoint write_frames (frames : list (result unit * Frame))
    (self : VideoRecorder.t)
    : list bool * VideoRecorder.t * list VideoRecorder.event :=
  match frames with
  | [] => ([], self, [])
  | (write_result, frame) :: rest =>
      let '(answer, self', events) :=
        VideoRecorder.write_frame write_result frame self in
      let '(answers, self'', events') := write_frames rest self' in
      (match answer with Return b => b | Raise _ => false end :: answers,
       self'', events ++ events')
  end.

(** A recorder whose frame count has grown by [n]. *)
Definition with_frames (n : Z) (self : VideoRecorder.t) : VideoRecorder.t :=
  {| VideoRecorder.output_dir := VideoRecorder.output_dir self;
     VideoRecorder.writer := VideoRecorder.writer self;
     VideoRecorder.output_path := VideoRecorder.output_path self;
     VideoRecorder.is_recording_flag := VideoRecorder.is_recording_flag self;
     VideoRecorder.frame_count := (VideoRecorder.frame_count self + n)%Z;
     VideoRecorder.start_time := VideoRecorder.start_time self |}.

Definition written (frames : list (result unit * Frame)) : list Frame :=
  map snd (List.filter (λ wf, negb (is_raise wf.1)) frames).

End Sessions.

(** ** Notions used to describe a frame of voice handling *)

Module VoiceFrames.

Import VoiceNotificationManager MainWindow.

(** The key [handle_voice_notifications] files a detection under. *)
Definition detection_key (det : Detection) : string :=
  det_class det +:+ "_" +:+ det_zone det.

(** The key [announce_detection] uses for a group. *)
Definition info_key (info : obj_info) : string :=
  object_zone_id (info_class info) (info_zone info).

(** [zone_objects.get(key)] *)
Fixpoint zone_objects_get (key : string) (zone_objects : list (string * obj_info))
    : option obj_info :=
  match zone_objects with
  | [] => None
  | (k, info) :: rest =>
      if String.eqb k key then Some info else zone_objects_get key rest
  end.

(** How many detections of a frame fall under a key. *)
Definition occurrences (key : string) (detections : list Detection) : Z :=
  Z.of_nat (length (List.filter (λ det, String.eqb (detection_key det) key)
                                detections)).

(** The request [announce_detection] makes for a group. *)
Definition info_message (include_zone : bool) (info : obj_info) : string :=
  build_message (info_class info) (info_zone info) include_zone
                (info_count info).

(** [zone_objects[key]["count"] += 1] *)
Definition bump (info : obj_info) : obj_info :=
  mk_info (info_class info) (info_zone info) (info_count info + 1).

(** Two managers that agree on everything the cooldown tests read. *)
Definition same_timing (a b : t) : Prop :=
  cooldown a = cooldown b ∧ last_spoken_time a = last_spoken_time b.

End VoiceFrames.

(** ** Recordings on disk ([src/utils/video_recorder.py]) *)

Module VideoRecorderFiles.

(** [s.endswith(suffix)] *)
Definition ends_with (suffix s : string) : bool :=
  (String.length suffix <=? String.length s)%nat
  && String.eqb (String.substring (String.length s - String.length suffix)
                                  (String.length suffix) s) suffix.

(** The names the pattern ["recording_*.mp4"] matches. *)
Definition matches_recording (name : string) : bool :=
  String.prefix "recording_" name && ends_with ".mp4" name
  && (14 <=? String.length name)%nat.

(** What [str(self.output_dir / name)] starts with when [name] is an
    entry of the directory: nothing for the directory ["."], the root
    for a root, else the text of the directory and a slash. *)
Definition dir_prefix (output_dir : string) : string :=
  let dir := PosixPath.parse output_dir in
  match PosixPath.parts dir with
  | [] => PosixPath.root dir
  | _ :: _ => PosixPath.str dir +:+ "/"
  end.

(** [str(self.output_dir / name)] for an entry [name] of the directory. *)
Definition path_of (output_dir name : string) : string :=
  dir_prefix output_dir +:+ name.

(** The order of [sorted(..., reverse=True)]: greater strings first. *)
Definition newer_first (a b : string) : Prop := String.leb b a = true.

#[global] Instance newer_first_dec (a b : string) : Decision (newer_first a b).
Proof. unfold newer_first. apply _. Defined.

(** [get_recordings_list]: [dir_exists] answers [self.output_dir.exists()]
    and [names] lists the entries of the directory. *)
Definition get_recordings_list (dir_exists : bool) (names : list string)
    (self : VideoRecorder.t) : list string :=
  if dir_exists then
    merge_sort newer_first
      (map (path_of (VideoRecorder.output_dir self))
           (filter (λ name, matches_recording name = true) names))
  else [].

(** Where the slice [l[k:]] starts in a list of length [n]. *)
Definition slice_start (k : Z) (n : nat) : nat :=
  if (k <? 0)%Z then Z.to_nat (Z.max (Z.of_nat n + k) 0) else Z.to_nat k.

(** [cleanup_old_recordings]: [removable path] tells whether
    [os.remove(path)] succeeds; returns the entries left in the
    directory. *)
Definition cleanup_old_recordings (keep_count : Z) (dir_exists : bool)
    (removable : string → bool) (names : list string)
    (self : VideoRecorder.t) : list string :=
  let recordings := get_recordings_list dir_exists names self in
  if (Z.of_nat (length recordings) >? keep_count)%Z then
    let removed :=
      filter (λ path, removable path = true)
             (drop (slice_start keep_count (length recordings)) recordings) in
    filter (λ name, path_of (VideoRecorder.output_dir self) name ∉ removed)
           names
  else names.

(** The dict [get_recording_info] returns. *)
Record RecordingInfo : Type := mk_recording_info {
  info_is_recording : bool;
  info_output_path : option string;
  info_frame_count : Z;
  info_duration : Q
}.

(** [get_recording_info]: [now] is the reading of [time.time()]. *)
Definition get_recording_info (now : Q) (self : VideoRecorder.t)
    : RecordingInfo :=
  if negb (VideoRecorder.is_recording_flag self) then
    mk_recording_info false None 0 0
  else
    mk_recording_info true (VideoRecorder.output_path self)
      (VideoRecorder.frame_count self)
      (VideoRecorder.duration_since now (VideoRecorder.start_time self)).

End VideoRecorderFiles.

(** * Properties *)

(** ** Comparisons of clock readings *)

Lemma Qltb_lt (x y : Q) : Qltb x y = true <-> (x < y)%Q.
Proof.
  unfold Qltb. rewrite negb_true_iff. split.
  - intros Hb. apply Qnot_le_lt. intros Hle.
    apply Qle_bool_iff in Hle. congruence.
  - intros Hlt. destruct (Qle_bool y x) eqn:Hb; [|reflexivity].
    apply Qle_bool_iff in Hb. exfalso. exact (Qlt_not_le _ _ Hlt Hb).
Qed.

Lemma Qltb_ge (x y : Q) : Qltb x y = false <-> (y <= x)%Q.
Proof.
  unfold Qltb. rewrite negb_false_iff. apply Qle_bool_iff.
Qed.

(** ** Zone classification *)

Section ZoneFacts.

Import ZoneDetector.
Local Open Scope Z_scope.

Lemma get_zone_center (bbox : option (Z * Z * Z * Z)) (cx : Z) (zd : t) :
  get_zone bbox (Some cx) zd =
    if cx <? left_boundary zd then "gauche"
    else if cx >? right_boundary zd then "droite" else "milieu".
Proof. unfold get_zone. destruct bbox as [[[[? ?] ?] ?]|]; reflexivity. Qed.

Lemma get_zone_in_names bbox center_x zd :
  In (get_zone bbox center_x zd) zone_names.
Proof.
  unfold get_zone, zone_names.
  destruct center_x as [cx|]; [|destruct bbox as [[[[x1 ?] x2] ?]|]].
  - destruct bbox as [[[[? ?] ?] ?]|];
      destruct (cx <? _); [|destruct (cx >? _)| |destruct (cx >? _)];
      simpl; auto.
  - destruct (_ <? _); [|destruct (_ >? _)]; simpl; auto.
  - simpl; auto.
Qed.

Lemma thirds_ordered (W : Z) : 0 <= W -> 0 <= W / 3 <= 2 * W / 3 /\ 2 * W / 3 <= W.
Proof.
  intros HW. repeat split.
  - apply Z.div_pos; lia.
  - apply Z.div_le_mono; lia.
  - apply Z.div_le_upper_bound; lia.
Qed.

(** C4. The zone is "gauche" when [center_x < left_boundary], else
    "droite" when [center_x > right_boundary], else "milieu"; a call
    with a bbox only uses [center_x = floor((x1 + x2) / 2)]; a call with
    no position answers "milieu"; and a detector for width 900 has the
    boundaries (300, 600) and sends 150, 450 and 800 to "gauche",
    "milieu" and "droite". *)
Theorem get_zone_classification :
  (forall (zd : t) (bbox : option (Z * Z * Z * Z)) (cx : Z),
      (cx < left_boundary zd -> get_zone bbox (Some cx) zd = "gauche")
      /\ (left_boundary zd <= cx -> cx > right_boundary zd ->
          get_zone bbox (Some cx) zd = "droite")
      /\ (left_boundary zd <= cx -> cx <= right_boundary zd ->
          get_zone bbox (Some cx) zd = "milieu"))
  /\ (forall (zd : t) (x1 y1 x2 y2 : Z),
      get_zone (Some (x1, y1, x2, y2)) None zd
        = get_zone None (Some ((x1 + x2) / 2)) zd
      /\ 2 * ((x1 + x2) / 2) <= x1 + x2 < 2 * ((x1 + x2) / 2) + 2)
  /\ (forall zd : t, get_zone None None zd = "milieu")
  /\ (left_boundary (init 900 3) = 300
      /\ right_boundary (init 900 3) = 600
      /\ get_zone None (Some 150) (init 900 3) = "gauche"
      /\ get_zone None (Some 450) (init 900 3) = "milieu"
      /\ get_zone None (Some 800) (init 900 3) = "droite").
Proof.
  split; [|split; [|split]].
  - intros zd bbox cx. rewrite get_zone_center.
    repeat split; intros.
    + destruct (Z.ltb_spec cx (left_boundary zd)); [reflexivity|lia].
    + destruct (Z.ltb_spec cx (left_boundary zd)); [lia|].
      destruct (Z.gtb_spec cx (right_boundary zd)); [reflexivity|lia].
    + destruct (Z.ltb_spec cx (left_boundary zd)); [lia|].
      destruct (Z.gtb_spec cx (right_boundary zd)); [lia|reflexivity].
  - intros zd x1 y1 x2 y2. split; [reflexivity|].
    pose proof (Z.div_mod (x1 + x2) 2 ltac:(lia)).
    pose proof (Z.mod_pos_bound (x1 + x2) 2 ltac:(lia)). lia.
  - reflexivity.
  - repeat split; reflexivity.
Qed.

Lemma get_zone_classification_witness :
  ZoneDetector.get_zone (Some (100, 0, 201, 50)) (Some 150)
      (ZoneDetector.init 900 3) = "gauche"
  /\ ZoneDetector.get_zone None (Some 800) (ZoneDetector.init 900 3) = "droite"
  /\ ZoneDetector.get_zone None (Some 300) (ZoneDetector.init 900 3) = "milieu".
Proof.
  pose proof get_zone_classification as [Hcx _].
  split; [|split].
  - apply (Hcx (init 900 3) (Some (100, 0, 201, 50)) 150). vm_compute. reflexivity.
  - apply (Hcx (init 900 3) None 800); vm_compute; [discriminate|reflexivity].
  - apply (Hcx (init 900 3) None 300); vm_compute; discriminate.
Defined.

(** C5. For a frame width [W >= 0] the boundaries are [W // 3] and
    [2 * W // 3], they satisfy [0 <= left <= right <= W], and every call
    of the classifier returns exactly one of the three zone names: the
    one selected by the position of [center_x] against the boundaries. *)
Theorem boundaries_ordered_zone_unique (W : Z) (HW : 0 <= W) :
  let zd := init W 3 in
  left_boundary zd = W / 3
  /\ right_boundary zd = 2 * W / 3
  /\ 0 <= left_boundary zd <= right_boundary zd
  /\ right_boundary zd <= W
  /\ (forall old : t,
        left_boundary (update_boundaries W old) = left_boundary zd
        /\ right_boundary (update_boundaries W old) = right_boundary zd)
  /\ (forall bbox center_x,
        let z := get_zone bbox center_x zd in
        (z = "gauche" /\ z <> "milieu" /\ z <> "droite")
        \/ (z = "milieu" /\ z <> "gauche" /\ z <> "droite")
        \/ (z = "droite" /\ z <> "gauche" /\ z <> "milieu"))
  /\ (forall bbox cx,
        (get_zone bbox (Some cx) zd = "gauche" <-> cx < left_boundary zd)
        /\ (get_zone bbox (Some cx) zd = "droite" <-> right_boundary zd < cx)
        /\ (get_zone bbox (Some cx) zd = "milieu"
            <-> left_boundary zd <= cx <= right_boundary zd)).
Proof.
  intros zd. pose proof (thirds_ordered W HW) as [[H0 H1] H2].
  assert (Hl : left_boundary zd = W / 3) by reflexivity.
  assert (Hr : right_boundary zd = 2 * W / 3) by reflexivity.
  split; [exact Hl|]. split; [exact Hr|].
  split; [rewrite Hl, Hr; lia|]. split; [rewrite Hr; lia|].
  split; [intros old; split; reflexivity|]. split.
  - intros bbox center_x z.
    pose proof (get_zone_in_names bbox center_x zd) as Hin.
    fold z in Hin. unfold zone_names in Hin. simpl in Hin.
    destruct Hin as [Hz|[Hz|[Hz|[]]]]; rewrite <- Hz.
    + left. repeat split; discriminate.
    + right; left. repeat split; discriminate.
    + right; right. repeat split; discriminate.
  - intros bbox cx. rewrite get_zone_center, Hl, Hr.
    destruct (Z.ltb_spec cx (W / 3)); [|destruct (Z.gtb_spec cx (2 * W / 3))];
      repeat split; intros; try discriminate; try reflexivity; try lia.
Qed.

Lemma boundaries_ordered_zone_unique_witness :
  ZoneDetector.left_boundary (ZoneDetector.init 640 3) = 213
  /\ ZoneDetector.right_boundary (ZoneDetector.init 640 3) = 426.
Proof.
  pose proof (boundaries_ordered_zone_unique 640 ltac:(lia)) as (Hl & Hr & _).
  split; [exact Hl|exact Hr].
Defined.

End ZoneFacts.

(** ** Voice notification manager *)

Section VoiceFacts.

Import VoiceNotificationManager.

Lemma announce_detection_silent (fsub : Q → Q → Q)
    now c z iz n (self : t) last :
  last_spoken_time self !! object_zone_id c z = Some last ->
  (fsub now last < cooldown self)%Q ->
  announce_detection fsub now c z iz n self = (self, []).
Proof.
  intros Hlast Hlt. unfold announce_detection. rewrite Hlast.
  apply Qltb_lt in Hlt. rewrite Hlt. reflexivity.
Qed.

Lemma announce_detection_speaks (fsub : Q → Q → Q) now c z iz n (self : t) :
  (forall last, last_spoken_time self !! object_zone_id c z = Some last ->
                (cooldown self <= fsub now last)%Q) ->
  announce_detection fsub now c z iz n self =
    (mk (cooldown self)
        (<[object_zone_id c z := now]> (last_spoken_time self))
        (spoken_objects self ∪ {[object_zone_id c z]}),
     [build_message c z iz n]).
Proof.
  intros Hlast. unfold announce_detection.
  destruct (last_spoken_time self !! object_zone_id c z) as [last|]; [|reflexivity].
  specialize (Hlast last eq_refl). apply Qltb_ge in Hlast.
  rewrite Hlast. reflexivity.
Qed.

(** Whatever it decides, [announce_detection] writes at most its own key
    and never the cooldown. *)
Lemma announce_detection_frame (fsub : Q → Q → Q)
    now c z iz n (self : t) (key : string) :
  key ≠ object_zone_id c z ->
  last_spoken_time (announce_detection fsub now c z iz n self).1 !! key
    = last_spoken_time self !! key.
Proof.
  intros Hne. unfold announce_detection.
  destruct (match last_spoken_time self !! object_zone_id c z with
            | Some last => Qltb (fsub now last) (cooldown self)
            | None => false
            end); simpl; [reflexivity|].
  rewrite lookup_insert_ne; [reflexivity|congruence].
Qed.

Lemma announce_detection_keeps_cooldown (fsub : Q → Q → Q)
    now c z iz n (self : t) :
  cooldown (announce_detection fsub now c z iz n self).1 = cooldown self.
Proof.
  unfold announce_detection.
  destruct (match last_spoken_time self !! object_zone_id c z with
            | Some last => Qltb (fsub now last) (cooldown self)
            | None => false
            end); reflexivity.
Qed.

(** [announce_no_detection] writes the reserved key only. *)
Lemma announce_no_detection_frame (fsub : Q → Q → Q)
    now (self : t) (key : string) :
  key ≠ no_detection_id ->
  last_spoken_time (announce_no_detection fsub now self).1 !! key
    = last_spoken_time self !! key.
Proof.
  intros Hne. unfold announce_no_detection.
  destruct (match last_spoken_time self !! no_detection_id with
            | Some last => Qltb (cooldown self) (fsub now last)
            | None => true
            end); simpl; [|reflexivity].
  rewrite lookup_insert_ne; [reflexivity|congruence].
Qed.

Lemma lookup_foldl_delete (ks : list string) (m : gmap string Q) (k : string) :
  foldl (λ m key, delete key m) m ks !! k
    = if decide (k ∈ ks) then None else m !! k.
Proof.
  revert m. induction ks as [|k0 ks IH]; intros m; cbn [foldl].
  - destruct (decide (k ∈ [])) as [Hin|_]; [|reflexivity].
    by apply elem_of_nil in Hin.
  - rewrite IH.
    destruct (decide (k ∈ ks)) as [Hin|Hin];
      destruct (decide (k ∈ k0 :: ks)) as [Hin'|Hin']; try reflexivity.
    + exfalso. apply Hin'. apply elem_of_cons. by right.
    + apply elem_of_cons in Hin' as [->|Hin']; [|contradiction].
      apply lookup_delete_eq.
    + apply lookup_delete_ne. intros ->. apply Hin'. apply elem_of_cons. by left.
Qed.

(** What [cleanup_old_objects] leaves under each key. *)
Lemma lookup_cleanup_old_objects (current : gset string) (self : t) (k : string) :
  last_spoken_time (cleanup_old_objects current self) !! k
    = if decide (k ≠ no_detection_id ∧ k ∉ current) then None
      else last_spoken_time self !! k.
Proof.
  unfold cleanup_old_objects, keys_to_remove. simpl.
  rewrite lookup_foldl_delete.
  case_decide as Hin; case_decide as HP; try reflexivity.
  - apply list_elem_of_filter in Hin as [HP' _]. contradiction.
  - apply (not_elem_of_dom (D := gset string)).
    intros Hdom. apply Hin.
    apply list_elem_of_filter. split; [exact HP|]. by apply elem_of_elements.
Qed.

Lemma string_length_app (s1 s2 : string) :
  String.length (s1 +:+ s2) = (String.length s1 + String.length s2)%nat.
Proof. induction s1 as [|a s1 IH]; simpl; [reflexivity|]. by rewrite IH. Qed.

Lemma object_zone_id_not_reserved (class_name zone : string) :
  In zone ZoneDetector.zone_names ->
  object_zone_id class_name zone ≠ no_detection_id.
Proof.
  intros Hz Heq. unfold object_zone_id, no_detection_id in Heq.
  assert (Hlen : String.length class_name = 5%nat).
  { apply (f_equal String.length) in Heq.
    rewrite !string_length_app in Heq.
    simpl in Hz. destruct Hz as [<-|[<-|[<-|[]]]]; simpl in Heq; lia. }
  assert (Hget : String.get (6 + String.length class_name)
                   (class_name +:+ "_" +:+ zone) = String.get 6 ("_" +:+ zone)).
  { symmetry. apply append_correct2. }
  rewrite Heq, Hlen in Hget.
  simpl in Hz. destruct Hz as [<-|[<-|[<-|[]]]]; simpl in Hget; discriminate.
Qed.

End VoiceFacts.

Section VoiceClaims.

Import VoiceNotificationManager MainWindow.

(** C2. Once [announce_detection] has announced a key at time [t0],
    a call for the same key at [t'] with [t' - t0 < cooldown] emits
    nothing and changes nothing (the key still records [t0]), and a call
    at [t'] with [t' - t0 >= cooldown] emits one speech request and
    records [t'] for the key.  Here [t' - t0] is the difference the
    code computes and tests, [fsub t' t0], which on floats is rounded;
    whenever it is the exact difference, the two conditions are the
    ones on [t' - t0] itself. *)
Theorem announce_detection_cooldown
    (fsub : Q → Q → Q) (self s1 : t) (t0 : Q) (c z : string) (iz : bool)
    (n : Z) (said : list string)
    (Hfirst : announce_detection fsub t0 c z iz n self = (s1, said))
    (Hsaid : said ≠ []) :
  cooldown s1 = cooldown self
  /\ last_spoken_time s1 !! object_zone_id c z = Some t0
  /\ forall (t' : Q) (c' z' : string) (iz' : bool) (n' : Z),
      object_zone_id c' z' = object_zone_id c z ->
      ((fsub t' t0 < cooldown self)%Q ->
         announce_detection fsub t' c' z' iz' n' s1 = (s1, []))
      /\ ((cooldown self <= fsub t' t0)%Q ->
         exists s2,
           announce_detection fsub t' c' z' iz' n' s1
             = (s2, [build_message c' z' iz' n'])
           /\ last_spoken_time s2 !! object_zone_id c z = Some t')
      /\ ((fsub t' t0 == t' - t0)%Q ->
          ((t' - t0 < cooldown self)%Q ->
             announce_detection fsub t' c' z' iz' n' s1 = (s1, []))
          /\ ((cooldown self <= t' - t0)%Q ->
              exists s2,
                announce_detection fsub t' c' z' iz' n' s1
                  = (s2, [build_message c' z' iz' n'])
                /\ last_spoken_time s2 !! object_zone_id c z = Some t')).
Proof.
  assert (Hs1 : s1 = mk (cooldown self)
                        (<[object_zone_id c z := t0]> (last_spoken_time self))
                        (spoken_objects self ∪ {[object_zone_id c z]})).
  { unfold announce_detection in Hfirst.
    destruct (match last_spoken_time self !! object_zone_id c z with
              | Some last => Qltb (fsub t0 last) (cooldown self)
              | None => false
              end); inversion Hfirst; subst; [contradiction|reflexivity]. }
  assert (Hcd : cooldown s1 = cooldown self) by (rewrite Hs1; reflexivity).
  assert (Hkey : last_spoken_time s1 !! object_zone_id c z = Some t0).
  { rewrite Hs1. simpl. apply lookup_insert_eq. }
  split; [exact Hcd|]. split; [exact Hkey|].
  intros t' c' z' iz' n' Hsame.
  assert (Hsilent : (fsub t' t0 < cooldown self)%Q ->
                    announce_detection fsub t' c' z' iz' n' s1 = (s1, [])).
  { intros Hlt. apply (announce_detection_silent fsub _ _ _ _ _ _ t0).
    - rewrite Hsame. exact Hkey.
    - rewrite Hcd. exact Hlt. }
  assert (Hspeaks : (cooldown self <= fsub t' t0)%Q ->
                    exists s2,
                      announce_detection fsub t' c' z' iz' n' s1
                        = (s2, [build_message c' z' iz' n'])
                      /\ last_spoken_time s2 !! object_zone_id c z = Some t').
  { intros Hge. eexists. split.
    - apply announce_detection_speaks. intros last Hlast.
      rewrite Hsame, Hkey in Hlast. inversion Hlast; subst last.
      rewrite Hcd. exact Hge.
    - simpl. rewrite Hsame. apply lookup_insert_eq. }
  split; [exact Hsilent|]. split; [exact Hspeaks|].
  intros Hexact. split.
  - intros Hlt. apply Hsilent. rewrite Hexact. exact Hlt.
  - intros Hge. apply Hspeaks. rewrite Hexact. exact Hge.
Qed.

(** Scenario B: cooldown 5, "person" in "gauche" announced at 0; asked
    again at 3 nothing is said, at 5.1 it is announced again.  And with
    the doubles 0.1 and 5.1, whose rounded difference is 5: announced
    at 0.1, the person is announced again at 5.1. *)
Lemma announce_detection_cooldown_witness :
  let s1 := (announce_detection double_sub 0 "person" "gauche" true 1
                                (init 5)).1 in
  let s1' := (announce_detection double_sub (binary64 (1 # 10)) "person"
                                 "gauche" true 1 (init 5)).1 in
  announce_detection double_sub 3 "person" "gauche" true 1 s1 = (s1, [])
  /\ (exists s2,
        announce_detection double_sub (binary64 (51 # 10)) "person" "gauche"
                           true 1 s1
          = (s2, ["person à gauche"])
        /\ last_spoken_time s2 !! "person_gauche" = Some (binary64 (51 # 10)))
  /\ (exists s2,
        announce_detection double_sub (binary64 (51 # 10)) "person" "gauche"
                           true 1 s1'
          = (s2, ["person à gauche"])
        /\ last_spoken_time s2 !! "person_gauche" = Some (binary64 (51 # 10))).
Proof.
  intros s1 s1'.
  pose proof (announce_detection_cooldown double_sub (init 5) s1 0 "person"
                "gauche" true 1 ["person à gauche"] eq_refl
                ltac:(discriminate))
    as (_ & _ & Hnext).
  pose proof (announce_detection_cooldown double_sub (init 5) s1'
                (binary64 (1 # 10)) "person" "gauche" true 1
                ["person à gauche"] eq_refl ltac:(discriminate))
    as (_ & _ & Hnext').
  destruct (Hnext 3%Q "person" "gauche" true 1%Z eq_refl) as (Hsilent & _).
  destruct (Hnext (binary64 (51 # 10)) "person" "gauche" true 1%Z eq_refl)
    as (_ & Hspeaks & _).
  destruct (Hnext' (binary64 (51 # 10)) "person" "gauche" true 1%Z eq_refl)
    as (_ & Hrounded & _).
  split; [|split].
  - apply Hsilent. vm_compute. reflexivity.
  - apply Hspeaks. vm_compute. intros H. discriminate H.
  - apply Hrounded. vm_compute. intros H. discriminate H.
Defined.

(** C10. Against a recorded no-detection timestamp,
    [announce_no_detection] speaks exactly when strictly more than
    [cooldown] has elapsed, so at exactly [cooldown] it is silent;
    against a recorded object timestamp, [announce_detection] speaks
    exactly when at least [cooldown] has elapsed, so at exactly
    [cooldown] it speaks.  The time elapsed is the difference the code
    computes and tests, [fsub now last], which on floats is rounded;
    whenever it is the exact difference, the conditions are the ones on
    [now - last] itself. *)
Theorem cooldown_boundary_asymmetry (fsub : Q → Q → Q)
    (self : t) (t_none t_obj : Q) (c z : string)
    (Hnone : last_spoken_time self !! no_detection_id = Some t_none)
    (Hobj : last_spoken_time self !! object_zone_id c z = Some t_obj) :
  forall (now : Q) (iz : bool) (n : Z),
    ((announce_no_detection fsub now self).2 ≠ []
     <-> (cooldown self < fsub now t_none)%Q)
    /\ ((fsub now t_none == cooldown self)%Q ->
        announce_no_detection fsub now self = (self, []))
    /\ ((announce_detection fsub now c z iz n self).2 ≠ []
        <-> (cooldown self <= fsub now t_obj)%Q)
    /\ ((fsub now t_obj == cooldown self)%Q ->
        (announce_detection fsub now c z iz n self).2
          = [build_message c z iz n])
    /\ ((fsub now t_none == now - t_none)%Q ->
        ((announce_no_detection fsub now self).2 ≠ []
         <-> (cooldown self < now - t_none)%Q)
        /\ ((now - t_none == cooldown self)%Q ->
            announce_no_detection fsub now self = (self, [])))
    /\ ((fsub now t_obj == now - t_obj)%Q ->
        ((announce_detection fsub now c z iz n self).2 ≠ []
         <-> (cooldown self <= now - t_obj)%Q)
        /\ ((now - t_obj == cooldown self)%Q ->
            (announce_detection fsub now c z iz n self).2
              = [build_message c z iz n])).
Proof.
  intros now iz n.
  assert (Hcode :
    ((announce_no_detection fsub now self).2 ≠ []
     <-> (cooldown self < fsub now t_none)%Q)
    /\ ((fsub now t_none == cooldown self)%Q ->
        announce_no_detection fsub now self = (self, []))
    /\ ((announce_detection fsub now c z iz n self).2 ≠ []
        <-> (cooldown self <= fsub now t_obj)%Q)
    /\ ((fsub now t_obj == cooldown self)%Q ->
        (announce_detection fsub now c z iz n self).2
          = [build_message c z iz n])).
  { unfold announce_no_detection, announce_detection. rewrite Hnone, Hobj.
    destruct (Qltb (cooldown self) (fsub now t_none)) eqn:Hn;
      destruct (Qltb (fsub now t_obj) (cooldown self)) eqn:Ho; simpl;
      try (apply Qltb_lt in Hn); try (apply Qltb_ge in Hn);
      try (apply Qltb_lt in Ho); try (apply Qltb_ge in Ho);
      (split; [|split; [|split]]).
    all: try (split; [intros; assumption | intros; discriminate]).
    all: try (split; [intros Hc; exfalso; apply Hc; reflexivity |]).
    all: try reflexivity.
    all: try (intros Heq; exfalso; rewrite Heq in *;
              first [ exact (Qlt_irrefl _ Hn) | exact (Qlt_irrefl _ Ho) ]).
    all: try (intros Hlt; exfalso;
              first [ exact (Qlt_not_le _ _ Hlt Hn)
                    | exact (Qlt_not_le _ _ Ho Hlt) ]). }
  destruct Hcode as (Hnone_iff & Hnone_eq & Hobj_iff & Hobj_eq).
  split; [exact Hnone_iff|]. split; [exact Hnone_eq|].
  split; [exact Hobj_iff|]. split; [exact Hobj_eq|].
  split.
  - intros Hexact. split.
    + rewrite <- Hexact. exact Hnone_iff.
    + intros Heq. apply Hnone_eq. rewrite Hexact. exact Heq.
  - intros Hexact. split.
    + rewrite <- Hexact. exact Hobj_iff.
    + intros Heq. apply Hobj_eq. rewrite Hexact. exact Heq.
Qed.

End VoiceClaims.

Section VoiceFrameFacts.

Import VoiceNotificationManager MainWindow.

Lemma count_detection_valid key class_name zone zone_objects :
  In zone ZoneDetector.zone_names ->
  Forall valid_info (map snd zone_objects) ->
  Forall valid_info (map snd (count_detection key class_name zone zone_objects)).
Proof.
  intros Hz. induction zone_objects as [|[k info] rest IH]; intros Hall; simpl.
  - constructor; [exact Hz|constructor].
  - inversion Hall as [|? ? Hinfo Hrest]; subst.
    destruct (String.eqb k key); simpl; constructor; auto.
Qed.

Lemma group_detections_valid (detections : list Detection) :
  Forall valid_detection detections ->
  Forall valid_info (map snd (group_detections detections).1).
Proof.
  unfold group_detections.
  assert (Hgen : forall acc : list (string * obj_info) * gset string,
             Forall valid_detection detections ->
             Forall valid_info (map snd acc.1) ->
             Forall valid_info
               (map snd (foldl (λ '(zone_objects, current_objects) det,
                            let key := det_class det +:+ "_" +:+ det_zone det in
                            (count_detection key (det_class det) (det_zone det)
                                             zone_objects,
                             current_objects ∪ {[key]}))
                          acc detections).1)).
  { induction detections as [|det rest IH]; intros [zo cur] Hdets Hacc; simpl.
    - exact Hacc.
    - inversion Hdets as [|? ? Hdet Hrest]; subst.
      apply IH; [exact Hrest|]. simpl.
      apply count_detection_valid; assumption. }
  intros Hdets. apply Hgen; [exact Hdets|constructor].
Qed.

(** The announcing loop never touches the reserved key or the cooldown. *)
Lemma announce_groups_reserved (fsub : Q → Q → Q)
    clock include_zone (infos : list obj_info) :
  Forall valid_info infos ->
  forall (i : nat) (vm : t),
    last_spoken_time (announce_groups fsub clock i include_zone infos vm).1
        !! no_detection_id
      = last_spoken_time vm !! no_detection_id
    /\ cooldown (announce_groups fsub clock i include_zone infos vm).1 = cooldown vm.
Proof.
  induction 1 as [|info rest Hinfo Hrest IH]; intros i vm; simpl.
  - split; reflexivity.
  - pose proof (announce_detection_frame fsub (clock i) (info_class info)
                  (info_zone info) include_zone (info_count info) vm
                  no_detection_id) as Hframe.
    pose proof (announce_detection_keeps_cooldown fsub (clock i) (info_class info)
                  (info_zone info) include_zone (info_count info) vm) as Hcd.
    destruct (announce_detection fsub (clock i) (info_class info) (info_zone info)
                include_zone (info_count info) vm) as [vm1 said].
    specialize (IH (S i) vm1).
    destruct (announce_groups fsub clock (S i) include_zone rest vm1) as [vm2 said'].
    simpl in *. destruct IH as [IHl IHc]. split.
    + rewrite IHl. apply Hframe. intros Heq. symmetry in Heq.
      exact (object_zone_id_not_reserved _ _ Hinfo Heq).
    + congruence.
Qed.

End VoiceFrameFacts.

Section VoiceFrameClaims.

Import VoiceNotificationManager MainWindow.

(** At exactly the cooldown: 5 after 0, and the doubles 5.2 after 0.2
    and 5.1 after 0.1, whose rounded differences are 5. *)
Lemma cooldown_boundary_asymmetry_witness :
  let self := mk 5 (<["no_detection" := 0%Q]> (<["person_gauche" := 0%Q]> ∅))
                 ∅ in
  let self' := mk 5 (<["no_detection" := binary64 (2 # 10)]>
                       (<["person_gauche" := binary64 (1 # 10)]> ∅)) ∅ in
  announce_no_detection double_sub 5 self = (self, [])
  /\ (announce_detection double_sub 5 "person" "gauche" true 1 self).2
     = ["person à gauche"]
  /\ announce_no_detection double_sub (binary64 (52 # 10)) self' = (self', [])
  /\ (announce_detection double_sub (binary64 (51 # 10)) "person" "gauche"
                         true 1 self').2
     = ["person à gauche"].
Proof.
  intros self self'.
  pose proof (cooldown_boundary_asymmetry double_sub self 0 0 "person" "gauche"
                ltac:(vm_compute; reflexivity) ltac:(vm_compute; reflexivity)
                5%Q true 1%Z) as (_ & Hsilent & _ & Hspeaks & _).
  pose proof (cooldown_boundary_asymmetry double_sub self'
                (binary64 (2 # 10)) (binary64 (1 # 10)) "person" "gauche"
                ltac:(vm_compute; reflexivity) ltac:(vm_compute; reflexivity)
                (binary64 (52 # 10)) true 1%Z) as (_ & Hsilent' & _).
  pose proof (cooldown_boundary_asymmetry double_sub self'
                (binary64 (2 # 10)) (binary64 (1 # 10)) "person" "gauche"
                ltac:(vm_compute; reflexivity) ltac:(vm_compute; reflexivity)
                (binary64 (51 # 10)) true 1%Z) as (_ & _ & _ & Hspeaks' & _).
  split; [|split; [|split]].
  - apply Hsilent. vm_compute. reflexivity.
  - apply Hspeaks. vm_compute. reflexivity.
  - apply Hsilent'. vm_compute. reflexivity.
  - apply Hspeaks'. vm_compute. reflexivity.
Defined.

(** C1, as the code has it.  When no no-detection timestamp is recorded,
    or more than [cooldown] has elapsed since it, [announce_no_detection]
    emits exactly one announcement, records the clock reading under the
    reserved key and empties [spoken_objects]; but it leaves every object
    key of [last_spoken_time] as it was.  So in the run
    [person in gauche] at 0, no detection at 1, [person in gauche] at 2
    (cooldown 5) the timestamp 0 of "person_gauche" survives the
    no-detection announcement and the person is not announced at 2. *)
Theorem announce_no_detection_keeps_object_timestamps (fsub : Q → Q → Q) :
  (forall (now : Q) (self : t),
      (forall last, last_spoken_time self !! no_detection_id = Some last ->
                    (cooldown self < fsub now last)%Q) ->
      (announce_no_detection fsub now self).2 = ["Aucun objet détecté"]
      /\ last_spoken_time (announce_no_detection fsub now self).1 !! no_detection_id
           = Some now
      /\ spoken_objects (announce_no_detection fsub now self).1 = ∅
      /\ forall key, key ≠ no_detection_id ->
           last_spoken_time (announce_no_detection fsub now self).1 !! key
             = last_spoken_time self !! key)
  /\ (let vm1 := (Scenario.frame 0 [Scenario.person "gauche"] (init 5)).1 in
      let vm2 := (Scenario.frame 1 [] vm1).1 in
      (Scenario.frame 0 [Scenario.person "gauche"] (init 5)).2 = ["person à gauche"]
      /\ (Scenario.frame 1 [] vm1).2 = ["Aucun objet détecté"]
      /\ last_spoken_time vm2 !! "no_detection" = Some 1%Q
      /\ last_spoken_time vm2 !! "person_gauche" = Some 0%Q
      /\ Scenario.frame 2 [Scenario.person "gauche"] vm2 = (vm2, [])).
Proof.
  split.
  - intros now self Hlast.
    assert (Hrun : announce_no_detection fsub now self =
                   (mk (cooldown self)
                       (<[no_detection_id := now]> (last_spoken_time self)) ∅,
                    ["Aucun objet détecté"])).
    { unfold announce_no_detection.
      destruct (last_spoken_time self !! no_detection_id) as [last|];
        [|reflexivity].
      specialize (Hlast last eq_refl). apply Qltb_lt in Hlast.
      rewrite Hlast. reflexivity. }
    rewrite Hrun. simpl. repeat split.
    + apply lookup_insert_eq.
    + intros key Hkey. apply lookup_insert_ne. congruence.
  - vm_compute. repeat split; reflexivity.
Qed.

Lemma announce_no_detection_keeps_object_timestamps_witness :
  let self := mk 5 (<["no_detection" := 0%Q]> (<["person_gauche" := 4%Q]> ∅))
                 {["person_gauche"]} in
  (announce_no_detection double_sub 6 self).2 = ["Aucun objet détecté"]
  /\ last_spoken_time (announce_no_detection double_sub 6 self).1 !! "person_gauche"
       = Some 4%Q.
Proof.
  intros self.
  pose proof (announce_no_detection_keeps_object_timestamps double_sub) as [Hgen _].
  destruct (Hgen 6%Q self) as (Hsaid & _ & _ & Hkeys).
  - intros last Hlast. vm_compute in Hlast. inversion Hlast; subst last.
    vm_compute. reflexivity.
  - split; [exact Hsaid|]. rewrite Hkeys; [reflexivity|discriminate].
Defined.

(** C3, counterexample.  No detection at 1 (announced), a person in
    "gauche" at 2, no detection at 3, cooldown 5: after the frame at 2
    the reserved key still records 1, and the frame at 3 is silent. *)
Lemma no_detection_state_not_cleared :
  let vm1 := (Scenario.frame 1 [] (VoiceNotificationManager.init 5)).1 in
  let vm2 := (Scenario.frame 2 [Scenario.person "gauche"] vm1).1 in
  (Scenario.frame 1 [] (VoiceNotificationManager.init 5)).2
    = ["Aucun objet détecté"]
  /\ VoiceNotificationManager.last_spoken_time vm2 !! "no_detection" ≠ None
  /\ VoiceNotificationManager.last_spoken_time vm2 !! "no_detection" = Some 1%Q
  /\ (Scenario.frame 3 [] vm2).2 = [].
Proof.
  vm_compute. repeat split; try reflexivity. discriminate.
Qed.

(** C3, amended.  Handling a frame with detections (each in one of the
    three zones) leaves the recorded no-detection timestamp and the
    cooldown as they were: [announce_detection] writes object keys only
    and [cleanup_old_objects] skips the reserved key.  So the next
    no-detection announcement is decided against the old timestamp: it
    fires exactly when more than [cooldown] has elapsed since the
    previous no-detection announcement. *)
Theorem no_detection_timestamp_survives_detections (fsub : Q → Q → Q)
    (vm : t) (voice_checked zone_checked : bool) (clock : nat → Q)
    (detections : list Detection)
    (Hsome : detections ≠ [])
    (Hzones : Forall valid_detection detections) :
  let vm' := (handle_voice_notifications fsub voice_checked zone_checked clock
                detections vm).1 in
  last_spoken_time vm' !! no_detection_id = last_spoken_time vm !! no_detection_id
  /\ cooldown vm' = cooldown vm
  /\ (forall now, (announce_no_detection fsub now vm').2 = (announce_no_detection fsub now vm).2)
  /\ (forall now last,
        last_spoken_time vm !! no_detection_id = Some last ->
        ((announce_no_detection fsub now vm').2 ≠ [] <-> (cooldown vm < fsub now last)%Q)).
Proof.
  intros vm'.
  assert (Hkeep : last_spoken_time vm' !! no_detection_id
                    = last_spoken_time vm !! no_detection_id
                  /\ cooldown vm' = cooldown vm).
  { unfold vm', handle_voice_notifications.
    destruct voice_checked; simpl; [|split; reflexivity].
    destruct detections as [|det rest]; [contradiction|].
    pose proof (group_detections_valid (det :: rest) Hzones) as Hvalid.
    destruct (group_detections (det :: rest)) as [zone_objects current].
    simpl in Hvalid.
    pose proof (announce_groups_reserved fsub clock zone_checked
                  (map snd zone_objects) Hvalid 0%nat vm) as [Hl Hc].
    destruct (announce_groups fsub clock 0 zone_checked (map snd zone_objects) vm)
      as [vm1 said]. cbn [fst snd] in *.
    split; [|exact Hc].
    rewrite lookup_cleanup_old_objects.
    case_decide as Hdel; [|exact Hl]. destruct Hdel as [Hne _]. contradiction. }
  destruct Hkeep as [Hl Hc].
  assert (Hsame : forall now,
             (announce_no_detection fsub now vm').2 = (announce_no_detection fsub now vm).2).
  { intros now. unfold announce_no_detection. rewrite Hl, Hc.
    destruct (match last_spoken_time vm !! no_detection_id with
              | Some last => Qltb (cooldown vm) (fsub now last)
              | None => true
              end); reflexivity. }
  split; [exact Hl|]. split; [exact Hc|]. split; [exact Hsame|].
  intros now last Hlast. rewrite Hsame.
  unfold announce_no_detection. rewrite Hlast.
  destruct (Qltb (cooldown vm) (fsub now last)) eqn:Hb; simpl.
  - apply Qltb_lt in Hb. split; [intros _; exact Hb|intros _; discriminate].
  - apply Qltb_ge in Hb. split.
    + intros Hc'. exfalso. apply Hc'. reflexivity.
    + intros Hlt. exfalso. exact (Qlt_not_le _ _ Hlt Hb).
Qed.

Lemma no_detection_timestamp_survives_detections_witness :
  let vm1 := (Scenario.frame 1 [] (VoiceNotificationManager.init 5)).1 in
  let vm2 := (Scenario.frame 2 [Scenario.person "gauche"] vm1).1 in
  VoiceNotificationManager.last_spoken_time vm2 !! "no_detection" = Some 1%Q
  /\ (VoiceNotificationManager.announce_no_detection double_sub 6 vm2).2 = []
  /\ (VoiceNotificationManager.announce_no_detection double_sub 7 vm2).2 ≠ [].
Proof.
  intros vm1 vm2.
  assert (Hsome : [Scenario.person "gauche"] ≠ []) by discriminate.
  assert (Hzones : Forall valid_detection [Scenario.person "gauche"]).
  { repeat constructor. }
  pose proof (no_detection_timestamp_survives_detections double_sub vm1 true true
                (Scenario.at_time 2) [Scenario.person "gauche"] Hsome Hzones)
    as (Hkey & _ & Hsame & Hiff).
  split; [|split].
  - etransitivity; [exact Hkey|]. vm_compute. reflexivity.
  - etransitivity; [apply (Hsame 6%Q)|]. vm_compute. reflexivity.
  - apply (Hiff 7%Q 1%Q); vm_compute; reflexivity.
Defined.

End VoiceFrameClaims.

(** ** Recorder *)

Section RecorderClaims.

Import VideoRecorder.

(** C7. While a session is active, [start_recording] returns the
    existing output path, opens no writer and leaves the recorder as it
    was; while none is active, [stop_recording] returns [(None, 0, 0.0)]
    without raising and without touching the recorder. *)
Theorem recorder_session_exclusive (self : t) :
  (is_recording_flag self = true ->
   forall timestamp opened now width height fps codec,
     start_recording timestamp opened now width height fps codec self
       = (Return (output_path self), self, []))
  /\ (is_recording_flag self = false ->
      forall now,
        stop_recording now self = (Return (None, 0%Z, 0%Q), self, [])).
Proof.
  split; intros Hflag; intros.
  - unfold start_recording. rewrite Hflag. reflexivity.
  - unfold stop_recording. rewrite Hflag. reflexivity.
Qed.

Lemma recorder_session_exclusive_witness :
  let active :=
    (start_recording "20240101_120000" true 10 640 480 20 "mp4v"
                     (init "/home/user/rec")).1.2 in
  output_path active = Some "/home/user/rec/recording_20240101_120000.mp4"
  /\ start_recording "20240101_120005" true 15 640 480 20 "mp4v" active
       = (Return (Some "/home/user/rec/recording_20240101_120000.mp4"),
          active, [])
  /\ stop_recording 3 (init "/home/user/rec")
       = (Return (None, 0%Z, 0%Q), init "/home/user/rec", []).
Proof.
  intros active. split; [reflexivity|]. split.
  - apply (proj1 (recorder_session_exclusive active) eq_refl).
  - apply (proj2 (recorder_session_exclusive (init "/home/user/rec")) eq_refl).
Defined.

(** C8. [write_frame] always returns a boolean, never an exception:
    [False], writing nothing, when no recording is active or there is no
    writer; [True], with the frame handed to the writer and the frame
    count one higher, when the write succeeds; [False], with the
    recorder unchanged, when the write raises. *)
Theorem write_frame_never_raises
    (write_result : result unit) (frame : Frame) (self : t) :
  (exists ok self' events,
      write_frame write_result frame self = (Return ok, self', events))
  /\ (is_recording_flag self = false \/ writer self = None ->
      write_frame write_result frame self = (Return false, self, []))
  /\ (forall w, is_recording_flag self = true -> writer self = Some w ->
      (is_raise write_result = false ->
       exists self',
         write_frame write_result frame self
           = (Return true, self', [WriteFrame w frame])
         /\ frame_count self' = (frame_count self + 1)%Z
         /\ writer self' = writer self
         /\ output_path self' = output_path self
         /\ is_recording_flag self' = true
         /\ start_time self' = start_time self)
      /\ (is_raise write_result = true ->
          write_frame write_result frame self = (Return false, self, []))).
Proof.
  unfold write_frame. split; [|split].
  - destruct (is_recording_flag self), (writer self), write_result; eauto.
  - intros [Hflag|Hw]; [rewrite Hflag; reflexivity|].
    rewrite Hw. destruct (is_recording_flag self); reflexivity.
  - intros w Hflag Hw. rewrite Hflag, Hw.
    destruct write_result as [[]|e]; simpl; split; try discriminate.
    + intros _. eexists. split; [reflexivity|]. simpl. auto.
    + reflexivity.
Qed.

Lemma write_frame_never_raises_witness :
  let active :=
    (start_recording "20240101_120000" true 10 2 1 20 "mp4v"
                     (init "/home/user/rec")).1.2 in
  write_frame (Return tt) [[(0, 0, 0); (255, 255, 255)]%Z] (init "/home/user/rec")
    = (Return false, init "/home/user/rec", [])
  /\ write_frame (Raise (OtherError "disk full")) [[(0, 0, 0); (255, 255, 255)]%Z]
       active = (Return false, active, [])
  /\ exists self',
       (write_frame (Return tt) [[(0, 0, 0); (255, 255, 255)]%Z] active).1
         = (Return true, self')
       /\ frame_count self' = 1%Z.
Proof.
  intros active.
  pose proof (write_frame_never_raises (Return tt) [[(0, 0, 0); (255, 255, 255)]%Z]
                (init "/home/user/rec")) as (_ & Hidle & _).
  pose proof (write_frame_never_raises (Raise (OtherError "disk full"))
                [[(0, 0, 0); (255, 255, 255)]%Z] active) as (_ & _ & Hfail).
  pose proof (write_frame_never_raises (Return tt)
                [[(0, 0, 0); (255, 255, 255)]%Z] active) as (_ & _ & Hgood).
  split; [|split].
  - apply Hidle. left. reflexivity.
  - destruct (Hfail _ eq_refl eq_refl) as [_ Hf]. apply Hf. reflexivity.
  - destruct (Hgood _ eq_refl eq_refl) as [Hg _].
    destruct (Hg eq_refl) as (self' & Hrun & Hcount & _).
    exists self'. rewrite Hrun. split; [reflexivity|exact Hcount].
Defined.

End RecorderClaims.

(** ** Frame pipeline *)

Section PipelineFacts.

Import VideoProcessorThread.

Lemma float_truediv_pos (x y : Q) :
  (0 < y)%Q -> float_truediv x y = Return (x / y)%Q.
Proof.
  intros Hy. unfold float_truediv.
  destruct (Qeq_bool y 0) eqn:Hz; [|reflexivity].
  apply Qeq_bool_iff in Hz. rewrite Hz in Hy.
  exfalso. exact (Qlt_irrefl _ Hy).
Qed.

(** C9. With [delta] the time since the previous frame: when
    [delta > 0] the frame rate becomes [1 / delta] (a division by a
    non-zero, positive number) and is emitted; when [delta <= 0] the
    frame rate is kept, nothing is emitted and the division is not
    evaluated at all: the result is the same for every division
    operator.  In both cases no exception is raised, the outcome does
    not depend on what division does on divisors that are zero or
    negative, and the state returned has [last_time] set to the clock
    reading, [frame_count] one higher, [frame_rate] equal to [1 / delta]
    or to the previous rate as above, and every other field as before.
    When [delta > 0] the division is evaluated: with any division
    operator, the quotient it returns is the frame rate stored and
    emitted, and the exception it raises is raised. *)
Theorem update_fps_division_guarded (current_time : Q) (self : t) :
  let delta := (current_time - last_time self)%Q in
  ((0 < delta)%Q ->
     ¬ (delta == 0)%Q
     /\ _update_fps current_time self
        = Return (set_fps_fields (1 / delta) current_time
                                 (frame_count self + 1) self,
                  [EmitFpsUpdate (1 / delta)]))
  /\ ((delta <= 0)%Q ->
      forall truediv,
        _update_fps_with truediv current_time self
          = Return (set_fps_fields (frame_rate self) current_time
                                   (frame_count self + 1) self, []))
  /\ is_raise (_update_fps current_time self) = false
  /\ (forall truediv,
        (forall x y, (0 < y)%Q -> truediv x y = float_truediv x y) ->
        _update_fps_with truediv current_time self
          = _update_fps current_time self)
  /\ (exists self' emitted,
        _update_fps current_time self = Return (self', emitted)
        /\ last_time self' = current_time
        /\ frame_count self' = (frame_count self + 1)%Z
        /\ ((0 < delta)%Q ->
            frame_rate self' = (1 / delta)%Q
            /\ emitted = [EmitFpsUpdate (1 / delta)])
        /\ ((delta <= 0)%Q ->
            frame_rate self' = frame_rate self /\ emitted = [])
        /\ source_type self' = source_type self
        /\ flip_frame self' = flip_frame self
        /\ conf_threshold self' = conf_threshold self
        /\ running self' = running self
        /\ paused self' = paused self
        /\ current_frame_width self' = current_frame_width self
        /\ current_frame_height self' = current_frame_height self
        /\ tracker self' = tracker self
        /\ model_loaded self' = model_loaded self
        /\ zone_detector self' = zone_detector self)
  /\ ((0 < delta)%Q ->
      forall truediv,
        match truediv 1%Q delta with
        | Return rate =>
            exists self',
              _update_fps_with truediv current_time self
                = Return (self', [EmitFpsUpdate rate])
              /\ frame_rate self' = rate
              /\ last_time self' = current_time
              /\ frame_count self' = (frame_count self + 1)%Z
        | Raise e => _update_fps_with truediv current_time self = Raise e
        end).
Proof.
  intros delta. unfold _update_fps, _update_fps_with. fold delta.
  destruct (Qltb 0 delta) eqn:Hd.
  - apply Qltb_lt in Hd. rewrite (float_truediv_pos 1 delta Hd).
    split; [|split; [|split; [|split; [|split]]]].
    + intros _. split; [|reflexivity].
      intros Hz. rewrite Hz in Hd. exact (Qlt_irrefl _ Hd).
    + intros Hle. exfalso. exact (Qlt_not_le _ _ Hd Hle).
    + reflexivity.
    + intros truediv Hagree. rewrite (Hagree 1%Q delta Hd).
      rewrite (float_truediv_pos 1 delta Hd). reflexivity.
    + eexists _, _. split; [reflexivity|]. cbn.
      repeat split; try reflexivity.
      all: exfalso; eapply Qlt_not_le; eassumption.
    + intros _ truediv. destruct (truediv 1%Q delta) as [rate|e];
        [|reflexivity].
      eexists. split; [reflexivity|]. repeat split.
  - apply Qltb_ge in Hd. split; [|split; [|split; [|split; [|split]]]].
    + intros Hlt. exfalso. exact (Qlt_not_le _ _ Hlt Hd).
    + reflexivity.
    + reflexivity.
    + reflexivity.
    + eexists _, _. split; [reflexivity|]. cbn.
      repeat split; try reflexivity.
      all: exfalso; eapply Qlt_not_le; eassumption.
    + intros Hlt. exfalso. exact (Qlt_not_le _ _ Hlt Hd).
Qed.

End PipelineFacts.

Section PipelineClaims.

Import VideoProcessorThread.

Lemma update_fps_division_guarded_witness :
  _update_fps (1 # 2) (init 0 true)
    = Return (set_fps_fields (1 / ((1 # 2) - 0)) (1 # 2) 1 (init 0 true),
              [EmitFpsUpdate (1 / ((1 # 2) - 0))])
  /\ _update_fps_with (λ _ _, Raise ZeroDivisionError) 3 (init 3 true)
     = Return (set_fps_fields 0 3 1 (init 3 true), [])
  /\ (exists self' emitted,
        _update_fps (1 # 2) (init 0 true) = Return (self', emitted)
        /\ last_time self' = (1 # 2)%Q
        /\ frame_count self' = 1%Z
        /\ frame_rate self' = (1 / ((1 # 2) - 0))%Q
        /\ emitted = [EmitFpsUpdate (1 / ((1 # 2) - 0))])
  /\ (exists self' emitted,
        _update_fps 3 (init 3 true) = Return (self', emitted)
        /\ last_time self' = 3%Q
        /\ frame_count self' = 1%Z
        /\ frame_rate self' = 0%Q
        /\ emitted = []).
Proof.
  pose proof (update_fps_division_guarded (1 # 2) (init 0 true))
    as (Hpos & _ & _ & _ & (s1 & e1 & Hrun1 & Ht1 & Hc1 & Hr1 & _) & _).
  pose proof (update_fps_division_guarded 3 (init 3 true))
    as (_ & Hskip & _ & _ & (s2 & e2 & Hrun2 & Ht2 & Hc2 & _ & Hr2 & _) & _).
  assert (Hlt : (0 < (1 # 2) - last_time (init 0 true))%Q)
    by (vm_compute; reflexivity).
  assert (Hle : (3 - last_time (init 3 true) <= 0)%Q)
    by (vm_compute; intros H; discriminate H).
  split; [apply Hpos; exact Hlt|].
  split; [apply Hskip; exact Hle|].
  split.
  - exists s1, e1. destruct (Hr1 Hlt) as [Hrate Hem].
    repeat split; assumption.
  - exists s2, e2. destruct (Hr2 Hle) as [Hrate Hem].
    repeat split; assumption.
Defined.

Lemma after_Some {A : Type} (pre : list action)
    (r : option (A * t * list action)) (a : A) (self : t) (acts : list action) :
  after pre r = Some (a, self, acts) ->
  exists acts', r = Some (a, self, acts') /\ acts = pre ++ acts'.
Proof.
  destruct r as [[[a' s'] acts']|]; simpl; [|discriminate].
  intros H. inversion H; subst. eauto.
Qed.

Lemma update_fps_emits (now : Q) (self self' : t) (emitted : list action) :
  _update_fps now self = Return (self', emitted) ->
  ¬ In CapRelease emitted /\ running self' = running self
  /\ source_type self' = source_type self.
Proof.
  unfold _update_fps, _update_fps_with.
  destruct (Qltb 0 (now - last_time self)).
  - destruct (float_truediv 1 (now - last_time self)); [|discriminate].
    intros H. inversion H; subst. simpl. split; [|auto].
    intros [Hc|[]]. discriminate.
  - intros H. inversion H; subst. simpl. auto.
Qed.

(** The loop itself never releases the capture handle. *)
Lemma processing_loop_no_release (ticks : list tick) :
  forall (self self' : t) (outcome : result unit) (acts : list action),
    processing_loop ticks self = Some (outcome, self', acts) ->
    ¬ In CapRelease acts.
Proof.
  induction ticks as [|tk rest IH]; intros self self' outcome acts Hrun;
    [discriminate|].
  cbn [processing_loop] in Hrun.
  destruct (negb (running (control tk self))).
  { inversion Hrun; subst. intros []. }
  destruct (paused (control tk self)).
  { apply after_Some in Hrun as (acts' & Hrest & ->).
    intros [Hc|Hin]; [discriminate|]. exact (IH _ _ _ _ Hrest Hin). }
  destruct (tick_read tk) as [[frame|]|e].
  - destruct (_process_frame _ _ frame _) as [[[processed dets]|e] s1].
    + destruct (_update_fps (tick_time tk) s1) as [[s2 emitted]|e] eqn:Hfps.
      * apply update_fps_emits in Hfps as (Hem & _ & _).
        apply after_Some in Hrun as (acts' & Hrest & ->).
        intros [Hc|Hin]; [discriminate|].
        apply in_app_or in Hin as [Hin|Hin].
        -- apply in_app_or in Hin as [Hin|[Hc|[]]];
             [exact (Hem Hin)|discriminate].
        -- exact (IH _ _ _ _ Hrest Hin).
      * inversion Hrun; subst. intros [Hc|[]]. discriminate.
    + inversion Hrun; subst. intros [Hc|[]]. discriminate.
  - destruct (String.eqb _ _).
    + apply after_Some in Hrun as (acts' & Hrest & ->).
      intros [Hc|[Hc|Hin]]; [discriminate|discriminate|].
      exact (IH _ _ _ _ Hrest Hin).
    + inversion Hrun; subst. intros [Hc|[]]. discriminate.
  - inversion Hrun; subst. intros [Hc|[]]. discriminate.
Qed.

End PipelineClaims.

Section PipelineRun.

Import VideoProcessorThread.

Lemma control_keeps_running (tk : tick) (self : t) :
  running self = true -> tick_stop tk = false -> tick_paused tk = false ->
  running (control tk self) = true /\ paused (control tk self) = false
  /\ source_type (control tk self) = source_type self.
Proof.
  intros Hrun Hstop Hpause. unfold control. simpl.
  rewrite Hrun, Hstop, Hpause. auto.
Qed.

(** Whenever the loop is left, [run] returns: it reports an exception
    if there was one, releases the handle last, and clears [running]. *)
Lemma run_after_loop width height ticks (self s : t) outcome acts :
  processing_loop ticks (enter_loop width height self) = Some (outcome, s, acts) ->
  run (Opened width height) ticks self
    = Some (set_running false s,
            acts
              ++ match outcome with
                 | Raise e =>
                     [EmitCameraError
                        ("Error in video processing: " +:+ exn_message e)]
                 | Return _ => []
                 end
              ++ [CapRelease]).
Proof.
  intros Hloop. unfold run. simpl. rewrite Hloop. reflexivity.
Qed.

(** C6. A turn of the running loop whose read fails: on a file source
    it rewinds the capture to frame 0 and goes on with the next turn,
    still running; on any other source it leaves the loop.  And however
    the loop is left (stop flag, end of a live stream, exception), [run]
    returns with [running] cleared and, when a handle was opened, with
    the handle released exactly once, as its last action; when no
    handle was opened there is nothing to release. *)
Theorem end_of_stream_and_release :
  (forall (tk : tick) (rest : list tick) (self : t),
      running self = true -> tick_stop tk = false -> tick_paused tk = false ->
      tick_read tk = Return None ->
      (source_type self = "file" ->
         running (control tk self) = true
         /\ processing_loop (tk :: rest) self
            = after [CapRead; CapSetPosFrames 0]
                    (processing_loop rest (control tk self)))
      /\ (source_type self ≠ "file" ->
          processing_loop (tk :: rest) self
            = Some (Return tt, control tk self, [CapRead])))
  /\ (forall width height ticks (self s : t) outcome acts,
        processing_loop ticks (enter_loop width height self)
          = Some (outcome, s, acts) ->
        exists reported,
          run (Opened width height) ticks self
            = Some (set_running false s, acts ++ reported ++ [CapRelease])
          /\ ¬ In CapRelease (acts ++ reported))
  /\ (forall (o : open_result) ticks (self self' : t) acts,
        run o ticks self = Some (self', acts) ->
        running self' = false
        /\ match o with
           | Opened _ _ =>
               exists before, acts = before ++ [CapRelease]
                              /\ ¬ In CapRelease before
           | _ => ¬ In CapRelease acts
           end).
Proof.
  split; [|split].
  - intros tk rest self Hrun Hstop Hpause Hread.
    destruct (control_keeps_running tk self Hrun Hstop Hpause)
      as (Hr & Hp & Hsrc).
    split; intros Hkind.
    + split; [exact Hr|].
      cbn [processing_loop]. rewrite Hr, Hp, Hread, Hsrc, Hkind. reflexivity.
    + cbn [processing_loop]. rewrite Hr, Hp, Hread, Hsrc.
      apply String.eqb_neq in Hkind. rewrite Hkind. reflexivity.
  - intros width height ticks self s outcome acts Hloop.
    eexists. split; [apply run_after_loop; exact Hloop|].
    pose proof (processing_loop_no_release _ _ _ _ _ Hloop) as Hno.
    intros Hin. apply in_app_or in Hin as [Hin|Hin]; [exact (Hno Hin)|].
    destruct outcome; simpl in Hin; [contradiction|].
    destruct Hin as [Hc|[]]. discriminate.
  - intros o ticks self self' acts Hrun. unfold run in Hrun.
    destruct o as [width height| |msg]; simpl in Hrun.
    + destruct (processing_loop ticks (enter_loop width height self))
        as [[[outcome s] acts']|] eqn:Hloop; [|discriminate].
      inversion Hrun; subst. split; [reflexivity|].
      pose proof (processing_loop_no_release _ _ _ _ _ Hloop) as Hno.
      eexists. split; [rewrite app_assoc; reflexivity|].
      intros Hin. apply in_app_or in Hin as [Hin|Hin]; [exact (Hno Hin)|].
      destruct outcome; simpl in Hin; [contradiction|].
      destruct Hin as [Hc|[]]. discriminate.
    + inversion Hrun; subst. split; [reflexivity|].
      intros [Hc|[]]. discriminate.
    + inversion Hrun; subst. split; [reflexivity|].
      intros [Hc|[]]. discriminate.
Qed.

Lemma end_of_stream_and_release_witness :
  processing_loop [Scenario.end_of_stream; Scenario.stop_request]
                  (enter_loop 640 480 Scenario.file_thread)
    = Some (Return tt,
            control Scenario.stop_request
              (control Scenario.end_of_stream
                 (enter_loop 640 480 Scenario.file_thread)),
            [CapRead; CapSetPosFrames 0])
  /\ processing_loop [Scenario.end_of_stream; Scenario.stop_request]
                     (enter_loop 640 480 Scenario.webcam_thread)
     = Some (Return tt,
             control Scenario.end_of_stream
               (enter_loop 640 480 Scenario.webcam_thread),
             [CapRead])
  /\ exists self',
       run (Opened 640 480) [Scenario.broken_read] Scenario.webcam_thread
         = Some (self',
                 [CapRead;
                  EmitCameraError "Error in video processing: device lost";
                  CapRelease])
       /\ running self' = false.
Proof.
  pose proof end_of_stream_and_release as (Hturn & Hexit & Hany).
  split; [|split].
  - destruct (Hturn Scenario.end_of_stream [Scenario.stop_request]
                (enter_loop 640 480 Scenario.file_thread)
                eq_refl eq_refl eq_refl eq_refl) as [Hfile _].
    destruct (Hfile eq_refl) as [_ Hloop].
    rewrite Hloop. reflexivity.
  - destruct (Hturn Scenario.end_of_stream [Scenario.stop_request]
                (enter_loop 640 480 Scenario.webcam_thread)
                eq_refl eq_refl eq_refl eq_refl) as [_ Hlive].
    apply Hlive. discriminate.
  - eexists. split; [reflexivity|].
    apply (Hany (Opened 640 480) [Scenario.broken_read] Scenario.webcam_thread
             _ _ eq_refl).
Defined.

End PipelineRun.

(** * Further properties of the code *)

(** ** Zones: order, colours, boundary refresh *)

Section ZoneExtras.

Import ZoneDetector ZoneDisplay.
Local Open Scope Z_scope.

Lemma zone_rank_center (cx : Z) (zd : ZoneDetector.t) bbox :
  zone_rank (get_zone bbox (Some cx) zd)
    = if cx <? left_boundary zd then 0
      else if cx >? right_boundary zd then 2 else 1.
Proof.
  rewrite get_zone_center.
  destruct (cx <? left_boundary zd); [reflexivity|].
  destruct (cx >? right_boundary zd); reflexivity.
Qed.

(** X1. An object further to the right is never classified further to
    the left: the zone is monotone in [center_x], and in the corners of
    a bounding box, whatever the boundaries are. *)
Theorem get_zone_monotone (zd : ZoneDetector.t) :
  (forall bbox1 bbox2 (cx1 cx2 : Z),
      cx1 <= cx2 ->
      zone_rank (get_zone bbox1 (Some cx1) zd)
        <= zone_rank (get_zone bbox2 (Some cx2) zd))
  /\ (forall x1 y1 x2 y2 x1' y1' x2' y2' : Z,
        x1 <= x1' -> x2 <= x2' ->
        zone_rank (get_zone (Some (x1, y1, x2, y2)) None zd)
          <= zone_rank (get_zone (Some (x1', y1', x2', y2')) None zd)).
Proof.
  assert (Hcx : forall bbox1 bbox2 (cx1 cx2 : Z),
             cx1 <= cx2 ->
             zone_rank (get_zone bbox1 (Some cx1) zd)
               <= zone_rank (get_zone bbox2 (Some cx2) zd)).
  { intros bbox1 bbox2 cx1 cx2 Hle. rewrite !zone_rank_center.
    destruct (Z.ltb_spec cx1 (left_boundary zd));
      destruct (Z.ltb_spec cx2 (left_boundary zd));
      destruct (Z.gtb_spec cx1 (right_boundary zd));
      destruct (Z.gtb_spec cx2 (right_boundary zd)); lia. }
  split; [exact Hcx|].
  intros x1 y1 x2 y2 x1' y1' x2' y2' H1 H2.
  change (get_zone (Some (x1, y1, x2, y2)) None zd)
    with (get_zone None (Some ((x1 + x2) / 2)) zd).
  change (get_zone (Some (x1', y1', x2', y2')) None zd)
    with (get_zone None (Some ((x1' + x2') / 2)) zd).
  apply Hcx. apply Z.div_le_mono; lia.
Qed.

Lemma get_zone_monotone_witness :
  zone_rank (get_zone None (Some 100) (init 640 3))
    <= zone_rank (get_zone None (Some 250) (init 640 3))
  /\ zone_rank (get_zone (Some (200, 0, 300, 10)) None (init 640 3))
     <= zone_rank (get_zone (Some (400, 5, 600, 90)) None (init 640 3)).
Proof.
  pose proof (get_zone_monotone (init 640 3)) as [Hcx Hbox].
  split.
  - apply Hcx. lia.
  - apply Hbox; lia.
Defined.

(** X2. The colour of a zone returned by [get_zone] is one of the three
    zone colours, a different one for each zone and never the white
    fallback; a name that is not a zone name gets the white fallback. *)
Theorem zone_color_total :
  (forall bbox center_x (zd : ZoneDetector.t),
      let zone := get_zone bbox center_x zd in
      get_zone_color zone ≠ (255, 255, 255)
      /\ (get_zone_color zone = (70, 70, 200) <-> zone = "gauche")
      /\ (get_zone_color zone = (70, 200, 70) <-> zone = "milieu")
      /\ (get_zone_color zone = (200, 70, 70) <-> zone = "droite"))
  /\ (forall zone : string,
        ¬ In zone zone_names -> get_zone_color zone = (255, 255, 255)).
Proof.
  split.
  - intros bbox center_x zd zone.
    pose proof (get_zone_in_names bbox center_x zd) as Hin. fold zone in Hin.
    simpl in Hin. destruct Hin as [<-|[<-|[<-|[]]]]; vm_compute;
      repeat split; intros; try discriminate; try reflexivity.
  - intros zone Hzone. unfold get_zone_color, ZONE_COLORS. simpl.
    rewrite !lookup_insert_ne, lookup_empty; [reflexivity| | |];
      intros <-; apply Hzone; simpl; auto.
Qed.

Lemma zone_color_total_witness :
  get_zone_color "haut" = (255, 255, 255)
  /\ get_zone_color (get_zone None (Some 10) (init 640 3)) = (70, 70, 200).
Proof.
  pose proof zone_color_total as [Hzone Hother].
  split.
  - apply Hother. simpl. intros [H|[H|[H|[]]]]; discriminate.
  - apply (Hzone None (Some 10) (init 640 3)). reflexivity.
Defined.

(** X3. A detector built by the constructor or by [update_boundaries]
    has its boundaries at the thirds of its recorded width, and the
    refresh at the head of [draw_zones] keeps that: afterwards the
    recorded width is the width of the frame, the boundaries are the
    thirds of it, and a second refresh with the same frame changes
    nothing. *)
Theorem draw_zones_keeps_thirds (frame : Frame) (zd : ZoneDetector.t)
    (Hthirds : in_thirds zd) :
  let zd' := draw_zones_boundaries frame zd in
  in_thirds zd'
  /\ frame_width zd' = (frame_shape frame).2
  /\ left_boundary zd' = (frame_shape frame).2 / 3
  /\ right_boundary zd' = 2 * (frame_shape frame).2 / 3
  /\ divisions zd' = divisions zd
  /\ draw_zones_boundaries frame zd' = zd'
  /\ (forall W d, in_thirds (init W d))
  /\ (forall W, in_thirds (update_boundaries W zd)).
Proof.
  intros zd'. unfold zd', draw_zones_boundaries, frame_shape.
  set (width := Z.of_nat (length (hd [] frame))).
  destruct Hthirds as [Hl Hr]. cbn [snd].
  destruct (Z.eqb_spec width (frame_width zd)) as [Heq|Hne]; cbn [negb].
  - rewrite Heq. repeat split; try assumption; try reflexivity.
    destruct (Z.eqb_spec (frame_width zd) (frame_width zd)); [reflexivity|lia].
  - repeat split; simpl.
    rewrite Z.eqb_refl. reflexivity.
Qed.

Lemma draw_zones_keeps_thirds_witness :
  left_boundary (draw_zones_boundaries [[(0, 0, 0); (1, 1, 1); (2, 2, 2);
                                         (3, 3, 3); (4, 4, 4); (5, 5, 5)]]
                   (init 640 3)) = 2
  /\ right_boundary (draw_zones_boundaries [[(0, 0, 0); (1, 1, 1); (2, 2, 2);
                                             (3, 3, 3); (4, 4, 4); (5, 5, 5)]]
                       (init 640 3)) = 4.
Proof.
  assert (Hinit : in_thirds (init 640 3)) by (split; reflexivity).
  pose proof (draw_zones_keeps_thirds
                [[(0, 0, 0); (1, 1, 1); (2, 2, 2);
                  (3, 3, 3); (4, 4, 4); (5, 5, 5)]] (init 640 3) Hinit)
    as (_ & _ & Hl & Hr & _).
  split; [exact Hl|exact Hr].
Defined.

End ZoneExtras.

(** ** Object tracker *)

Section TrackerExtras.

Import ObjectTracker.
Local Open Scope Z_scope.

Lemma int64_wrap_fits (z : Z) : fits_int64 z -> int64_wrap z = z.
Proof.
  unfold fits_int64, int64_wrap. intros Hz.
  rewrite Z.mod_small by lia. lia.
Qed.

Lemma midpoint_in_box (a b : Z) : a <= b -> a <= (a + b) / 2 <= b.
Proof.
  intros Hle.
  pose proof (Z.div_mod (a + b) 2 ltac:(lia)).
  pose proof (Z.mod_pos_bound (a + b) 2 ltac:(lia)). lia.
Qed.

Lemma make_detection_centered ids i box : centered (make_detection ids i box).
Proof.
  unfold centered, make_detection.
  destruct (box_xyxy box) as [[[x1 y1] x2] y2].
  cbn [obj_bbox obj_center fst snd].
  split; [reflexivity|]. split; intros Hfits.
  - rewrite (int64_wrap_fits _ Hfits).
    split; [reflexivity|apply midpoint_in_box].
  - rewrite (int64_wrap_fits _ Hfits).
    split; [reflexivity|apply midpoint_in_box].
Qed.

Lemma result_detections_centered ids boxes :
  forall i, Forall centered (result_detections ids i boxes).
Proof.
  induction boxes as [|box rest IH]; intros i; simpl; constructor.
  - apply make_detection_centered.
  - apply IH.
Qed.

Lemma all_detections_centered results : Forall centered (all_detections results).
Proof.
  unfold all_detections. induction results as [|r rest IH]; simpl.
  - constructor.
  - apply Forall_app. split; [apply result_detections_centered|exact IH].
Qed.

(** X4. Every object [track] returns has as centre half the sums of
    opposite corners, formed on 64 bits as numpy forms them.  Whenever
    such a sum fits in 64 bits the coordinate is the floor of the
    midpoint of the box, inside the box when the corners are in order.
    Classifying the object by its box as the pipeline does, on the same
    numpy corners, always gives the zone of its recorded centre; so does
    [get_zone] on the box read as Python integers when the sum of the
    horizontal corners fits in 64 bits. *)
Theorem track_center_in_box (results : list Result) (self : t)
    (zd : ZoneDetector.t) :
  Forall (λ det,
            centered det
            ∧ VideoProcessorThread.zone_of_bbox (obj_bbox det) zd
              = ZoneDetector.get_zone None (Some (obj_center det).1) zd
            ∧ (fits_int64 ((obj_bbox det).1.1.1 + (obj_bbox det).1.2) ->
               ZoneDetector.get_zone (Some (obj_bbox det)) None zd
               = ZoneDetector.get_zone None (Some (obj_center det).1) zd))
         (track results self).1.
Proof.
  unfold track. destruct (model self); simpl; [|constructor].
  eapply Forall_impl; [apply all_detections_centered|].
  intros det Hc. split; [exact Hc|].
  unfold centered in Hc. unfold VideoProcessorThread.zone_of_bbox.
  destruct (obj_bbox det) as [[[x1 y1] x2] y2].
  destruct Hc as (Hcenter & Hx & _). cbn [fst snd].
  split.
  - rewrite Hcenter. reflexivity.
  - intros Hfits. destruct (Hx Hfits) as [-> _]. reflexivity.
Qed.

Lemma track_center_in_box_witness :
  let results :=
    [mk_result [mk_box (2, 0, 12, 10) (9 # 10) 0 "person";
                mk_box (2 ^ 62, 0, 2 ^ 62, 4) (1 # 2) 0 "person"] None] in
  map obj_center (track results (init true)).1 = [(7, 5); (- 2 ^ 62, 2)]
  /\ map (λ det, ZoneDetector.get_zone None (Some (obj_center det).1)
                   (ZoneDetector.init 900 3))
         (track results (init true)).1
     = ["gauche"; "gauche"]
  /\ Forall (λ det,
               VideoProcessorThread.zone_of_bbox (obj_bbox det)
                                                 (ZoneDetector.init 900 3)
               = ZoneDetector.get_zone None (Some (obj_center det).1)
                                       (ZoneDetector.init 900 3))
            (track results (init true)).1.
Proof.
  intros results.
  split; [vm_compute; reflexivity|].
  split; [vm_compute; reflexivity|].
  eapply Forall_impl;
    [apply (track_center_in_box results (init true)
              (ZoneDetector.init 900 3))|].
  intros det (_ & Hzone & _). exact Hzone.
Defined.

Lemma result_detections_lookup ids boxes :
  forall (i k : nat),
    result_detections ids i boxes !! k
      = make_detection ids (i + k) <$> boxes !! k.
Proof.
  induction boxes as [|box rest IH]; intros i k; simpl.
  - reflexivity.
  - destruct k as [|k]; simpl.
    + rewrite Nat.add_0_r. reflexivity.
    + rewrite IH. replace (S i + k)%nat with (i + S k)%nat by lia. reflexivity.
Qed.

Lemma result_detections_length ids boxes :
  forall i, length (result_detections ids i boxes) = length boxes.
Proof. induction boxes as [|box rest IH]; intros i; simpl; auto. Qed.

Lemma result_detections_ids ids boxes :
  forall i,
    map obj_id (result_detections ids i boxes)
      = map (λ k, match ids with
                  | Some l => default (Z.of_nat k) (l !! k)
                  | None => Z.of_nat k
                  end) (seq i (length boxes)).
Proof.
  induction boxes as [|box rest IH]; intros i; simpl; [reflexivity|].
  rewrite IH. f_equal.
  unfold make_detection. destruct (box_xyxy box) as [[[x1 y1] x2] y2]. simpl.
  destruct ids as [l|]; [|reflexivity]. destruct (l !! i); reflexivity.
Qed.

(** X5. One result with [n] boxes gives [n] objects, in the order of
    the boxes and with their corners.  Without tracking ids the objects
    are numbered 0 .. n-1, all different; with at least [n] tracking
    ids, object [k] carries the [k]-th id; with fewer, the objects past
    the end of the id list fall back to their index. *)
Theorem track_ids_assignment (boxes : list Box) :
  (forall ids, length (result_detections ids 0 boxes) = length boxes)
  /\ (forall ids,
        map obj_bbox (result_detections ids 0 boxes) = map box_xyxy boxes)
  /\ map obj_id (result_detections None 0 boxes)
     = map Z.of_nat (seq 0 (length boxes))
  /\ NoDup (map obj_id (result_detections None 0 boxes))
  /\ (forall ids : list Z,
        (length boxes <= length ids)%nat ->
        map obj_id (result_detections (Some ids) 0 boxes)
          = take (length boxes) ids)
  /\ (forall (ids : list Z) (k : nat) det,
        (length ids <= k)%nat ->
        result_detections (Some ids) 0 boxes !! k = Some det ->
        obj_id det = Z.of_nat k).
Proof.
  split; [intros; apply result_detections_length|].
  split.
  { intros ids. generalize 0%nat.
    induction boxes as [|box rest IH]; intros i; simpl; [reflexivity|].
    rewrite IH. f_equal. unfold make_detection.
    destruct (box_xyxy box) as [[[x1 y1] x2] y2]. reflexivity. }
  assert (Hnone : map obj_id (result_detections None 0 boxes)
                  = map Z.of_nat (seq 0 (length boxes))).
  { apply result_detections_ids. }
  split; [exact Hnone|]. split.
  { rewrite Hnone. apply (NoDup_fmap_2 Z.of_nat). apply NoDup_seq. }
  split.
  - intros ids Hlen. rewrite result_detections_ids.
    apply list_eq. intros k.
    rewrite list_lookup_fmap, lookup_take.
    destruct (decide (k < length boxes)%nat) as [Hk|Hk].
    + rewrite lookup_seq_lt by exact Hk. simpl.
      destruct (lookup_lt_is_Some_2 ids k ltac:(lia)) as [id Hid].
      rewrite Hid. reflexivity.
    + rewrite lookup_seq_ge by lia. reflexivity.
  - intros ids k det Hk Hdet.
    rewrite result_detections_lookup in Hdet.
    destruct (boxes !! k) as [box|]; [|discriminate].
    simpl in Hdet. inversion Hdet; subst det. unfold make_detection.
    destruct (box_xyxy box) as [[[x1 y1] x2] y2]. simpl.
    rewrite (lookup_ge_None_2 ids k Hk). reflexivity.
Qed.

Lemma track_ids_assignment_witness :
  map obj_id (result_detections (Some [7; 9; 4])%Z 0
                [mk_box (0, 0, 10, 10) 1 0 "person";
                 mk_box (5, 5, 30, 40) 1 2 "car"])
    = [7; 9]
  /\ obj_id (make_detection (Some [7]) 1 (mk_box (5, 5, 30, 40) 1 2 "car"))
     = 1.
Proof.
  pose proof (track_ids_assignment [mk_box (0, 0, 10, 10) 1 0 "person";
                                    mk_box (5, 5, 30, 40) 1 2 "car"])
    as (_ & _ & _ & _ & Hlong & Hshort).
  split.
  - apply (Hlong [7; 9; 4]). simpl. lia.
  - apply (Hshort [7] 1%nat); [simpl; lia|reflexivity].
Defined.

End TrackerExtras.

Section TrackerRegistry.

Import ObjectTracker.

Lemma register_other (detections : list TrackedObject) :
  forall (m : gmap Z TrackedObject) (id : Z),
    id ∉ map obj_id detections ->
    register detections m !! id = m !! id.
Proof.
  unfold register.
  induction detections as [|det rest IH]; intros m id Hnot; simpl.
  - reflexivity.
  - rewrite IH.
    + apply lookup_insert_ne. intros Heq. apply Hnot. simpl.
      rewrite Heq. apply elem_of_cons. by left.
    + intros Hin. apply Hnot. simpl. apply elem_of_cons. by right.
Qed.

Lemma register_seen (detections : list TrackedObject) :
  forall (m : gmap Z TrackedObject) (det : TrackedObject),
    det ∈ detections ->
    exists det', det' ∈ detections ∧ obj_id det' = obj_id det
                 ∧ register detections m !! obj_id det = Some det'.
Proof.
  induction detections as [|d rest IH]; intros m det Hin.
  - by apply elem_of_nil in Hin.
  - destruct (decide (obj_id det ∈ map obj_id rest)) as [Hlater|Hlast].
    + apply list_elem_of_fmap in Hlater as (d2 & Hid & Hd2).
      destruct (IH (<[obj_id d := d]> m) d2 Hd2) as (det' & Hin' & Hid' & Hl).
      exists det'. split; [apply elem_of_cons; by right|].
      split; [congruence|]. rewrite Hid. exact Hl.
    + apply elem_of_cons in Hin as [->|Hin].
      * exists d. split; [apply elem_of_cons; by left|]. split; [reflexivity|].
        unfold register. simpl. fold (register rest (<[obj_id d := d]> m)).
        rewrite register_other by exact Hlast. apply lookup_insert_eq.
      * exfalso. apply Hlast. apply list_elem_of_fmap. eauto.
Qed.

(** X6. After [track], looking up the id of any returned object gives
    an object of this frame with that id (the object itself when the
    ids of the frame are all different), while every id that does not
    occur in the frame keeps the entry it had: tracks that are lost are
    never dropped from the registry.  Without a model nothing is
    returned and the registry is untouched. *)
Theorem track_registry (results : list Result) (self : t) :
  let '(detections, self') := track results self in
  (forall det, det ∈ detections ->
     exists det', det' ∈ detections ∧ obj_id det' = obj_id det
                  ∧ get_object_by_id (obj_id det) self' = Some det')
  /\ (NoDup (map obj_id detections) ->
      forall det, det ∈ detections ->
        get_object_by_id (obj_id det) self' = Some det)
  /\ (forall id, id ∉ map obj_id detections ->
        get_object_by_id id self' = get_object_by_id id self)
  /\ (forall id, is_Some (get_object_by_id id self) ->
        is_Some (get_object_by_id id self'))
  /\ (model self = false -> detections = [] ∧ self' = self).
Proof.
  unfold track. destruct (model self) eqn:Hmodel; simpl.
  - unfold get_object_by_id. simpl.
    set (detections := all_detections results).
    assert (Hseen := register_seen detections (tracked_objects self)).
    split; [exact Hseen|]. split; [|split; [|split]].
    + intros Hnodup det Hin.
      destruct (Hseen det Hin) as (det' & Hin' & Hid & Hl).
      rewrite Hl. f_equal.
      apply list_elem_of_lookup in Hin as [i Hi].
      apply list_elem_of_lookup in Hin' as [j Hj].
      assert (i = j) as <-.
      { eapply (NoDup_lookup _ i j (obj_id det) Hnodup).
        - rewrite list_lookup_fmap. simpl. rewrite Hi. reflexivity.
        - rewrite list_lookup_fmap. simpl. rewrite Hj. simpl. by f_equal. }
      congruence.
    + intros id Hnot. apply register_other. exact Hnot.
    + intros id Hsome.
      destruct (decide (id ∈ map obj_id detections)) as [Hin|Hnot].
      * apply list_elem_of_fmap in Hin as (det & -> & Hdet).
        destruct (Hseen det Hdet) as (det' & _ & _ & Hl).
        rewrite Hl. eauto.
      * rewrite register_other by exact Hnot. exact Hsome.
    + discriminate.
  - split; [intros det Hin; by apply elem_of_nil in Hin|].
    split; [intros _ det Hin; by apply elem_of_nil in Hin|].
    split; [reflexivity|]. split; [auto|]. auto.
Qed.

Lemma track_registry_witness :
  let first := track [mk_result [mk_box (0, 0, 10, 10) 1 0 "person";
                                 mk_box (5, 5, 30, 40) 1 2 "car"]%Z
                                (Some [7; 9]%Z)] (init true) in
  let second := track [mk_result [mk_box (2, 0, 12, 10)%Z 1 0%Z "person"]
                                 (Some [7%Z])] first.2 in
  obj_class <$> get_object_by_id 9 second.2 = Some "car"
  /\ obj_bbox <$> get_object_by_id 7 second.2 = Some (2, 0, 12, 10)%Z.
Proof.
  intros first second.
  pose proof (track_registry
                [mk_result [mk_box (2, 0, 12, 10)%Z 1 0%Z "person"]
                           (Some [7%Z])] first.2) as Hreg.
  fold second in Hreg. destruct second as [detections self'] eqn:Hsecond.
  destruct Hreg as (_ & Hunique & Hother & _).
  assert (Hdets : detections
                  = [mkTracked 7 (2, 0, 12, 10)%Z (7, 5)%Z 1 "person" 0]).
  { apply (f_equal fst) in Hsecond. vm_compute in Hsecond. congruence. }
  split.
  - simpl. rewrite Hother.
    + vm_compute. reflexivity.
    + rewrite Hdets. simpl. intros Hin.
      apply elem_of_cons in Hin as [Hc|Hin]; [discriminate|].
      by apply elem_of_nil in Hin.
  - assert (Hin : mkTracked 7 (2, 0, 12, 10)%Z (7, 5)%Z 1 "person" 0
                  ∈ detections).
    { rewrite Hdets. apply elem_of_cons. by left. }
    assert (Hnodup : NoDup (map obj_id detections)).
    { rewrite Hdets. apply NoDup_singleton. }
    pose proof (Hunique Hnodup _ Hin) as Hl. simpl in Hl.
    simpl. rewrite Hl. reflexivity.
Defined.

End TrackerRegistry.

(** ** Detector models *)

Section DetectorExtras.

Import YOLODetector.

Lemma dict_mem_keys key d : dict_mem key d = true <-> In key (map fst d).
Proof.
  unfold dict_mem. rewrite existsb_exists. split.
  - intros ([k v] & Hin & Heq). simpl in Heq. apply String.eqb_eq in Heq.
    subst k. apply in_map_iff. exists (key, v). auto.
  - intros Hin. apply in_map_iff in Hin as ([k v] & Hk & Hin). simpl in Hk.
    subst k. exists (key, v). split; [exact Hin|]. apply String.eqb_refl.
Qed.

Lemma dict_get_unique key value d :
  NoDup (map fst d) -> In (key, value) d -> dict_get key d = value.
Proof.
  induction d as [|[k v] rest IH]; intros Hnodup Hin; [destruct Hin|].
  simpl in *. apply NoDup_cons in Hnodup as [Hk Hrest].
  destruct Hin as [Heq|Hin].
  - inversion Heq; subst. rewrite String.eqb_refl. reflexivity.
  - destruct (String.eqb_spec k key) as [->|Hne].
    + exfalso. apply Hk. apply list_elem_of_In.
      apply in_map_iff. exists (key, value). auto.
    + apply IH; assumption.
Qed.

Lemma available_iff_loaded (self : t) (name : string) :
  NoDup (map fst (models self)) ->
  (is_model_loaded name self = true <-> In name (get_available_models self)).
Proof.
  intros Hnodup. unfold is_model_loaded, get_available_models.
  rewrite andb_true_iff, bool_decide_eq_true, dict_mem_keys. split.
  - intros [Hkey [file Hfile]]. apply in_map_iff in Hkey as ([k v] & Hk & Hin).
    simpl in Hk. subst k.
    rewrite (dict_get_unique name v _ Hnodup Hin) in Hfile. subst v.
    apply in_map_iff. exists (name, Some file). split; [reflexivity|].
    apply list_elem_of_In. apply list_elem_of_filter. split; [simpl; eauto|].
    apply list_elem_of_In. exact Hin.
  - intros Hin. apply in_map_iff in Hin as ([k v] & Hk & Hin). simpl in Hk.
    subst k. apply list_elem_of_In in Hin.
    apply list_elem_of_filter in Hin as [Hsome Hin]. simpl in Hsome.
    apply list_elem_of_In in Hin. split.
    + apply in_map_iff. exists (name, v). auto.
    + rewrite (dict_get_unique name v _ Hnodup Hin). exact Hsome.
Qed.

(** X7. [switch_model] succeeds exactly for the models that
    [is_model_loaded] reports.  A refused switch (unknown name, or a
    model that failed to load) leaves the detector as it was; a
    successful one makes the named model current.  The table of models
    never changes, and the current model stays the one registered under
    the current name. *)
Theorem switch_model_loaded_only (model_name : string) (self : t) :
  let '(ok, self') := switch_model model_name self in
  ok = is_model_loaded model_name self
  /\ models self' = models self
  /\ (ok = false -> self' = self)
  /\ (ok = true ->
      current_model_name self' = model_name
      /\ is_Some (current_model self')
      /\ current_model self' = dict_get model_name (models self))
  /\ (consistent self -> consistent self')
  /\ (consistent self ->
      (ok = true <-> In model_name (get_available_models self))).
Proof.
  unfold switch_model, is_model_loaded.
  destruct (dict_mem model_name (models self)) eqn:Hmem; simpl.
  - destruct (dict_get model_name (models self)) as [file|] eqn:Hget; simpl.
    + split; [reflexivity|].
      split; [reflexivity|]. split; [discriminate|].
      split; [intros _; simpl; eauto|]. split.
      * intros [Hnodup Hcur]. split; [exact Hnodup|]. simpl. congruence.
      * intros [Hnodup _]. rewrite <- (available_iff_loaded self _ Hnodup).
        unfold is_model_loaded. rewrite Hmem, Hget. simpl.
        split; intros _; reflexivity.
    + split; [reflexivity|].
      split; [reflexivity|]. split; [reflexivity|].
      split; [discriminate|]. split; [auto|].
      intros [Hnodup _]. rewrite <- (available_iff_loaded self _ Hnodup).
      unfold is_model_loaded. rewrite Hmem, Hget. simpl.
      split; discriminate.
  - split; [reflexivity|]. split; [reflexivity|]. split; [reflexivity|].
    split; [discriminate|]. split; [auto|].
    intros [Hnodup _]. rewrite <- (available_iff_loaded self _ Hnodup).
    unfold is_model_loaded. rewrite Hmem. simpl. reflexivity.
Qed.

Lemma switch_model_loaded_only_witness :
  let self := init (λ _, false) (λ _, true) "yolov8n" in
  (switch_model "yolo11n" self).1 = true
  /\ switch_model "yolo8_personnalisé" self = (false, self)
  /\ switch_model "yolov5" self = (false, self).
Proof.
  intros self.
  assert (Hself : consistent self).
  { split; [|reflexivity]. vm_compute.
    repeat (apply NoDup_cons_2; [vm_compute; intros Hin;
              repeat (apply elem_of_cons in Hin as [Hin|Hin]; [discriminate|]);
              by apply elem_of_nil in Hin|]).
    apply NoDup_nil_2. }
  pose proof (switch_model_loaded_only "yolo11n" self) as H1.
  pose proof (switch_model_loaded_only "yolo8_personnalisé" self) as H2.
  pose proof (switch_model_loaded_only "yolov5" self) as H3.
  destruct (switch_model "yolo11n" self) as [ok1 s1].
  destruct (switch_model "yolo8_personnalisé" self) as [ok2 s2].
  destruct (switch_model "yolov5" self) as [ok3 s3].
  destruct H1 as (_ & _ & _ & _ & _ & Hiff).
  destruct H2 as (Hok2 & _ & Hsame2 & _).
  destruct H3 as (Hok3 & _ & Hsame3 & _).
  split; [|split].
  - simpl. apply (Hiff Hself). vm_compute. auto.
  - vm_compute in Hok2. subst ok2. rewrite (Hsame2 eq_refl). reflexivity.
  - vm_compute in Hok3. subst ok3. rewrite (Hsame3 eq_refl). reflexivity.
Defined.

End DetectorExtras.

Section DetectorLoading.

Import YOLODetector.

(** X8. Whatever files exist and whichever loads fail, the constructor
    registers the four model names, in the order of [model_configs].
    A name is bound to its model exactly when the model is built in or
    its file exists, and loading it did not raise; otherwise it is
    bound to [None].  The current model is what is registered under
    the default name, so it is missing when that name is not one of the
    four or its model did not load. *)
Theorem init_registers_all_models
    (path_exists yolo_loads : string → bool) (default_model : string) :
  let self := init path_exists yolo_loads default_model in
  map fst (models self) = map fst model_configs
  /\ (forall name file, In (name, file) model_configs ->
        dict_get name (models self)
          = if (path_exists file || builtin name) && yolo_loads file
            then Some file else None)
  /\ consistent self
  /\ (forall name, is_model_loaded name self = true
                   <-> In name (get_available_models self))
  /\ (¬ In default_model (map fst model_configs) -> current_model self = None).
Proof.
  intros self.
  assert (Hstep : forall d name file,
             (if path_exists file || builtin name then
                if yolo_loads file then dict_set name (Some file) d
                else dict_set name None d
              else dict_set name None d)
             = dict_set name
                 (if (path_exists file || builtin name) && yolo_loads file
                  then Some file else None) d).
  { intros d name file.
    destruct (path_exists file || builtin name), (yolo_loads file);
      reflexivity. }
  assert (Hmodels : models self
                    = foldl (λ d '(name, file),
                               dict_set name
                                 (if (path_exists file || builtin name)
                                     && yolo_loads file
                                  then Some file else None) d)
                            [] model_configs).
  { unfold self, init, load_all_models, model_configs. cbn [foldl models].
    rewrite !Hstep. reflexivity. }
  assert (Hkeys : map fst (models self) = map fst model_configs).
  { rewrite Hmodels. reflexivity. }
  assert (Hnodup : NoDup (map fst (models self))).
  { rewrite Hkeys. simpl.
    repeat (apply NoDup_cons_2;
            [intros Hin;
             repeat (apply elem_of_cons in Hin as [Hin|Hin]; [discriminate|]);
             by apply elem_of_nil in Hin|]).
    apply NoDup_nil_2. }
  split; [exact Hkeys|]. split.
  { intros name file Hin. rewrite Hmodels. simpl in Hin.
    destruct Hin as [Heq|[Heq|[Heq|[Heq|[]]]]]; inversion Heq; subst;
      reflexivity. }
  split; [split; [exact Hnodup|reflexivity]|].
  split; [intros name; apply available_iff_loaded; exact Hnodup|].
  intros Hnot. change (current_model self)
    with (dict_get default_model (models self)).
  destruct (dict_get default_model (models self)) as [file|] eqn:Hget;
    [|reflexivity].
  exfalso. apply Hnot. rewrite <- Hkeys. clear -Hget.
  induction (models self) as [|[k v] rest IH]; simpl in *; [discriminate|].
  destruct (String.eqb_spec k default_model) as [->|Hne]; auto.
Qed.

Lemma init_registers_all_models_witness :
  let self := init (λ file, String.eqb file "best8.pt")
                   (λ file, negb (String.eqb file "yolo11n.pt")) "yolov5" in
  dict_get "yolo8_personnalisé" (models self) = Some "best8.pt"
  /\ dict_get "yolo11_personnalisé" (models self) = None
  /\ dict_get "yolo11n" (models self) = None
  /\ current_model self = None.
Proof.
  intros self.
  pose proof (init_registers_all_models (λ file, String.eqb file "best8.pt")
                (λ file, negb (String.eqb file "yolo11n.pt")) "yolov5")
    as (_ & Hget & _ & _ & Hdefault).
  fold self in Hget, Hdefault.
  split; [|split; [|split]].
  - apply (Hget "yolo8_personnalisé" "best8.pt"). simpl. auto.
  - apply (Hget "yolo11_personnalisé" "best11.pt"). simpl. auto.
  - apply (Hget "yolo11n" "yolo11n.pt"). simpl. auto.
  - apply Hdefault. simpl. intros [H|[H|[H|[H|[]]]]]; discriminate.
Defined.

End DetectorLoading.

(** ** Speech queue *)

Section SpeechQueueExtras.

Import TTSEngine.

Lemma run_turns (say_results : list (result unit)) :
  forall self : t,
    running self = true ->
    message_queue (run say_results self).1
      = drop (length say_results) (message_queue self)
    /\ running (run say_results self).1 = true
    /\ (run say_results self).2
         `sublist_of` take (length say_results) (message_queue self)
    /\ (Forall (λ r, is_raise r = false) say_results ->
        (run say_results self).2
          = filter (λ m, m ≠ "")
                   (take (length say_results) (message_queue self))).
Proof.
  induction say_results as [|r later IH]; intros self Hrun.
  - simpl. rewrite drop_0, take_0. repeat split; auto.
  - cbn [run]. rewrite Hrun. unfold run_iteration.
    destruct self as [queue running0]. simpl in Hrun. subst running0.
    destruct queue as [|m rest]; cbn [message_queue running].
    + specialize (IH (mk [] true) eq_refl).
      destruct (run later (mk [] true)) as [self' spoken'].
      cbn [fst snd message_queue] in *.
      destruct IH as (Hq & Hr & Hsub & Hall).
      rewrite drop_nil in Hq. rewrite take_nil in Hsub, Hall.
      split; [rewrite drop_nil; exact Hq|]. split; [exact Hr|].
      split; [rewrite take_nil; exact Hsub|].
      intros Hgood. apply Forall_cons in Hgood as [_ Hgood].
      rewrite take_nil. exact (Hall Hgood).
    + specialize (IH (mk rest true) eq_refl).
      destruct (run later (mk rest true)) as [self' spoken'].
      cbn [fst snd message_queue length drop take] in *.
      destruct IH as (Hq & Hr & Hsub & Hall).
      split; [exact Hq|]. split; [exact Hr|]. split.
      * destruct (negb (String.eqb m "") && negb (is_raise r)); simpl.
        -- by apply sublist_skip.
        -- by apply sublist_cons.
      * intros Hgood. apply Forall_cons in Hgood as [Hr0 Hgood].
        rewrite (Hall Hgood), Hr0, andb_true_r.
        rewrite filter_cons.
        destruct (String.eqb_spec m "") as [->|Hne]; simpl.
        -- destruct (decide ("" ≠ "")) as [Hc|_]; [contradiction|reflexivity].
        -- destruct (decide (m ≠ "")) as [_|Hc]; [reflexivity|contradiction].
Qed.

(** X9. While the engine runs, each turn of its loop takes exactly one
    message off the head of the queue.  What it speaks is, in queue
    order and without repetition, a selection of the messages taken;
    when the engine never raises, it is exactly the non-empty ones:
    an empty message is taken off the queue but never spoken. *)
Theorem speech_queue_fifo (say_results : list (result unit)) (self : t)
    (Hrunning : running self = true) :
  message_queue (run say_results self).1
    = drop (length say_results) (message_queue self)
  /\ (run say_results self).2
       `sublist_of` take (length say_results) (message_queue self)
  /\ (Forall (λ r, is_raise r = false) say_results ->
      (run say_results self).2
        = filter (λ m, m ≠ "")
                 (take (length say_results) (message_queue self)))
  /\ (Forall (λ r, is_raise r = false) say_results ->
      (length (message_queue self) <= length say_results)%nat ->
      message_queue (run say_results self).1 = []
      /\ (run say_results self).2 = filter (λ m, m ≠ "") (message_queue self)).
Proof.
  destruct (run_turns say_results self Hrunning) as (Hq & _ & Hsub & Hall).
  split; [exact Hq|]. split; [exact Hsub|]. split; [exact Hall|].
  intros Hgood Hlen. split.
  - rewrite Hq. apply drop_ge. exact Hlen.
  - rewrite (Hall Hgood), take_ge by exact Hlen. reflexivity.
Qed.

Lemma speech_queue_fifo_witness :
  run [Return tt; Raise (OtherError "audio device busy"); Return tt; Return tt]
      (mk ["chaise à gauche"; "2 person à droite"; ""; "chien"] true)
    = (mk [] true, ["chaise à gauche"; "chien"])
  /\ (run [Return tt; Return tt] (mk ["a"; ""; "b"] true)).2 = ["a"].
Proof.
  split; [reflexivity|].
  pose proof (speech_queue_fifo [Return tt; Return tt] (mk ["a"; ""; "b"] true)
                eq_refl) as (_ & _ & Hgood & _).
  rewrite Hgood; [reflexivity|].
  repeat constructor.
Defined.

Lemma speak_all_queue (messages : list string) :
  forall self : t,
    message_queue (speak_all messages self) = message_queue self ++ messages
    /\ running (speak_all messages self) = running self.
Proof.
  unfold speak_all.
  induction messages as [|m rest IH]; intros self; simpl.
  - rewrite app_nil_r. auto.
  - destruct (IH (speak m false self)) as [Hq Hr]. rewrite Hq, Hr. simpl.
    rewrite <- app_assoc. auto.
Qed.

(** X10. Requests queued with [speak] are spoken first come, first
    served: after queueing [messages] behind an empty queue, enough
    turns of a healthy engine speak exactly the non-empty ones, in
    order.  A request made with [immediate] discards everything still
    waiting, so it is the only one spoken; and after [stop] nothing is
    spoken any more. *)
Theorem speak_then_run (messages : list string)
    (say_results : list (result unit)) (self : t)
    (Hrunning : running self = true)
    (Hgood : Forall (λ r, is_raise r = false) say_results) :
  ((length messages <= length say_results)%nat ->
   (run say_results (speak_all messages (clear_queue self))).2
     = filter (λ m, m ≠ "") messages)
  /\ (forall urgent,
        (1 <= length say_results)%nat ->
        (run say_results (speak urgent true (speak_all messages self))).2
          = filter (λ m, m ≠ "") [urgent])
  /\ get_queue_size (speak_all messages self)
     = (get_queue_size self + Z.of_nat (length messages))%Z
  /\ run say_results (stop (speak_all messages self))
     = (mk [] false, []).
Proof.
  split; [|split; [|split]].
  - intros Hlen.
    destruct (speak_all_queue messages (clear_queue self)) as [Hq Hr].
    simpl in Hq, Hr.
    pose proof (run_turns say_results
                  (speak_all messages (clear_queue self))) as Hturns.
    rewrite Hr, Hq in Hturns.
    destruct (Hturns Hrunning) as (_ & _ & _ & Hall).
    rewrite (Hall Hgood), take_ge by exact Hlen. reflexivity.
  - intros urgent Hlen.
    destruct (speak_all_queue messages self) as [_ Hr].
    pose proof (run_turns say_results
                  (speak urgent true (speak_all messages self))) as Hturns.
    simpl in Hturns. rewrite Hr in Hturns.
    destruct (Hturns Hrunning) as (_ & _ & _ & Hall).
    rewrite (Hall Hgood), take_ge by (simpl; exact Hlen). reflexivity.
  - unfold get_queue_size.
    destruct (speak_all_queue messages self) as [Hq _].
    rewrite Hq, length_app. lia.
  - unfold stop, clear_queue. simpl.
    destruct say_results; reflexivity.
Qed.

Lemma speak_then_run_witness :
  (run [Return tt; Return tt; Return tt]
       (speak_all ["person à gauche"; "chaise à droite"]
                  (clear_queue (mk ["old"] true)))).2
    = ["person à gauche"; "chaise à droite"]
  /\ (run [Return tt; Return tt; Return tt]
          (speak "Attention" true
                 (speak_all ["person à gauche"; "chaise à droite"]
                            (mk ["old"] true)))).2
     = ["Attention"].
Proof.
  assert (Hgood : Forall (λ r : result unit, is_raise r = false)
                         [Return tt; Return tt; Return tt]).
  { repeat constructor. }
  pose proof (speak_then_run ["person à gauche"; "chaise à droite"]
                [Return tt; Return tt; Return tt] (mk ["old"] true)
                eq_refl Hgood) as (Hall & Hurgent & _).
  split.
  - rewrite Hall; [reflexivity|simpl; lia].
  - rewrite Hurgent; [reflexivity|simpl; lia].
Defined.

End SpeechQueueExtras.

(** ** Voice notifications: repeated calls *)

Section AnnounceExtras.

Import VoiceNotificationManager Sessions.

Lemma announce_at_spaced (fsub : Q → Q → Q) c z iz n (times : list Q) :
  forall self : t,
    cooldown (announce_at fsub c z iz n times self).1 = cooldown self
    /\ spaced fsub (cooldown self) (announce_at fsub c z iz n times self).2
    /\ (forall last,
          last_spoken_time self !! object_zone_id c z = Some last ->
          match (announce_at fsub c z iz n times self).2 with
          | [] => True
          | first :: _ => (cooldown self <= fsub first last)%Q
          end)
    /\ (last_spoken_time self !! object_zone_id c z = None ->
        (announce_at fsub c z iz n times self).2 = [] -> times = []).
Proof.
  induction times as [|now later IH]; intros self.
  - simpl. auto.
  - cbn [announce_at]. unfold announce_detection.
    destruct (last_spoken_time self !! object_zone_id c z) as [last|] eqn:Hlast.
    + destruct (Qltb (fsub now last) (cooldown self)) eqn:Hcmp.
      * destruct (IH self) as (Hc & Hsp & Hfirst & _).
        destruct (announce_at fsub c z iz n later self) as [s2 spoke].
        cbn [fst snd] in *.
        split; [exact Hc|]. split; [exact Hsp|].
        split; [intros l Hl; apply Hfirst; congruence|discriminate].
      * apply Qltb_ge in Hcmp.
        set (s1 := mk (cooldown self)
                      (<[object_zone_id c z := now]> (last_spoken_time self))
                      (spoken_objects self ∪ {[object_zone_id c z]})).
        destruct (IH s1) as (Hc & Hsp & Hfirst & _).
        specialize (Hfirst now (lookup_insert_eq _ _ _)).
        destruct (announce_at fsub c z iz n later s1) as [s2 spoke].
        cbn [fst snd] in *. simpl in Hc, Hsp, Hfirst.
        split; [exact Hc|]. split.
        { simpl. split; [|exact Hsp]. destruct spoke; [exact I|exact Hfirst]. }
        split; [|discriminate].
        intros l Hl. inversion Hl; subst l. exact Hcmp.
    + set (s1 := mk (cooldown self)
                    (<[object_zone_id c z := now]> (last_spoken_time self))
                    (spoken_objects self ∪ {[object_zone_id c z]})).
      destruct (IH s1) as (Hc & Hsp & Hfirst & _).
      specialize (Hfirst now (lookup_insert_eq _ _ _)).
      destruct (announce_at fsub c z iz n later s1) as [s2 spoke].
      cbn [fst snd] in *. simpl in Hc, Hsp, Hfirst.
      split; [exact Hc|]. split.
      { simpl. split; [|exact Hsp]. destruct spoke; [exact I|exact Hfirst]. }
      split; [discriminate|]. intros _ Hnil. discriminate.
Qed.

(** X11. However often and in whatever order of clock readings
    [announce_detection] is called for one object, two consecutive
    announcements of it are at least [cooldown] apart, the first of
    them at least [cooldown] after the timestamp already recorded; and
    an object with no recorded timestamp is announced at the very first
    call.  The distance between two readings is the difference the code
    computes and tests, [fsub], which on floats is the rounded one: the
    doubles 0.1 and 5.1, whose rounded difference is 5, are both
    announced with a cooldown of 5. *)
Theorem announcements_spaced_by_cooldown (fsub : Q → Q → Q)
    (c z : string) (iz : bool) (n : Z) (times : list Q) (self : t) :
  spaced fsub (cooldown self) (announce_at fsub c z iz n times self).2
  /\ (forall last,
        last_spoken_time self !! object_zone_id c z = Some last ->
        Forall (λ now, (cooldown self <= fsub now last)%Q)
               (take 1 (announce_at fsub c z iz n times self).2))
  /\ (last_spoken_time self !! object_zone_id c z = None ->
      take 1 (announce_at fsub c z iz n times self).2 = take 1 times).
Proof.
  destruct (announce_at_spaced fsub c z iz n times self)
    as (_ & Hsp & Hfirst & _).
  split; [exact Hsp|]. split.
  - intros last Hlast. specialize (Hfirst last Hlast).
    destruct (announce_at fsub c z iz n times self).2; simpl; constructor; auto.
  - intros Hnone. destruct times as [|now later]; [reflexivity|].
    cbn [announce_at]. unfold announce_detection. rewrite Hnone.
    destruct (announce_at fsub c z iz n later _) as [s2 spoke]. reflexivity.
Qed.

Lemma announcements_spaced_by_cooldown_witness :
  (announce_at double_sub "person" "gauche" true 1
               [0; 3; 4; 5; 7; 11; 2; 16]%Q (init 5)).2
    = [0; 5; 11; 16]%Q
  /\ take 1 (announce_at double_sub "person" "gauche" true 1 [7; 9]%Q
                         (init 5)).2
     = [7%Q]
  /\ (let readings := [binary64 (1 # 10); binary64 (51 # 10)] in
      (announce_at double_sub "person" "gauche" true 1 readings (init 5)).2
        = readings
      /\ spaced double_sub 5 readings).
Proof.
  split; [vm_compute; reflexivity|].
  split.
  - apply (announcements_spaced_by_cooldown double_sub "person" "gauche" true
             1 [7; 9]%Q (init 5)).
    reflexivity.
  - intros readings.
    assert (Hsaid : (announce_at double_sub "person" "gauche" true 1 readings
                                 (init 5)).2 = readings)
      by (vm_compute; reflexivity).
    split; [exact Hsaid|].
    pose proof (announcements_spaced_by_cooldown double_sub "person" "gauche"
                  true 1 readings (init 5)) as (Hspaced & _).
    rewrite Hsaid in Hspaced. exact Hspaced.
Defined.

End AnnounceExtras.

(** ** Voice notifications: garbage collection and dead state *)

Section CleanupExtras.

Import VoiceNotificationManager MainWindow VoiceFrames.

(** X12. [cleanup_old_objects] keeps exactly the reserved key and the
    keys of the current frame, each with the timestamp it had, and
    forgets every other key; it touches neither the cooldown nor
    [spoken_objects]; and running it twice with the same frame is the
    same as running it once. *)
Theorem cleanup_old_objects_keeps_current (current : gset string) (self : t) :
  let self' := cleanup_old_objects current self in
  (forall key,
      last_spoken_time self' !! key
        = if decide (key = no_detection_id ∨ key ∈ current)
          then last_spoken_time self !! key else None)
  /\ dom (last_spoken_time self') ⊆ {[no_detection_id]} ∪ current
  /\ dom (last_spoken_time self') ⊆ dom (last_spoken_time self)
  /\ cooldown self' = cooldown self
  /\ spoken_objects self' = spoken_objects self
  /\ cleanup_old_objects current self' = self'.
Proof.
  intros self'.
  assert (Hlookup : forall key,
             last_spoken_time self' !! key
               = if decide (key = no_detection_id ∨ key ∈ current)
                 then last_spoken_time self !! key else None).
  { intros key. unfold self'. rewrite lookup_cleanup_old_objects.
    destruct (decide (key ≠ no_detection_id ∧ key ∉ current)) as [[H1 H2]|Hn];
      destruct (decide (key = no_detection_id ∨ key ∈ current)) as [[H3|H3]|Hm];
      try reflexivity; try contradiction.
    exfalso. apply Hn. split; intros H; apply Hm; auto. }
  split; [exact Hlookup|]. split; [|split; [|split; [|split]]].
  - intros key Hdom. apply elem_of_dom in Hdom as [v Hv].
    rewrite Hlookup in Hv.
    destruct (decide (key = no_detection_id ∨ key ∈ current)) as [[->|Hc]|];
      [set_solver|set_solver|discriminate].
  - intros key Hdom. apply elem_of_dom in Hdom as [v Hv].
    rewrite Hlookup in Hv. apply elem_of_dom.
    destruct (decide (key = no_detection_id ∨ key ∈ current));
      [eauto|discriminate].
  - reflexivity.
  - reflexivity.
  - assert (Hrec : forall s : t,
               last_spoken_time (cleanup_old_objects current s)
                 = last_spoken_time s ->
               cleanup_old_objects current s = s).
    { intros [cd lst so] Hmap. unfold cleanup_old_objects in *.
      simpl in *. f_equal. exact Hmap. }
    apply Hrec. apply map_eq. intros key.
    rewrite lookup_cleanup_old_objects.
    destruct (decide (key ≠ no_detection_id ∧ key ∉ current)) as [[H1 H2]|Hn];
      [|reflexivity].
    rewrite Hlookup.
    destruct (decide (key = no_detection_id ∨ key ∈ current)) as [[H3|H3]|Hm];
      [contradiction|contradiction|reflexivity].
Qed.

Lemma announce_groups_same_timing (fsub : Q → Q → Q)
    clock include_zone (infos : list obj_info) :
  forall (i : nat) (a b : t),
    same_timing a b ->
    same_timing (announce_groups fsub clock i include_zone infos a).1
                (announce_groups fsub clock i include_zone infos b).1
    /\ (announce_groups fsub clock i include_zone infos a).2
       = (announce_groups fsub clock i include_zone infos b).2.
Proof.
  induction infos as [|info rest IH]; intros i a b [Hc Hl]; simpl.
  - split; [split; assumption|reflexivity].
  - unfold announce_detection. rewrite Hc, Hl.
    destruct (match last_spoken_time b !! object_zone_id (info_class info)
                                            (info_zone info) with
              | Some last => Qltb (fsub (clock i) last) (cooldown b)
              | None => false
              end).
    + specialize (IH (S i) a b (conj Hc Hl)).
      destruct (announce_groups fsub clock (S i) include_zone rest a) as [a' sa].
      destruct (announce_groups fsub clock (S i) include_zone rest b) as [b' sb].
      simpl in *. destruct IH as [Hs He]. split; [exact Hs|]. exact He.
    + set (a1 := mk (cooldown b) _ (spoken_objects a ∪ _)).
      set (b1 := mk (cooldown b) _ (spoken_objects b ∪ _)).
      assert (Hsame : same_timing a1 b1) by (split; reflexivity).
      specialize (IH (S i) a1 b1 Hsame).
      destruct (announce_groups fsub clock (S i) include_zone rest a1) as [a' sa].
      destruct (announce_groups fsub clock (S i) include_zone rest b1) as [b' sb].
      simpl in *. destruct IH as [Hs He]. split; [exact Hs|]. by rewrite He.
Qed.

(** X13. [spoken_objects] is dead state: two managers with the same
    cooldown and the same [last_spoken_time] make the same speech
    requests on every frame and end with the same timestamps, whatever
    their [spoken_objects] hold. *)
Theorem spoken_objects_never_read (fsub : Q → Q → Q)
    (voice_checked zone_checked : bool) (clock : nat → Q)
    (detections : list Detection) (a b : t)
    (Hsame : same_timing a b) :
  (handle_voice_notifications fsub voice_checked zone_checked clock detections a).2
    = (handle_voice_notifications fsub voice_checked zone_checked clock detections b).2
  /\ same_timing
       (handle_voice_notifications fsub voice_checked zone_checked clock detections a).1
       (handle_voice_notifications fsub voice_checked zone_checked clock detections b).1.
Proof.
  unfold handle_voice_notifications.
  destruct voice_checked; simpl; [|split; [reflexivity|exact Hsame]].
  destruct detections as [|det rest].
  - destruct Hsame as [Hc Hl]. unfold announce_no_detection. rewrite Hc, Hl.
    destruct (match last_spoken_time b !! no_detection_id with
              | Some last => Qltb (cooldown b) (fsub (clock 0%nat) last)
              | None => true
              end); simpl; split; try reflexivity;
      split; first [assumption|reflexivity].
  - destruct (group_detections (det :: rest)) as [zone_objects current].
    pose proof (announce_groups_same_timing fsub clock zone_checked
                  (map snd zone_objects) 0%nat a b Hsame) as [[Hc Hl] He].
    destruct (announce_groups fsub clock 0 zone_checked (map snd zone_objects) a)
      as [a' sa].
    destruct (announce_groups fsub clock 0 zone_checked (map snd zone_objects) b)
      as [b' sb].
    cbn [fst snd] in *. split; [exact He|]. split; [exact Hc|].
    apply map_eq. intros key. rewrite !lookup_cleanup_old_objects, Hl.
    reflexivity.
Qed.

Lemma spoken_objects_never_read_witness :
  let a := mk 5 (<["person_gauche" := 1%Q]> ∅) {["person_gauche"]} in
  let b := mk 5 (<["person_gauche" := 1%Q]> ∅) ∅ in
  (Scenario.frame 3 [Scenario.person "gauche"; Scenario.person "droite"] a).2
    = (Scenario.frame 3 [Scenario.person "gauche"; Scenario.person "droite"] b).2.
Proof.
  intros a b.
  apply (spoken_objects_never_read double_sub true true (Scenario.at_time 3)
           [Scenario.person "gauche"; Scenario.person "droite"] a b).
  split; reflexivity.
Defined.

End CleanupExtras.

(** ** Voice notifications: grouping the detections of a frame *)

Section GroupingExtras.

Import VoiceNotificationManager MainWindow VoiceFrames.
Local Open Scope Z_scope.

Lemma zone_objects_get_count key' key c z zone_objects :
  zone_objects_get key' (count_detection key c z zone_objects)
    = if decide (key' = key)
      then Some (match zone_objects_get key zone_objects with
                 | Some info => bump info
                 | None => mk_info c z 1
                 end)
      else zone_objects_get key' zone_objects.
Proof.
  induction zone_objects as [|[k info] rest IH]; simpl.
  - destruct (String.eqb_spec key key'); destruct (decide (key' = key));
      try reflexivity; congruence.
  - destruct (String.eqb_spec k key) as [->|Hne]; simpl.
    + destruct (String.eqb_spec key key'); destruct (decide (key' = key));
        try reflexivity; congruence.
    + rewrite IH.
      destruct (String.eqb_spec k key'); destruct (decide (key' = key));
        try reflexivity; congruence.
Qed.

Lemma zone_objects_get_keys key zone_objects :
  key ∈ map fst zone_objects <-> is_Some (zone_objects_get key zone_objects).
Proof.
  induction zone_objects as [|[k info] rest IH]; simpl.
  - split; [intros Hin; by apply elem_of_nil in Hin|intros [? ?]; discriminate].
  - rewrite elem_of_cons.
    destruct (String.eqb_spec k key) as [->|Hne].
    + split; eauto.
    + rewrite <- IH. split; [intros [?|?]; [congruence|assumption]|auto].
Qed.

Lemma count_detection_keys key c z zone_objects :
  map fst (count_detection key c z zone_objects)
    = if decide (key ∈ map fst zone_objects)
      then map fst zone_objects else map fst zone_objects ++ [key].
Proof.
  induction zone_objects as [|[k info] rest IH]; simpl.
  - destruct (decide (key ∈ [])) as [Hin|_]; [|reflexivity].
    by apply elem_of_nil in Hin.
  - destruct (String.eqb_spec k key) as [->|Hne]; simpl.
    + destruct (decide (key ∈ key :: map fst rest)) as [_|Hn];
        [reflexivity|]. exfalso. apply Hn. apply elem_of_cons. by left.
    + rewrite IH.
      destruct (decide (key ∈ map fst rest)) as [Hin|Hnin];
        destruct (decide (key ∈ k :: map fst rest)) as [Hin'|Hnin'];
        try reflexivity.
      * exfalso. apply Hnin'. apply elem_of_cons. by right.
      * exfalso. apply elem_of_cons in Hin' as [?|?]; [congruence|contradiction].
Qed.

Lemma group_detections_snoc (detections : list Detection) (det : Detection) :
  group_detections (detections ++ [det])
    = (count_detection (detection_key det) (det_class det) (det_zone det)
                       (group_detections detections).1,
       (group_detections detections).2 ∪ {[detection_key det]}).
Proof.
  unfold group_detections. rewrite foldl_snoc.
  destruct (foldl _ _ detections) as [zo cur]. reflexivity.
Qed.

Lemma occurrences_snoc key (detections : list Detection) (det : Detection) :
  occurrences key (detections ++ [det])
    = occurrences key detections
      + (if String.eqb (detection_key det) key then 1 else 0).
Proof.
  unfold occurrences. rewrite List.filter_app, length_app. simpl.
  destruct (String.eqb (detection_key det) key); simpl; lia.
Qed.

Lemma occurrences_nonneg key detections : 0 <= occurrences key detections.
Proof. unfold occurrences. lia. Qed.

Lemma group_detections_invariant (detections : list Detection) :
  NoDup (map fst (group_detections detections).1)
  /\ (length (group_detections detections).1 <= length detections)%nat
  /\ (forall key, key ∈ (group_detections detections).2
                  <-> 0 < occurrences key detections)
  /\ (forall key,
        match zone_objects_get key (group_detections detections).1 with
        | None => occurrences key detections = 0
        | Some info =>
            info_count info = occurrences key detections
            /\ 0 < occurrences key detections
            /\ info_key info = key
            /\ exists det, In det detections
                           /\ det_class det = info_class info
                           /\ det_zone det = info_zone info
        end).
Proof.
  induction detections as [|det detections IH] using rev_ind.
  - simpl. repeat split; try constructor; try lia.
    + intros Hin. by apply elem_of_empty in Hin.
    + unfold occurrences. simpl. lia.
  - destruct IH as (Hnodup & Hlen & Hcur & Hget).
    rewrite group_detections_snoc. cbn [fst snd].
    split; [|split; [|split]].
    + rewrite count_detection_keys.
      destruct (decide (detection_key det
                          ∈ map fst (group_detections detections).1))
        as [Hin|Hnin]; [exact Hnodup|].
      apply NoDup_app. split; [exact Hnodup|]. split.
      * intros k Hk Hk'. apply list_elem_of_singleton in Hk'. subst k.
        exact (Hnin Hk).
      * apply NoDup_singleton.
    + rewrite length_app. simpl.
      assert (Hl : length (count_detection (detection_key det) (det_class det)
                             (det_zone det) (group_detections detections).1)
                   = length (map fst (count_detection (detection_key det)
                                        (det_class det) (det_zone det)
                                        (group_detections detections).1)))
        by (symmetry; apply length_map).
      rewrite Hl, count_detection_keys.
      destruct (decide _); [rewrite length_map; lia|].
      rewrite length_app, length_map. simpl. lia.
    + intros key. rewrite occurrences_snoc, elem_of_union, Hcur,
        elem_of_singleton.
      pose proof (occurrences_nonneg key detections).
      destruct (String.eqb_spec (detection_key det) key) as [Heq|Hne].
      * split; [lia|auto].
      * split; [intros [?|?]; [lia|congruence]|intros; left; lia].
    + intros key. rewrite zone_objects_get_count, occurrences_snoc.
      pose proof (occurrences_nonneg key detections).
      destruct (decide (key = detection_key det)) as [->|Hne].
      * rewrite String.eqb_refl. specialize (Hget (detection_key det)).
        destruct (zone_objects_get (detection_key det)
                    (group_detections detections).1) as [info|].
        -- destruct Hget as (Hc & Hpos & Hkey & det' & Hin & Hcl & Hz).
           simpl. split; [lia|]. split; [lia|]. split; [exact Hkey|].
           exists det'. split; [apply in_or_app; left; exact Hin|]. auto.
        -- simpl. split; [lia|]. split; [lia|]. split; [reflexivity|].
           exists det. split; [apply in_or_app; right; simpl; auto|]. auto.
      * destruct (String.eqb_spec (detection_key det) key) as [Heq|_];
          [congruence|].
        specialize (Hget key).
        destruct (zone_objects_get key (group_detections detections).1)
          as [info|].
        -- destruct Hget as (Hc & Hpos & Hkey & det' & Hin & Hcl & Hz).
           split; [lia|]. split; [lia|]. split; [exact Hkey|].
           exists det'. split; [apply in_or_app; left; exact Hin|]. auto.
        -- lia.
Qed.

End GroupingExtras.

Section GroupingClaims.

Import VoiceNotificationManager MainWindow VoiceFrames.
Local Open Scope Z_scope.

Lemma grouping_keys (detections : list Detection) :
  NoDup (map fst (group_detections detections).1)
  /\ (length (group_detections detections).1 <= length detections)%nat
  /\ (forall key,
        (key ∈ (group_detections detections).2
         <-> key ∈ map fst (group_detections detections).1)
        /\ (key ∈ (group_detections detections).2
            <-> exists det, In det detections /\ detection_key det = key))
  /\ (forall key info,
        zone_objects_get key (group_detections detections).1 = Some info ->
        info_key info = key).
Proof.
  pose proof (group_detections_invariant detections)
    as (Hnodup & Hlen & Hcur & Hget).
  split; [exact Hnodup|]. split; [exact Hlen|]. split.
  - intros key. specialize (Hget key). rewrite Hcur, zone_objects_get_keys.
    split.
    + destruct (zone_objects_get key (group_detections detections).1)
        as [info|].
      * destruct Hget as (_ & Hpos & _). split; eauto.
      * split; [lia|intros [? ?]; discriminate].
    + split.
      * intros Hpos.
        destruct (zone_objects_get key (group_detections detections).1)
          as [info|]; [|lia].
        destruct Hget as (_ & _ & Hkey & det & Hin & Hc & Hz).
        exists det. split; [exact Hin|]. rewrite <- Hkey.
        unfold detection_key, info_key, object_zone_id. by rewrite Hc, Hz.
      * intros (det & Hin & Hkey). unfold occurrences.
        assert (Hf : In det (List.filter
                               (λ d, String.eqb (detection_key d) key)
                               detections)).
        { apply filter_In. split; [exact Hin|]. by apply String.eqb_eq. }
        destruct (List.filter _ detections); [destruct Hf|simpl; lia].
  - intros key info Hinfo. specialize (Hget key). rewrite Hinfo in Hget.
    by destruct Hget as (_ & _ & Hkey & _).
Qed.

(** X14. The grouping loop of [handle_voice_notifications] makes one
    group per distinct key, in at most as many groups as detections.
    A key is in [current_objects] exactly when it has a group, that is
    when some detection of the frame has it; the group counts exactly
    the detections with its key, carries the class and zone of one of
    them, and is announced under that same key. *)
Theorem group_detections_counts (detections : list Detection) :
  let '(zone_objects, current_objects) := group_detections detections in
  NoDup (map fst zone_objects)
  /\ (length zone_objects <= length detections)%nat
  /\ (forall key,
        (key ∈ current_objects <-> key ∈ map fst zone_objects)
        /\ (key ∈ current_objects
            <-> exists det, In det detections /\ detection_key det = key))
  /\ (forall key info,
        zone_objects_get key zone_objects = Some info ->
        info_count info = occurrences key detections
        /\ 1 <= info_count info
        /\ info_key info = key
        /\ exists det, In det detections /\ detection_key det = key
                       /\ det_class det = info_class info
                       /\ det_zone det = info_zone info).
Proof.
  pose proof (group_detections_invariant detections)
    as (Hnodup & Hlen & Hcur & Hget).
  destruct (group_detections detections) as [zone_objects current_objects].
  cbn [fst snd] in *.
  split; [exact Hnodup|]. split; [exact Hlen|]. split.
  - intros key. specialize (Hget key). rewrite Hcur, zone_objects_get_keys.
    split.
    + destruct (zone_objects_get key zone_objects) as [info|].
      * destruct Hget as (_ & Hpos & _). split; eauto.
      * split; [lia|intros [? ?]; discriminate].
    + split.
      * intros Hpos.
        destruct (zone_objects_get key zone_objects) as [info|]; [|lia].
        destruct Hget as (_ & _ & Hkey & det & Hin & Hc & Hz).
        exists det. split; [exact Hin|]. rewrite <- Hkey.
        unfold detection_key, info_key, object_zone_id. by rewrite Hc, Hz.
      * intros (det & Hin & Hkey). unfold occurrences.
        assert (Hf : In det (List.filter
                               (λ d, String.eqb (detection_key d) key)
                               detections)).
        { apply filter_In. split; [exact Hin|]. by apply String.eqb_eq. }
        destruct (List.filter _ detections); [destruct Hf|simpl; lia].
  - intros key info Hinfo. specialize (Hget key). rewrite Hinfo in Hget.
    destruct Hget as (Hc & Hpos & Hkey & det & Hin & Hcl & Hz).
    split; [exact Hc|]. split; [lia|]. split; [exact Hkey|].
    exists det. split; [exact Hin|]. split; [|auto].
    rewrite <- Hkey. unfold detection_key, info_key, object_zone_id.
    by rewrite Hcl, Hz.
Qed.

Lemma group_detections_counts_witness :
  info_count <$> zone_objects_get "person_gauche"
    (group_detections [Scenario.person "gauche"; Scenario.person "droite";
                       Scenario.person "gauche"]).1 = Some 2.
Proof.
  pose proof (group_detections_counts
                [Scenario.person "gauche"; Scenario.person "droite";
                 Scenario.person "gauche"]) as Hgroups.
  destruct (group_detections _) as [zone_objects current_objects] eqn:Hrun.
  destruct Hgroups as (_ & _ & _ & Hget).
  destruct (zone_objects_get "person_gauche" zone_objects) as [info|] eqn:Hinfo.
  - destruct (Hget _ _ Hinfo) as (Hcount & _). simpl. rewrite Hinfo. simpl.
    rewrite Hcount. reflexivity.
  - exfalso. apply (f_equal fst) in Hrun. simpl in Hrun. subst zone_objects.
    vm_compute in Hinfo. discriminate.
Defined.

Lemma zone_objects_get_in key info (zone_objects : list (string * obj_info)) :
  NoDup (map fst zone_objects) -> (key, info) ∈ zone_objects ->
  zone_objects_get key zone_objects = Some info.
Proof.
  induction zone_objects as [|[k i] rest IH]; intros Hnodup Hin.
  - by apply elem_of_nil in Hin.
  - simpl in *. apply NoDup_cons in Hnodup as [Hk Hrest].
    apply elem_of_cons in Hin as [Heq|Hin].
    + inversion Heq; subst. by rewrite String.eqb_refl.
    + destruct (String.eqb_spec k key) as [->|Hne]; [|auto].
      exfalso. apply Hk. apply list_elem_of_fmap. exists (key, info). auto.
Qed.

Lemma group_keys (detections : list Detection) :
  map info_key (map snd (group_detections detections).1)
    = map fst (group_detections detections).1.
Proof.
  pose proof (group_detections_invariant detections) as (Hnodup & _ & _ & Hget).
  assert (Hall : forall key info,
             (key, info) ∈ (group_detections detections).1 ->
             info_key info = key).
  { intros key info Hin. specialize (Hget key).
    rewrite (zone_objects_get_in _ _ _ Hnodup Hin) in Hget.
    by destruct Hget as (_ & _ & Hkey & _). }
  revert Hall. generalize (group_detections detections).1.
  intros zone_objects.
  induction zone_objects as [|[k i] rest IH]; intros Hall; simpl.
  - reflexivity.
  - rewrite (Hall k i) by (apply elem_of_cons; by left). f_equal.
    apply IH. intros key info Hin. apply Hall. apply elem_of_cons. by right.
Qed.

End GroupingClaims.

(** ** Voice notifications: what a frame leaves behind *)

Section FrameExtras.

Import VoiceNotificationManager MainWindow VoiceFrames.

Lemma announce_detection_keys (fsub : Q → Q → Q)
    now c z iz n (vm : t) (key : string) :
  is_Some (last_spoken_time (announce_detection fsub now c z iz n vm).1 !! key)
  <-> is_Some (last_spoken_time vm !! key) ∨ key = object_zone_id c z.
Proof.
  unfold announce_detection.
  destruct (last_spoken_time vm !! object_zone_id c z) as [last|] eqn:Hlast.
  - destruct (Qltb (fsub now last) (cooldown vm)); simpl.
    + split; [auto|]. intros [H| ->]; [exact H|]. rewrite Hlast. eauto.
    + rewrite lookup_insert. destruct (decide (object_zone_id c z = key)).
      * split; eauto.
      * split; [auto|]. intros [H|H]; [exact H|congruence].
  - simpl. rewrite lookup_insert. destruct (decide (object_zone_id c z = key)).
    + split; eauto.
    + split; [auto|]. intros [H|H]; [exact H|congruence].
Qed.

Lemma announce_groups_keys (fsub : Q → Q → Q)
    clock include_zone (infos : list obj_info) :
  forall (i : nat) (vm : t) (key : string),
    is_Some (last_spoken_time (announce_groups fsub clock i include_zone infos vm).1
               !! key)
    <-> is_Some (last_spoken_time vm !! key) ∨ key ∈ map info_key infos.
Proof.
  induction infos as [|info rest IH]; intros i vm key; simpl.
  - split; [auto|]. intros [H|H]; [exact H|by apply elem_of_nil in H].
  - pose proof (announce_detection_keys fsub (clock i) (info_class info)
                  (info_zone info) include_zone (info_count info) vm key)
      as Hstep.
    destruct (announce_detection fsub (clock i) (info_class info) (info_zone info)
                include_zone (info_count info) vm) as [vm1 said].
    specialize (IH (S i) vm1 key).
    destruct (announce_groups fsub clock (S i) include_zone rest vm1) as [vm2 said'].
    cbn [fst snd] in *. rewrite IH, Hstep, elem_of_cons.
    unfold info_key. tauto.
Qed.

Lemma announce_groups_length (fsub : Q → Q → Q)
    clock include_zone (infos : list obj_info) :
  forall (i : nat) (vm : t),
    (length (announce_groups fsub clock i include_zone infos vm).2
     <= length infos)%nat.
Proof.
  induction infos as [|info rest IH]; intros i vm; simpl; [lia|].
  assert (Hone : (length (announce_detection fsub (clock i) (info_class info)
                            (info_zone info) include_zone (info_count info)
                            vm).2 <= 1)%nat).
  { unfold announce_detection.
    destruct (match last_spoken_time vm !! _ with
              | Some last => _ | None => false end); simpl; lia. }
  destruct (announce_detection fsub (clock i) (info_class info) (info_zone info)
              include_zone (info_count info) vm) as [vm1 said].
  specialize (IH (S i) vm1).
  destruct (announce_groups fsub clock (S i) include_zone rest vm1) as [vm2 said'].
  cbn [fst snd] in *. rewrite length_app. lia.
Qed.

(** A group whose key has no timestamp yet is announced, provided the
    keys of the groups are all different. *)
Lemma announce_groups_unrecorded (fsub : Q → Q → Q)
    clock include_zone (infos : list obj_info) :
  NoDup (map info_key infos) ->
  forall (i : nat) (vm : t) (info : obj_info),
    info ∈ infos ->
    last_spoken_time vm !! info_key info = None ->
    info_message include_zone info
      ∈ (announce_groups fsub clock i include_zone infos vm).2.
Proof.
  induction infos as [|first rest IH]; intros Hnodup i vm info Hin Hnone.
  - by apply elem_of_nil in Hin.
  - simpl in Hnodup. apply NoDup_cons in Hnodup as [Hfirst Hrest].
    cbn [announce_groups].
    pose proof (announce_detection_frame fsub (clock i) (info_class first)
                  (info_zone first) include_zone (info_count first) vm) as Hfr.
    destruct (announce_detection fsub (clock i) (info_class first)
                (info_zone first) include_zone (info_count first) vm)
      as [vm1 said] eqn:Hstep.
    pose proof (IH Hrest (S i) vm1) as IH'.
    destruct (announce_groups fsub clock (S i) include_zone rest vm1)
      as [vm2 said'].
    cbn [fst snd] in *. apply elem_of_app.
    apply elem_of_cons in Hin as [->|Hin].
    + left. unfold announce_detection in Hstep.
      fold (info_key first) in Hstep. rewrite Hnone in Hstep.
      inversion Hstep; subst. apply elem_of_cons. by left.
    + right. apply IH'; [exact Hin|].
      rewrite Hfr; [exact Hnone|].
      intros Heq. apply Hfirst. fold (info_key first) in Heq. rewrite <- Heq.
      apply list_elem_of_fmap. eauto.
Qed.

(** When none of the keys has a timestamp, every group is announced,
    in order. *)
Lemma announce_groups_fresh (fsub : Q → Q → Q)
    clock include_zone (infos : list obj_info) :
  NoDup (map info_key infos) ->
  forall (i : nat) (vm : t),
    (forall key, key ∈ map info_key infos ->
                 last_spoken_time vm !! key = None) ->
    (announce_groups fsub clock i include_zone infos vm).2
      = map (info_message include_zone) infos.
Proof.
  induction infos as [|first rest IH]; intros Hnodup i vm Hnone.
  - reflexivity.
  - simpl in Hnodup. apply NoDup_cons in Hnodup as [Hfirst Hrest].
    cbn [announce_groups].
    pose proof (announce_detection_frame fsub (clock i) (info_class first)
                  (info_zone first) include_zone (info_count first) vm) as Hfr.
    destruct (announce_detection fsub (clock i) (info_class first)
                (info_zone first) include_zone (info_count first) vm)
      as [vm1 said] eqn:Hstep.
    pose proof (IH Hrest (S i) vm1) as IH'.
    destruct (announce_groups fsub clock (S i) include_zone rest vm1)
      as [vm2 said'].
    cbn [fst snd] in *.
    unfold announce_detection in Hstep. fold (info_key first) in Hstep.
    rewrite (Hnone (info_key first)) in Hstep
      by (simpl; apply elem_of_cons; by left).
    inversion Hstep; subst said. simpl. f_equal.
    apply IH'. intros key Hkey. rewrite <- H0. simpl.
    rewrite lookup_insert_ne.
    + apply Hnone. simpl. apply elem_of_cons. by right.
    + intros Heq. apply Hfirst. by rewrite Heq.
Qed.

End FrameExtras.

Section FrameClaims.

Import VoiceNotificationManager MainWindow VoiceFrames.

Lemma current_objects_keys (detections : list Detection) (key : string) :
  key ∈ (group_detections detections).2
  <-> key ∈ map info_key (map snd (group_detections detections).1).
Proof.
  rewrite group_keys.
  pose proof (grouping_keys detections) as (_ & _ & Hcur & _). apply Hcur.
Qed.

(** X15. After a frame with detections is handled (voice on), the keys
    with a recorded timestamp are exactly the keys of the detections of
    that frame, plus the reserved key if it had a timestamp before:
    every object in view has been announced at some time, and nothing
    is remembered about objects that are no longer in view. *)
Theorem frame_keeps_current_keys (fsub : Q → Q → Q)
    (zone_checked : bool) (clock : nat → Q) (detections : list Detection)
    (vm : t) (Hsome : detections ≠ []) :
  let vm' := (handle_voice_notifications fsub true zone_checked clock
                detections vm).1 in
  forall key,
    is_Some (last_spoken_time vm' !! key)
    <-> (key = no_detection_id ∧ is_Some (last_spoken_time vm !! no_detection_id))
        ∨ (exists det, In det detections ∧ detection_key det = key).
Proof.
  intros vm' key. unfold vm', handle_voice_notifications. simpl.
  destruct detections as [|det rest]; [contradiction|].
  pose proof (current_objects_keys (det :: rest)) as Hkeys.
  pose proof (grouping_keys (det :: rest)) as Hgroups.
  destruct (group_detections (det :: rest)) as [zone_objects current].
  destruct Hgroups as (_ & _ & Hcur & _). cbn [fst snd] in Hkeys, Hcur.
  pose proof (announce_groups_keys fsub clock zone_checked (map snd zone_objects)
                0%nat vm) as Hafter.
  destruct (announce_groups fsub clock 0 zone_checked (map snd zone_objects) vm)
    as [vm1 said].
  cbn [fst snd] in *. rewrite lookup_cleanup_old_objects.
  rewrite <- (proj2 (Hcur key)).
  destruct (decide (key ≠ no_detection_id ∧ key ∉ current)) as [[Hne Hnot]|Hkeep].
  - split; [intros [? ?]; discriminate|].
    intros [[Heq _]|Hin]; contradiction.
  - rewrite Hafter, <- Hkeys.
    destruct (decide (key ∈ current)) as [Hin|Hnot]; [tauto|].
    destruct (decide (key = no_detection_id)) as [->|Hne].
    + tauto.
    + exfalso. apply Hkeep. auto.
Qed.

Lemma frame_keeps_current_keys_witness :
  let vm := (Scenario.frame 0 [Scenario.person "gauche";
                               Scenario.person "droite"] (init 5)).1 in
  let vm' := (Scenario.frame 1 [Scenario.person "droite"] vm).1 in
  is_Some (last_spoken_time vm' !! "person_droite")
  /\ last_spoken_time vm' !! "person_gauche" = None.
Proof.
  intros vm vm'.
  assert (Hsome : [Scenario.person "droite"] ≠ []) by discriminate.
  pose proof (frame_keeps_current_keys double_sub true (Scenario.at_time 1)
                [Scenario.person "droite"] vm Hsome) as Hkeys.
  split.
  - apply (Hkeys "person_droite"). right. exists (Scenario.person "droite").
    split; [simpl; auto|reflexivity].
  - destruct (last_spoken_time vm' !! "person_gauche") as [last|] eqn:Hl;
      [|reflexivity].
    exfalso.
    assert (Hs : is_Some (last_spoken_time vm' !! "person_gauche"))
      by (rewrite Hl; eauto).
    apply (Hkeys "person_gauche") in Hs as [[Heq _]|(det & Hin & Hkey)].
    + discriminate.
    + simpl in Hin. destruct Hin as [<-|[]]. discriminate.
Defined.

(** X16. A frame never produces more speech requests than it has groups
    of detections, hence never more than detections; a frame without
    detections produces at most one; and with voice notifications
    switched off nothing is said and the manager is left untouched. *)
Theorem frame_speech_bounded (fsub : Q → Q → Q)
    (voice_checked zone_checked : bool) (clock : nat → Q)
    (detections : list Detection) (vm : t) :
  let said := (handle_voice_notifications fsub voice_checked zone_checked clock
                 detections vm).2 in
  (length said <= Nat.max 1 (length detections))%nat
  /\ (detections ≠ [] ->
      (length said <= length (group_detections detections).1)%nat
      /\ (length (group_detections detections).1 <= length detections)%nat)
  /\ (voice_checked = false ->
      handle_voice_notifications fsub voice_checked zone_checked clock detections vm
        = (vm, [])).
Proof.
  intros said. unfold said, handle_voice_notifications.
  destruct voice_checked; cbn [negb].
  - destruct detections as [|det rest].
    + split; [|split; [intros Hc; contradiction|discriminate]].
      unfold announce_no_detection.
      destruct (match last_spoken_time vm !! no_detection_id with
                | Some last => _ | None => true end); simpl; lia.
    + pose proof (grouping_keys (det :: rest)) as Hgroups.
      destruct (group_detections (det :: rest)) as [zone_objects current].
      destruct Hgroups as (_ & Hlen & _).
      pose proof (announce_groups_length fsub clock zone_checked
                    (map snd zone_objects) 0%nat vm) as Hsaid.
      destruct (announce_groups fsub clock 0 zone_checked (map snd zone_objects) vm)
        as [vm1 said1].
      cbn [fst snd] in *. rewrite length_map in Hsaid.
      pose proof (Nat.le_max_r 1 (length (det :: rest))).
      split; [lia|]. split; [intros _; split; lia|discriminate].
  - cbn [snd length]. pose proof (grouping_keys detections) as Hg.
    destruct (group_detections detections) as [zone_objects current].
    destruct Hg as (_ & Hlen & _). cbn [fst] in *.
    split; [lia|]. split; [intros _; split; lia|reflexivity].
Qed.

Lemma frame_speech_bounded_witness :
  (length (Scenario.frame 0 [Scenario.person "gauche"; Scenario.person "gauche";
                             Scenario.person "droite"] (init 5)).2 <= 2)%nat.
Proof.
  pose proof (frame_speech_bounded double_sub true true (Scenario.at_time 0)
                [Scenario.person "gauche"; Scenario.person "gauche";
                 Scenario.person "droite"] (init 5)) as (_ & Hgroups & _).
  destruct (Hgroups ltac:(discriminate)) as [Hsaid _].
  exact Hsaid.
Defined.

(** X17. When no detection of the frame has a recorded timestamp (as on
    the first frame, after [reset], or once the objects had left the
    view of a frame that still had detections), the frame announces
    every group exactly once, in the order in which the groups first
    appear among the detections. *)
Theorem fresh_frame_announces_every_group (fsub : Q → Q → Q)
    (zone_checked : bool) (clock : nat → Q) (detections : list Detection)
    (vm : t)
    (Hsome : detections ≠ [])
    (Hfresh : forall det, In det detections ->
                          last_spoken_time vm !! detection_key det = None) :
  (handle_voice_notifications fsub true zone_checked clock detections vm).2
    = map (info_message zone_checked) (map snd (group_detections detections).1)
  /\ (forall detections', detections' ≠ [] ->
        (handle_voice_notifications fsub true zone_checked clock detections'
           (reset vm)).2
          = map (info_message zone_checked)
                (map snd (group_detections detections').1)).
Proof.
  assert (Hgen : forall (dets : list Detection) (m : t),
             dets ≠ [] ->
             (forall det, In det dets ->
                          last_spoken_time m !! detection_key det = None) ->
             (handle_voice_notifications fsub true zone_checked clock dets m).2
               = map (info_message zone_checked)
                     (map snd (group_detections dets).1)).
  { intros dets m Hne Hnone. unfold handle_voice_notifications. simpl.
    destruct dets as [|det rest]; [contradiction|].
    pose proof (group_keys (det :: rest)) as Hkeys.
    pose proof (grouping_keys (det :: rest)) as Hgroups.
    destruct (group_detections (det :: rest)) as [zone_objects current].
    destruct Hgroups as (Hnodup & _ & Hcur & _). cbn [fst snd] in *.
    pose proof (announce_groups_fresh fsub clock zone_checked
                  (map snd zone_objects)) as Hall.
    rewrite Hkeys in Hall. specialize (Hall Hnodup 0%nat m).
    destruct (announce_groups fsub clock 0 zone_checked (map snd zone_objects) m)
      as [vm1 said].
    cbn [fst snd] in *. apply Hall. intros key Hkey.
    apply (proj1 (Hcur key)) in Hkey. apply (proj2 (Hcur key)) in Hkey.
    destruct Hkey as (d & Hin & <-). apply Hnone. exact Hin. }
  split; [apply Hgen; assumption|].
  intros detections' Hne. apply Hgen; [exact Hne|].
  intros det _. apply lookup_empty.
Qed.

Lemma fresh_frame_announces_every_group_witness :
  (Scenario.frame 0 [Scenario.person "droite"; Scenario.person "gauche";
                     Scenario.person "droite"] (init 5)).2
    = ["2 person à droite"; "person à gauche"].
Proof.
  assert (Hsome : [Scenario.person "droite"; Scenario.person "gauche";
                   Scenario.person "droite"] ≠ []) by discriminate.
  pose proof (fresh_frame_announces_every_group double_sub true (Scenario.at_time 0)
                [Scenario.person "droite"; Scenario.person "gauche";
                 Scenario.person "droite"] (init 5) Hsome) as Hfresh.
  destruct Hfresh as [Hsaid _].
  - intros det _. apply lookup_empty.
  - unfold Scenario.frame. rewrite Hsaid. reflexivity.
Defined.

(** X18. An object that was out of view during a frame that still had
    other detections is forgotten by that frame, and is announced at
    once when it comes back, even inside the cooldown of its earlier
    announcement. *)
Theorem returning_object_announced (fsub : Q → Q → Q)
    (zone_checked zone_checked' : bool) (clock clock' : nat → Q)
    (others back : list Detection) (det : Detection) (vm : t)
    (Hothers : others ≠ [])
    (Haway : forall other, In other others ->
                           detection_key other ≠ detection_key det)
    (Hname : detection_key det ≠ no_detection_id)
    (Hback : In det back) :
  let vm1 := (handle_voice_notifications fsub true zone_checked clock others vm).1 in
  last_spoken_time vm1 !! detection_key det = None
  /\ exists info,
       zone_objects_get (detection_key det) (group_detections back).1
         = Some info
       /\ info_message zone_checked' info
          ∈ (handle_voice_notifications fsub true zone_checked' clock' back vm1).2.
Proof.
  intros vm1.
  assert (Hnone : last_spoken_time vm1 !! detection_key det = None).
  { unfold vm1, handle_voice_notifications. cbn [negb].
    destruct others as [|o others']; [contradiction|].
    pose proof (grouping_keys (o :: others')) as (_ & _ & Hcur & _).
    destruct (group_detections (o :: others')) as [zone_objects current].
    destruct (announce_groups fsub clock 0 zone_checked (map snd zone_objects) vm)
      as [vm' said].
    cbn [fst snd] in *. rewrite lookup_cleanup_old_objects.
    destruct (decide (detection_key det ≠ no_detection_id
                      ∧ detection_key det ∉ current)) as [_|Hkeep];
      [reflexivity|].
    exfalso. apply Hkeep. split; [exact Hname|].
    intros Hin. apply (proj2 (Hcur _)) in Hin as (other & Hin & Hkey).
    exact (Haway other Hin Hkey). }
  split; [exact Hnone|].
  unfold handle_voice_notifications. simpl.
  destruct back as [|b rest]; [destruct Hback|].
  pose proof (group_keys (b :: rest)) as Hkeys.
  pose proof (grouping_keys (b :: rest)) as Hgroups.
  destruct (group_detections (b :: rest)) as [zone_objects current].
  destruct Hgroups as (Hnodup & _ & Hcur & Hget). cbn [fst snd] in *.
  assert (Hin : detection_key det ∈ map fst zone_objects).
  { apply (proj1 (Hcur _)). apply (proj2 (Hcur _)). eauto. }
  apply zone_objects_get_keys in Hin as [info Hinfo].
  exists info. split; [exact Hinfo|].
  pose proof (Hget _ _ Hinfo) as Hkey.
  pose proof (announce_groups_unrecorded fsub clock' zone_checked'
                (map snd zone_objects)) as Hsaid.
  rewrite Hkeys in Hsaid. specialize (Hsaid Hnodup 0%nat vm1 info).
  destruct (announce_groups fsub clock' 0 zone_checked' (map snd zone_objects) vm1)
    as [vm2 said].
  cbn [fst snd] in *. apply Hsaid.
  - clear -Hinfo. induction zone_objects as [|[k i] tl IH]; [discriminate|].
    simpl in *. destruct (String.eqb k (detection_key det)).
    + inversion Hinfo; subst. apply elem_of_cons. by left.
    + apply elem_of_cons. right. by apply IH.
  - rewrite Hkey. exact Hnone.
Qed.

Lemma returning_object_announced_witness :
  let vm0 := (Scenario.frame 0 [Scenario.person "gauche";
                                Scenario.person "droite"] (init 5)).1 in
  let vm1 := (Scenario.frame 1 [Scenario.person "droite"] vm0).1 in
  last_spoken_time vm1 !! "person_gauche" = None
  /\ "person à gauche"
     ∈ (Scenario.frame 2 [Scenario.person "droite"; Scenario.person "gauche"]
          vm1).2.
Proof.
  intros vm0 vm1.
  assert (Hothers : [Scenario.person "droite"] ≠ []) by discriminate.
  assert (Haway : forall other, In other [Scenario.person "droite"] ->
                    detection_key other
                    ≠ detection_key (Scenario.person "gauche")).
  { intros other [<-|[]]. discriminate. }
  assert (Hname : detection_key (Scenario.person "gauche") ≠ no_detection_id)
    by discriminate.
  assert (Hback : In (Scenario.person "gauche")
                     [Scenario.person "droite"; Scenario.person "gauche"])
    by (simpl; auto).
  pose proof (returning_object_announced double_sub true true (Scenario.at_time 1)
                (Scenario.at_time 2) _ _ _ vm0 Hothers Haway Hname Hback)
    as [Hnone (info & Hinfo & Hsaid)].
  split; [exact Hnone|].
  vm_compute in Hinfo. inversion Hinfo; subst info. exact Hsaid.
Defined.

End FrameClaims.

(** ** Recorder sessions *)

Section RecorderExtras.

Import VideoRecorder Sessions.

Lemma write_frames_active (frames : list (result unit * Frame)) :
  forall (self : t) (w : VideoWriter),
    is_recording_flag self = true -> writer self = Some w ->
    write_frames frames self
      = (map (λ wf, negb (is_raise wf.1)) frames,
         with_frames (Z.of_nat (length (written frames))) self,
         map (WriteFrame w) (written frames)).
Proof.
  induction frames as [|[wr frame] rest IH]; intros self w Hflag Hw.
  - simpl. unfold with_frames. rewrite Z.add_0_r. destruct self; reflexivity.
  - cbn [write_frames]. unfold write_frame. rewrite Hflag, Hw.
    destruct wr as [[]|e].
    + rewrite (IH _ w) by reflexivity.
      unfold written, with_frames. cbn [List.filter map fst snd is_raise negb
        length output_dir writer output_path is_recording_flag frame_count
        start_time app].
      rewrite Hflag, Hw, Nat2Z.inj_succ. unfold Z.succ.
      rewrite (Z.add_comm (Z.of_nat _) 1), Z.add_assoc. reflexivity.
    + rewrite (IH _ w) by assumption. reflexivity.
Qed.

(** *** Paths of recordings *)

Lemma string_append_assoc (a b c : string) :
  (a +:+ b) +:+ c = a +:+ (b +:+ c).
Proof.
  induction a as [|x a IH]; [reflexivity|].
  change (String x ((a +:+ b) +:+ c) = String x (a +:+ (b +:+ c))).
  by rewrite IH.
Qed.

Lemma split_not_nil (s : string) : PosixPath.split s ≠ [].
Proof.
  destruct s as [|c s]; cbn [PosixPath.split]; [discriminate|].
  destruct (String.eqb _ _); [discriminate|].
  destruct (PosixPath.split s); discriminate.
Qed.

(** A text with no slash in it is not cut, and so are two of them put
    together. *)
Lemma split_plain_app (a b : string) :
  PosixPath.split a = [a] -> PosixPath.split b = [b] ->
  PosixPath.split (a +:+ b) = [a +:+ b].
Proof.
  intros Ha Hb. induction a as [|c a IH]; [exact Hb|].
  change (String c a +:+ b) with (String c (a +:+ b)).
  cbn [PosixPath.split] in *.
  destruct (String.eqb (String c "") "/"); [discriminate Ha|].
  destruct (PosixPath.split a) as [|part others] eqn:Hsplit;
    [exfalso; exact (split_not_nil _ Hsplit)|].
  inversion Ha; subst part others. rewrite (IH eq_refl). reflexivity.
Qed.

Lemma root_of_plain (s : string) :
  PosixPath.split s = [s] -> PosixPath.root_of s = "".
Proof.
  intros Hs. destruct s as [|c s]; [reflexivity|].
  unfold PosixPath.root_of. cbn [PosixPath.split] in Hs.
  destruct (String.eqb (String c "") "/") eqn:Hc; [discriminate Hs|].
  cbn [String.prefix].
  repeat match goal with
         | |- context [Ascii.ascii_dec ?x c] =>
             destruct (Ascii.ascii_dec x c) as [<-|?]; [discriminate Hc|]
         end.
  reflexivity.
Qed.

(** The file name of a recording whose timestamp has no slash in it is
    one component of a path. *)
Lemma recording_name_plain (timestamp : string) :
  PosixPath.split timestamp = [timestamp] ->
  PosixPath.parse ("recording_" +:+ timestamp +:+ ".mp4")
    = PosixPath.mk "" ["recording_" +:+ timestamp +:+ ".mp4"].
Proof.
  intros Hstamp.
  assert (Hsplit : PosixPath.split ("recording_" +:+ timestamp +:+ ".mp4")
                   = ["recording_" +:+ timestamp +:+ ".mp4"]).
  { apply (split_plain_app "recording_"); [reflexivity|].
    apply split_plain_app; [exact Hstamp|reflexivity]. }
  unfold PosixPath.parse. rewrite (root_of_plain _ Hsplit), Hsplit.
  f_equal.
Qed.

Lemma concat_snoc (sep : string) (ps : list string) (name : string) :
  ps ≠ [] ->
  String.concat sep (ps ++ [name]) = String.concat sep ps +:+ sep +:+ name.
Proof.
  induction ps as [|p ps IH]; intros Hne; [contradiction|].
  destruct ps as [|q ps]; [reflexivity|].
  change (String.concat sep ((p :: q :: ps) ++ [name]))
    with (p +:+ sep +:+ String.concat sep ((q :: ps) ++ [name])).
  rewrite IH by discriminate.
  change (String.concat sep (p :: q :: ps))
    with (p +:+ sep +:+ String.concat sep (q :: ps)).
  rewrite !string_append_assoc. reflexivity.
Qed.

(** Joining one component to a directory puts it after the prefix of
    the directory. *)
Lemma file_path_plain (filename : string) (self : t) :
  PosixPath.parse filename = PosixPath.mk "" [filename] ->
  file_path filename self
    = VideoRecorderFiles.dir_prefix (output_dir self) +:+ filename.
Proof.
  intros Hname.
  unfold file_path, PosixPath.joinpath, VideoRecorderFiles.dir_prefix,
    PosixPath.str.
  rewrite Hname. cbn [PosixPath.root PosixPath.parts String.eqb].
  destruct (PosixPath.parse (output_dir self)) as [r ps].
  cbn [PosixPath.root PosixPath.parts].
  destruct (String.eqb_spec r "") as [->|Hroot].
  - destruct ps as [|p ps]; [reflexivity|].
    rewrite concat_snoc by discriminate.
    rewrite !string_append_assoc. reflexivity.
  - destruct ps as [|p ps]; [reflexivity|].
    rewrite concat_snoc by discriminate.
    rewrite !string_append_assoc. reflexivity.
Qed.

(** Where a recording goes, spelled out, when its timestamp has no
    slash in it. *)
Lemma recording_path (timestamp : string) (self : t) :
  PosixPath.split timestamp = [timestamp] ->
  let filename := "recording_" +:+ timestamp +:+ ".mp4" in
  let path := file_path filename self in
  let dir := PosixPath.parse (output_dir self) in
  (PosixPath.parts dir = [] -> path = PosixPath.root dir +:+ filename)
  /\ (PosixPath.parts dir ≠ [] ->
      path = PosixPath.str dir +:+ "/" +:+ filename)
  /\ (PosixPath.parts dir ≠ [] ->
      PosixPath.str dir = output_dir self ->
      path = output_dir self +:+ "/" +:+ filename).
Proof.
  intros Hstamp filename path dir.
  assert (Hprefix : path
                    = VideoRecorderFiles.dir_prefix (output_dir self)
                      +:+ filename)
    by (apply file_path_plain, recording_name_plain, Hstamp).
  unfold VideoRecorderFiles.dir_prefix in Hprefix. fold dir in Hprefix.
  split; [|split].
  - intros Hnone. rewrite Hnone in Hprefix. exact Hprefix.
  - intros Hsome. destruct (PosixPath.parts dir); [contradiction|].
    rewrite Hprefix. apply string_append_assoc.
  - intros Hsome Hnormal. destruct (PosixPath.parts dir); [contradiction|].
    rewrite Hprefix, Hnormal. apply string_append_assoc.
Qed.

(** X19. A whole session: starting an idle recorder (codec of four
    characters, writer opens) names the file
    [str(self.output_dir / "recording_<timestamp>.mp4")], the path
    [pathlib] joins, and opens one writer on it; every frame whose write
    succeeds is handed to that writer, in order, and answered [True],
    every failed one is answered [False]; stopping then returns that
    path, the number of frames written and the time elapsed, releases
    the writer once, and leaves the recorder idle, with no path and a
    frame count of 0.  When the timestamp has no slash in it, the path
    is the file name put after the directory: alone for the directory
    ["."], after the root for a root, and after the directory and a
    slash, [<dir>/recording_<timestamp>.mp4], for a directory that has
    components and is written the way [pathlib] writes it. *)
Theorem recording_session
    (self : t) (timestamp codec : string) (now_start now_stop fps : Q)
    (width height : Z) (frames : list (result unit * Frame))
    (Hidle : is_recording_flag self = false)
    (Hcodec : py_len codec = 4%nat) :
  let filename := "recording_" +:+ timestamp +:+ ".mp4" in
  let path := file_path filename self in
  let w := mk_writer path codec fps (width, height) in
  let started := start_recording timestamp true now_start width height fps
                                 codec self in
  let wrote := write_frames frames started.1.2 in
  let stopped := stop_recording now_stop wrote.1.2 in
  let dir := PosixPath.parse (output_dir self) in
  started.1.1 = Return (Some path)
  /\ started.2 = [NewWriter w]
  /\ wrote.1.1 = map (λ wf, negb (is_raise wf.1)) frames
  /\ wrote.2 = map (WriteFrame w) (written frames)
  /\ stopped.1.1
     = Return (Some path, Z.of_nat (length (written frames)),
               duration_since now_stop (Some now_start))
  /\ stopped.2 = [ReleaseWriter w]
  /\ stopped.1.2 = init (output_dir self)
  /\ (PosixPath.split timestamp = [timestamp] ->
      (PosixPath.parts dir = [] -> path = PosixPath.root dir +:+ filename)
      /\ (PosixPath.parts dir ≠ [] ->
          path = PosixPath.str dir +:+ "/" +:+ filename)
      /\ (PosixPath.parts dir ≠ [] ->
          PosixPath.str dir = output_dir self ->
          path = output_dir self +:+ "/" +:+ filename)).
Proof.
  intros filename path w started wrote stopped dir.
  pose proof (recording_path timestamp self) as Hpath.
  assert (Hstart : started
                   = (Return (Some path),
                      {| output_dir := output_dir self; writer := Some w;
                         output_path := Some path; is_recording_flag := true;
                         frame_count := 0; start_time := Some now_start |},
                      [NewWriter w])).
  { unfold started, start_recording, VideoWriter_fourcc.
    rewrite Hidle, Hcodec. reflexivity. }
  assert (Hwrote : wrote
                   = (map (λ wf, negb (is_raise wf.1)) frames,
                      with_frames (Z.of_nat (length (written frames)))
                                  started.1.2,
                      map (WriteFrame w) (written frames))).
  { unfold wrote. apply write_frames_active; rewrite Hstart; reflexivity. }
  unfold stopped. rewrite Hwrote, Hstart. simpl.
  repeat split; try reflexivity; apply Hpath; assumption.
Qed.

Lemma recording_session_witness :
  let started := start_recording "20240101_120000" true 10 2 1 20 "mp4v"
                                 (init "/home/user/rec") in
  let wrote := write_frames [(Return tt, [[(0, 0, 0); (1, 1, 1)]%Z]);
                             (Raise (OtherError "disk full"),
                              [[(2, 2, 2); (3, 3, 3)]%Z]);
                             (Return tt, [[(4, 4, 4); (5, 5, 5)]%Z])]
                            started.1.2 in
  wrote.1.1 = [true; false; true]
  /\ (stop_recording 14 wrote.1.2).1.1
     = Return (Some "/home/user/rec/recording_20240101_120000.mp4", 2%Z,
               (14 - 10)%Q)
  /\ (start_recording "X" true 10 2 1 20 "mpé4" (init ".")).1.1
     = Return (Some "recording_X.mp4")
  /\ (start_recording "X" true 10 2 1 20 "mp4v" (init "/")).1.1
     = Return (Some "/recording_X.mp4")
  /\ (start_recording "X" true 10 2 1 20 "mp4v" (init "rec//out/")).1.1
     = Return (Some "rec/out/recording_X.mp4").
Proof.
  intros started wrote.
  pose proof (recording_session (init "/home/user/rec") "20240101_120000"
                "mp4v" 10 14 20 2 1
                [(Return tt, [[(0, 0, 0); (1, 1, 1)]%Z]);
                 (Raise (OtherError "disk full"), [[(2, 2, 2); (3, 3, 3)]%Z]);
                 (Return tt, [[(4, 4, 4); (5, 5, 5)]%Z])]
                eq_refl eq_refl) as (_ & _ & Hanswers & _ & Hstop & _).
  pose proof (recording_session (init ".") "X" "mpé4" 10 14 20 2 1 []
                eq_refl eq_refl) as (Hdot & _).
  pose proof (recording_session (init "/") "X" "mp4v" 10 14 20 2 1 []
                eq_refl eq_refl) as (Hroot & _).
  pose proof (recording_session (init "rec//out/") "X" "mp4v" 10 14 20 2 1 []
                eq_refl eq_refl) as (Hslash & _).
  split; [exact Hanswers|]. split; [vm_compute in Hstop |- *; exact Hstop|].
  split; [vm_compute in Hdot |- *; exact Hdot|].
  split; [vm_compute in Hroot |- *; exact Hroot
         |vm_compute in Hslash |- *; exact Hslash].
Defined.

(** X20. A start that fails leaves the recorder idle: with a codec that
    does not have four characters no writer is even created, and when
    the writer does not open the call raises [RuntimeError], naming the
    path [pathlib] joined.  In both cases [output_path] already names
    the file that was not opened; frames are then refused, and
    [stop_recording] answers the null result without releasing anything,
    so the writer that failed to open is never released.  When the
    timestamp has no slash in it, the path is the file name alone for
    the directory ["."], after the root for a root, and after the
    directory and a slash for a directory that has components. *)
Theorem failed_start_stays_idle
    (self : t) (timestamp codec : string) (opened : bool) (now fps : Q)
    (width height : Z)
    (Hidle : is_recording_flag self = false)
    (Hfail : py_len codec ≠ 4%nat ∨ opened = false) :
  let filename := "recording_" +:+ timestamp +:+ ".mp4" in
  let path := file_path filename self in
  let failed := start_recording timestamp opened now width height fps codec
                                self in
  let dir := PosixPath.parse (output_dir self) in
  is_raise failed.1.1 = true
  /\ (py_len codec ≠ 4%nat ->
      failed.1.1 = Raise TypeError ∧ failed.2 = []
      ∧ writer failed.1.2 = writer self)
  /\ (py_len codec = 4%nat ->
      failed.1.1
        = Raise (RuntimeError ("Failed to open video writer for " +:+ path))
      ∧ failed.2 = [NewWriter (mk_writer path codec fps (width, height))]
      ∧ writer failed.1.2 = Some (mk_writer path codec fps (width, height)))
  /\ is_recording failed.1.2 = false
  /\ output_path failed.1.2 = Some path
  /\ frame_count failed.1.2 = frame_count self
  /\ (forall write_result frame,
        write_frame write_result frame failed.1.2
          = (Return false, failed.1.2, []))
  /\ (forall later,
        stop_recording later failed.1.2
          = (Return (None, 0%Z, 0%Q), failed.1.2, []))
  /\ (PosixPath.split timestamp = [timestamp] ->
      (PosixPath.parts dir = [] -> path = PosixPath.root dir +:+ filename)
      /\ (PosixPath.parts dir ≠ [] ->
          path = PosixPath.str dir +:+ "/" +:+ filename)
      /\ (PosixPath.parts dir ≠ [] ->
          PosixPath.str dir = output_dir self ->
          path = output_dir self +:+ "/" +:+ filename)).
Proof.
  intros filename path failed dir.
  pose proof (recording_path timestamp self) as Hpath.
  unfold failed, start_recording, VideoWriter_fourcc. rewrite Hidle.
  destruct (Nat.eqb_spec (py_len codec) 4) as [Hlen|Hlen].
  - destruct Hfail as [Hc| ->]; [contradiction|]. cbn [negb fst snd].
    split; [reflexivity|]. split; [intros Hc; contradiction|].
    split; [intros _; repeat split; reflexivity|].
    split; [unfold is_recording; cbn [is_recording_flag];
            first [exact Hidle|reflexivity]|].
    split; [reflexivity|]. split; [reflexivity|].
    split; [|split; [|exact Hpath]].
    + intros wr frame. unfold write_frame. cbn [is_recording_flag].
      rewrite ?Hidle. reflexivity.
    + intros later. unfold stop_recording. cbn [is_recording_flag].
      rewrite ?Hidle. reflexivity.
  - cbn [fst snd].
    split; [reflexivity|]. split; [intros _; repeat split; reflexivity|].
    split; [intros Hc; contradiction|].
    split; [unfold is_recording; cbn [is_recording_flag];
            first [exact Hidle|reflexivity]|].
    split; [reflexivity|]. split; [reflexivity|].
    split; [|split; [|exact Hpath]].
    + intros wr frame. unfold write_frame. cbn [is_recording_flag].
      rewrite ?Hidle. reflexivity.
    + intros later. unfold stop_recording. cbn [is_recording_flag].
      rewrite ?Hidle. reflexivity.
Qed.

Lemma failed_start_stays_idle_witness :
  let failed := start_recording "20240101_120000" false 10 640 480 20 "mp4v"
                                (init "/home/user/rec") in
  failed.1.1
    = Raise (RuntimeError
               "Failed to open video writer for /home/user/rec/recording_20240101_120000.mp4")
  /\ stop_recording 12 failed.1.2 = (Return (None, 0%Z, 0%Q), failed.1.2, [])
  /\ (let short := start_recording "X" true 10 640 480 20 "mp4" (init ".") in
      short.1.1 = Raise TypeError ∧ short.2 = []
      ∧ writer short.1.2 = None)
  /\ output_path
       (start_recording "X" true 10 640 480 20 "mp4" (init ".")).1.2
     = Some "recording_X.mp4"
  /\ (let shut := start_recording "X" false 10 640 480 20 "mpé4" (init "/") in
      shut.1.1
        = Raise (RuntimeError
                   "Failed to open video writer for /recording_X.mp4")
      ∧ shut.2 = [NewWriter (mk_writer "/recording_X.mp4" "mpé4" 20
                                       (640, 480)%Z)]
      ∧ writer shut.1.2
        = Some (mk_writer "/recording_X.mp4" "mpé4" 20 (640, 480)%Z)).
Proof.
  intros failed.
  pose proof (failed_start_stays_idle (init "/home/user/rec")
                "20240101_120000" "mp4v" false 10 20 640 480 eq_refl
                (or_intror eq_refl))
    as (_ & _ & Hraise & _ & _ & _ & _ & Hstop & _).
  assert (Hthree : py_len "mp4" ≠ 4%nat) by discriminate.
  pose proof (failed_start_stays_idle (init ".") "X" "mp4" true 10 20 640 480
                eq_refl (or_introl Hthree))
    as (_ & Hshort & _ & _ & Hpath & _).
  pose proof (failed_start_stays_idle (init "/") "X" "mpé4" false 10 20 640
                480 eq_refl (or_intror eq_refl))
    as (_ & _ & Hnot_opened & _).
  specialize (Hraise eq_refl) as (Hraise & _).
  specialize (Hstop 12%Q).
  specialize (Hshort Hthree).
  specialize (Hnot_opened eq_refl).
  unfold failed.
  split; [vm_compute in Hraise |- *; exact Hraise|].
  split; [vm_compute in Hstop |- *; exact Hstop|].
  split; [vm_compute in Hshort |- *; exact Hshort|].
  split; [vm_compute in Hpath |- *; exact Hpath|].
  vm_compute in Hnot_opened |- *; exact Hnot_opened.
Defined.

End RecorderExtras.

(** ** Frame pipeline: accounting over a run *)

Section PipelineAccounting.

Import VideoProcessorThread VideoProcessorControl.
Local Open Scope Z_scope.

Lemma count_actions_app P (a b : list action) :
  count_actions P (a ++ b) = count_actions P a + count_actions P b.
Proof. unfold count_actions. rewrite List.filter_app, length_app. lia. Qed.

Lemma count_actions_nonneg P (a : list action) : 0 <= count_actions P a.
Proof. unfold count_actions. lia. Qed.

Ltac case_process_frame :=
  unfold _process_frame, zone_detections;
  repeat match goal with
         | |- context [match ?x with _ => _ end] => destruct x eqn:?
         end.

Lemma process_frame_state tracked drawn frame (self self' : t) r :
  _process_frame tracked drawn frame self = (r, self') ->
  frame_count self' = frame_count self
  /\ frame_rate self' = frame_rate self
  /\ last_time self' = last_time self
  /\ running self' = running self
  /\ source_type self' = source_type self.
Proof.
  case_process_frame; intros H; inversion H; subst; simpl; auto.
Qed.

Lemma process_frame_return tracked drawn frame (self self' : t) processed
    dets :
  _process_frame tracked drawn frame self = (Return (processed, dets), self') ->
  exists zd,
    zone_detector self = Some zd
    /\ self' = set_zone_detector (ZoneDetector.draw_zones_boundaries frame zd)
                                 self
    /\ processed = pixels drawn
    /\ ((dets = [] /\ (tracker self && model_loaded self = false
                       \/ tracked = Return []))
        \/ (tracker self && model_loaded self = true
            /\ exists objs,
                 tracked = Return objs
                 /\ dets = map (λ obj,
                                 mkDetection obj
                                   (zone_of_bbox (obj_bbox obj)
                                      (ZoneDetector.draw_zones_boundaries
                                         frame zd)))
                              objs)).
Proof.
  unfold _process_frame, zone_detections.
  destruct (if flip_frame self then flipped drawn else Return tt);
    [|discriminate].
  destruct (zone_detector self) as [zd|]; [|discriminate].
  destruct (zones_drawn drawn); [|discriminate].
  cbn [tracker model_loaded set_zone_detector].
  destruct (tracker self && model_loaded self) eqn:Hon.
  - destruct tracked as [objs|e]; [|discriminate].
    destruct objs as [|obj objs].
    + destruct (overlays_drawn drawn); [|discriminate].
      intros H. inversion H; subst. exists zd. repeat split. left. auto.
    + destruct (boxes_drawn drawn); [|discriminate].
      destruct (overlays_drawn drawn); [|discriminate].
      intros H. inversion H; subst. exists zd. repeat split.
      right. split; [reflexivity|]. eexists. split; reflexivity.
  - destruct (overlays_drawn drawn); [|discriminate].
    intros H. inversion H; subst. exists zd. repeat split. left. auto.
Qed.

Lemma update_fps_result now (self self' : t) emitted :
  _update_fps now self = Return (self', emitted) ->
  frame_count self' = frame_count self + 1
  /\ ((emitted = [] /\ frame_rate self' = frame_rate self)
      \/ (exists rate, emitted = [EmitFpsUpdate rate] /\ (0 < rate)%Q
                       /\ frame_rate self' = rate)).
Proof.
  unfold _update_fps, _update_fps_with.
  destruct (Qltb 0 (now - last_time self)) eqn:Hd.
  - apply Qltb_lt in Hd. rewrite (float_truediv_pos 1 _ Hd).
    intros H. inversion H; subst. simpl. split; [reflexivity|]. right.
    eexists. split; [reflexivity|]. split; [|reflexivity].
    unfold Qdiv. rewrite Qmult_1_l. apply Qinv_lt_0_compat. exact Hd.
  - intros H. inversion H; subst. simpl. auto.
Qed.

Ltac solve_fps :=
  simpl;
  repeat (apply List.Forall_cons; [first [exact I | assumption]|]);
  first [assumption | apply List.Forall_nil].

Ltac solve_counts :=
  unfold count_actions; simpl; repeat split; try lia; auto; try solve_fps.

Lemma processing_loop_accounting (ticks : list tick) :
  forall (self self' : t) (outcome : result unit) (acts : list action),
    processing_loop ticks self = Some (outcome, self', acts) ->
    frame_count self' = frame_count self + count_actions is_frame_ready acts
    /\ count_actions is_frame_ready acts <= count_actions is_read acts
    /\ count_actions is_read acts <= Z.of_nat (length ticks)
    /\ count_actions is_fps_update acts <= count_actions is_frame_ready acts
    /\ count_actions is_camera_error acts = 0
    /\ Forall fps_positive acts
    /\ ((0 <= frame_rate self)%Q -> (0 <= frame_rate self')%Q).
Proof.
  induction ticks as [|tk rest IH]; intros self self' outcome acts Hrun;
    [discriminate|].
  cbn [processing_loop] in Hrun.
  assert (Hfc : frame_count (control tk self) = frame_count self)
    by reflexivity.
  assert (Hfr : frame_rate (control tk self) = frame_rate self)
    by reflexivity.
  assert (Hlen : Z.of_nat (length (tk :: rest))
                 = 1 + Z.of_nat (length rest)) by (simpl; lia).
  rewrite Hlen. clear Hlen.
  destruct (negb (running (control tk self))).
  { inversion Hrun; subst. rewrite Hfc, Hfr. solve_counts. }
  destruct (paused (control tk self)).
  { apply after_Some in Hrun as (acts' & Hrest & ->).
    destruct (IH _ _ _ _ Hrest) as (H1 & H2 & H3 & H4 & H5 & H6 & H7).
    rewrite Hfc, Hfr in *. rewrite !count_actions_app.
    split; [|split; [|split; [|split; [|split; [|split]]]]];
      try (unfold count_actions at 1; simpl; lia);
      try (unfold count_actions at 1 3; simpl; lia);
      [solve_fps|exact H7]. }
  destruct (tick_read tk) as [[frame|]|e].
  - destruct (_process_frame _ _ frame _) as [[[processed dets]|e] s1] eqn:Hpf.
    + apply process_frame_state in Hpf as (Hp1 & Hp2 & _).
      rewrite Hfc in Hp1. rewrite Hfr in Hp2.
      destruct (_update_fps (tick_time tk) s1) as [[s2 emitted]|e] eqn:Hfps.
      * apply update_fps_result in Hfps as (Hu1 & Hu2).
        apply after_Some in Hrun as (acts' & Hrest & ->).
        destruct (IH _ _ _ _ Hrest) as (H1 & H2 & H3 & H4 & H5 & H6 & H7).
        change (CapRead :: emitted ++ [EmitFrameReady processed dets])
          with ([CapRead] ++ emitted ++ [EmitFrameReady processed dets]).
        rewrite !count_actions_app.
        destruct Hu2 as [[-> Hrate]|(rate & -> & Hpos & Hrate)].
        -- split; [|split; [|split; [|split; [|split; [|split]]]]];
             try (unfold count_actions; simpl;
                  fold (count_actions is_frame_ready acts');
                  fold (count_actions is_read acts');
                  fold (count_actions is_fps_update acts');
                  fold (count_actions is_camera_error acts'); lia).
           ++ solve_fps.
           ++ intros H0. apply H7. rewrite Hrate, Hp2. exact H0.
        -- split; [|split; [|split; [|split; [|split; [|split]]]]];
             try (unfold count_actions; simpl;
                  fold (count_actions is_frame_ready acts');
                  fold (count_actions is_read acts');
                  fold (count_actions is_fps_update acts');
                  fold (count_actions is_camera_error acts'); lia).
           ++ solve_fps.
           ++ intros _. apply H7. rewrite Hrate. apply Qlt_le_weak. exact Hpos.
      * inversion Hrun; subst. rewrite Hp1, Hp2. solve_counts.
    + apply process_frame_state in Hpf as (Hp1 & Hp2 & _).
      rewrite Hfc in Hp1. rewrite Hfr in Hp2.
      inversion Hrun; subst. rewrite Hp1, Hp2. solve_counts.
  - destruct (String.eqb _ _).
    + apply after_Some in Hrun as (acts' & Hrest & ->).
      destruct (IH _ _ _ _ Hrest) as (H1 & H2 & H3 & H4 & H5 & H6 & H7).
      rewrite Hfc, Hfr in *. rewrite !count_actions_app.
      split; [|split; [|split; [|split; [|split; [|split]]]]];
        try (unfold count_actions; simpl;
             fold (count_actions is_frame_ready acts');
             fold (count_actions is_read acts');
             fold (count_actions is_fps_update acts');
             fold (count_actions is_camera_error acts'); lia);
        [solve_fps|exact H7].
    + inversion Hrun; subst. rewrite Hfc, Hfr. solve_counts.
  - inversion Hrun; subst. rewrite Hfc, Hfr. solve_counts.
Qed.

End PipelineAccounting.

Section PipelineRunExtras.

Import VideoProcessorThread VideoProcessorControl.
Local Open Scope Z_scope.

Lemma run_cases (o : open_result) (ticks : list tick) (self self' : t) acts :
  run o ticks self = Some (self', acts) ->
  (exists msg, (forall w h, o ≠ Opened w h)
               /\ self' = set_running false self
               /\ acts = [EmitCameraError msg])
  \/ (exists w h outcome s acts',
        o = Opened w h
        /\ processing_loop ticks (enter_loop w h self)
           = Some (outcome, s, acts')
        /\ self' = set_running false s
        /\ acts = acts'
                  ++ match outcome with
                     | Raise e =>
                         [EmitCameraError
                            ("Error in video processing: " +:+ exn_message e)]
                     | Return _ => []
                     end ++ [CapRelease]).
Proof.
  unfold run. destruct o as [w h| |msg]; simpl.
  - destruct (processing_loop ticks (enter_loop w h self))
      as [[[outcome s] acts']|] eqn:Hloop; [|discriminate].
    intros H. inversion H; subst. right. do 5 eexists. eauto.
  - intros H. inversion H; subst. left. eexists.
    split; [intros; discriminate|]. eauto.
  - intros H. inversion H; subst. left. eexists.
    split; [intros; discriminate|]. eauto.
Qed.

(** X21. Over a whole run of the thread, [frame_count] grows by exactly
    the number of frames handed to [frame_ready]; every frame handed
    over was read from the capture, at most one read is made per turn
    of the loop, and [fps_update] is emitted at most once per frame. *)
Theorem run_frame_accounting (o : open_result) (ticks : list tick)
    (self self' : t) (acts : list action)
    (Hrun : run o ticks self = Some (self', acts)) :
  frame_count self' = frame_count self + count_actions is_frame_ready acts
  /\ count_actions is_frame_ready acts <= count_actions is_read acts
  /\ count_actions is_read acts <= Z.of_nat (length ticks)
  /\ count_actions is_fps_update acts <= count_actions is_frame_ready acts.
Proof.
  apply run_cases in Hrun
    as [(msg & _ & -> & ->)|(w & h & outcome & s & acts' & _ & Hloop & -> & ->)].
  - unfold count_actions. simpl. lia.
  - apply processing_loop_accounting in Hloop as (H1 & H2 & H3 & H4 & _).
    change (frame_count (enter_loop w h self)) with (frame_count self) in H1.
    change (frame_count (set_running false s)) with (frame_count s).
    rewrite !count_actions_app.
    destruct outcome; unfold count_actions at 2 3 5 6 8 9 11 12 14 15 17 18;
      simpl; lia.
Qed.

Lemma run_frame_accounting_witness :
  match run (Opened 640 480)
            [mk_tick false false (Return (Some [[(0, 0, 0)]])) (Return [])
                     (Scenario.drawn [[(9, 9, 9)]]) 1;
             mk_tick false true (Return None) (Return []) (Scenario.drawn []) 2;
             Scenario.stop_request] Scenario.webcam_thread with
  | Some (self', acts) =>
      frame_count self' = 1 /\ count_actions is_frame_ready acts = 1
  | None => False
  end.
Proof.
  destruct (run _ _ _) as [[self' acts]|] eqn:Hrun.
  - destruct (run_frame_accounting _ _ _ _ _ Hrun) as (Hcount & _).
    assert (Hacts : count_actions is_frame_ready acts = 1).
    { vm_compute in Hrun. inversion Hrun. reflexivity. }
    split; [rewrite Hcount, Hacts; reflexivity|exact Hacts].
  - vm_compute in Hrun. discriminate.
Defined.

(** X22. Every [fps_update] emitted during a run carries a strictly
    positive rate, and a frame rate that starts non-negative (it starts
    at 0.0) never becomes negative. *)
Theorem fps_updates_positive (o : open_result) (ticks : list tick)
    (self self' : t) (acts : list action)
    (Hrun : run o ticks self = Some (self', acts)) :
  Forall fps_positive acts
  /\ ((0 <= frame_rate self)%Q -> (0 <= frame_rate self')%Q).
Proof.
  apply run_cases in Hrun
    as [(msg & _ & -> & ->)|(w & h & outcome & s & acts' & _ & Hloop & -> & ->)].
  - split; [repeat constructor|auto].
  - apply processing_loop_accounting in Hloop as (_ & _ & _ & _ & _ & H6 & H7).
    split; [|exact H7].
    apply Forall_app. split; [exact H6|].
    destruct outcome; repeat constructor.
Qed.

Lemma fps_updates_positive_witness :
  match run (Opened 640 480)
            [mk_tick false false (Return (Some [[(0, 0, 0)]])) (Return [])
                     (Scenario.drawn [[(9, 9, 9)]]) (1 # 4);
             Scenario.stop_request] Scenario.webcam_thread with
  | Some (self', acts) => Forall fps_positive acts /\ (0 <= frame_rate self')%Q
  | None => False
  end.
Proof.
  destruct (run _ _ _) as [[self' acts]|] eqn:Hrun.
  - destruct (fps_updates_positive _ _ _ _ _ Hrun) as (Hall & Hrate).
    split; [exact Hall|]. apply Hrate. vm_compute. discriminate.
  - vm_compute in Hrun. discriminate.
Defined.

(** X23. A run emits [camera_error] at most once.  When the source
    cannot be opened it emits it exactly once and does nothing else: no
    read, no frame, no release, whatever would have come next.  When
    the source opens, it is emitted exactly when the loop was left by
    an exception, with the text of that exception, just before the
    release. *)
Theorem camera_error_at_most_once (o : open_result) (ticks : list tick)
    (self : t) :
  (forall self' acts,
      run o ticks self = Some (self', acts) ->
      count_actions is_camera_error acts <= 1)
  /\ ((forall w h, o ≠ Opened w h) ->
      exists msg,
        run o ticks self = Some (set_running false self, [EmitCameraError msg]))
  /\ (forall w h outcome s acts',
        o = Opened w h ->
        processing_loop ticks (enter_loop w h self) = Some (outcome, s, acts') ->
        exists acts,
          run o ticks self = Some (set_running false s, acts)
          /\ count_actions is_camera_error acts
             = (if is_raise outcome then 1 else 0)
          /\ (forall e, outcome = Raise e ->
                acts = acts'
                       ++ [EmitCameraError
                             ("Error in video processing: " +:+ exn_message e);
                           CapRelease])).
Proof.
  split; [|split].
  - intros self' acts Hrun.
    apply run_cases in Hrun
      as [(msg & _ & -> & ->)|(w & h & outcome & s & acts' & _ & Hloop & -> & ->)].
    + unfold count_actions. simpl. lia.
    + apply processing_loop_accounting in Hloop as (_ & _ & _ & _ & H5 & _).
      rewrite !count_actions_app, H5.
      destruct outcome; unfold count_actions; simpl; lia.
  - intros Hfail. destruct o as [w h| |msg].
    + exfalso. exact (Hfail w h eq_refl).
    + eexists. reflexivity.
    + eexists. reflexivity.
  - intros w h outcome s acts' -> Hloop.
    eexists. split; [apply run_after_loop; exact Hloop|].
    apply processing_loop_accounting in Hloop as (_ & _ & _ & _ & H5 & _).
    split.
    + rewrite !count_actions_app, H5.
      destruct outcome; unfold count_actions; simpl; lia.
    + intros e ->. reflexivity.
Qed.

Lemma camera_error_at_most_once_witness :
  run NotOpened [Scenario.end_of_stream; Scenario.stop_request]
      Scenario.webcam_thread
    = Some (set_running false Scenario.webcam_thread,
            [EmitCameraError "Cannot open video source: webcam"])
  /\ exists acts,
       run (Opened 640 480) [Scenario.broken_read] Scenario.webcam_thread
         = Some (set_running false (control Scenario.broken_read
                   (enter_loop 640 480 Scenario.webcam_thread)), acts)
       /\ count_actions is_camera_error acts = 1.
Proof.
  pose proof (camera_error_at_most_once NotOpened
                [Scenario.end_of_stream; Scenario.stop_request]
                Scenario.webcam_thread) as (_ & Hclosed & _).
  pose proof (camera_error_at_most_once (Opened 640 480)
                [Scenario.broken_read] Scenario.webcam_thread)
    as (_ & _ & Hopen).
  split.
  - destruct (Hclosed ltac:(intros; discriminate)) as [msg Hrun].
    rewrite Hrun. vm_compute in Hrun. inversion Hrun; subst msg. reflexivity.
  - destruct (Hopen 640 480 _ _ _ eq_refl eq_refl) as (acts & Hrun & Hcount & _).
    exists acts. split; [exact Hrun|exact Hcount].
Defined.

End PipelineRunExtras.

(** ** Frame pipeline: pause, zones of emitted detections, threshold *)

Section PipelineControlExtras.

Import VideoProcessorThread VideoProcessorControl.
Local Open Scope Z_scope.

Lemma control_paused (tk : tick) (self : t) :
  running self = true -> tick_stop tk = false -> tick_paused tk = true ->
  control tk self = pause self.
Proof.
  intros Hrun Hstop Hpause. unfold control, pause, set_paused, set_running.
  destruct self. simpl in *. subst. rewrite Hstop, Hpause. reflexivity.
Qed.

(** X24. While the thread is paused it only sleeps: over any number of
    turns met in pause (and not stopped) it reads no frame, emits no
    signal and changes nothing but the [paused] flag, and then goes on
    exactly as it would have from the paused state. *)
Theorem paused_turns_only_sleep (ticks rest : list tick) (self : t)
    (Hrunning : running self = true)
    (Hsome : ticks ≠ [])
    (Hpaused : Forall (λ tk, tick_stop tk = false ∧ tick_paused tk = true)
                      ticks) :
  processing_loop (ticks ++ rest) self
    = after (repeat Sleep (length ticks)) (processing_loop rest (pause self)).
Proof.
  revert self Hrunning Hsome.
  induction Hpaused as [|tk later [Hstop Hpause] Hlater IH];
    intros self Hrunning Hsome; [contradiction|].
  cbn [app processing_loop length repeat].
  rewrite (control_paused tk self Hrunning Hstop Hpause).
  assert (Hr : running (pause self) = true) by exact Hrunning.
  assert (Hp : paused (pause self) = true) by reflexivity.
  rewrite Hr, Hp. cbn [negb].
  destruct later as [|tk' later'].
  - simpl. reflexivity.
  - rewrite (IH (pause self) Hr ltac:(discriminate)).
    assert (Hpp : pause (pause self) = pause self) by reflexivity.
    rewrite Hpp.
    destruct (processing_loop rest (pause self)) as [[[out s] acts]|];
      reflexivity.
Qed.

Lemma paused_turns_only_sleep_witness :
  snd <$> processing_loop
            [mk_tick false true (Return None) (Return []) (Scenario.drawn []) 1;
             mk_tick false true (Raise (OtherError "unplugged")) (Return []) (Scenario.drawn []) 2;
             Scenario.stop_request]
            (enter_loop 640 480 Scenario.webcam_thread)
    = Some [Sleep; Sleep].
Proof.
  assert (Hpaused : Forall (λ tk, tick_stop tk = false ∧ tick_paused tk = true)
            [mk_tick false true (Return None) (Return []) (Scenario.drawn []) 1;
             mk_tick false true (Raise (OtherError "unplugged")) (Return [])
                     (Scenario.drawn []) 2]).
  { repeat constructor. }
  pose proof (paused_turns_only_sleep
                [mk_tick false true (Return None) (Return []) (Scenario.drawn []) 1;
                 mk_tick false true (Raise (OtherError "unplugged"))
                         (Return []) (Scenario.drawn []) 2]
                [Scenario.stop_request]
                (enter_loop 640 480 Scenario.webcam_thread)
                eq_refl ltac:(discriminate) Hpaused) as Hsleep.
  cbn [app] in Hsleep. rewrite Hsleep. reflexivity.
Defined.

Lemma emitted_detections_app (a b : list action) :
  emitted_detections (a ++ b) = emitted_detections a ++ emitted_detections b.
Proof. unfold emitted_detections. apply flat_map_app. Qed.

Lemma process_frame_valid tracked drawn frame (self self' : t) processed dets :
  _process_frame tracked drawn frame self = (Return (processed, dets), self') ->
  Forall MainWindow.valid_detection dets.
Proof.
  intros H.
  apply process_frame_return in H
    as (zd & _ & _ & _ & [[-> _]|(_ & objs & _ & ->)]); [constructor|].
  apply Forall_forall. intros det Hin.
  apply list_elem_of_In in Hin. apply in_map_iff in Hin as (obj & <- & _).
  unfold MainWindow.valid_detection, zone_of_bbox. simpl.
  destruct (obj_bbox obj) as [[[x1 y1] x2] y2]. apply get_zone_in_names.
Qed.

Lemma update_fps_no_frames now (self self' : t) emitted :
  _update_fps now self = Return (self', emitted) ->
  emitted_detections emitted = [].
Proof.
  intros H. apply update_fps_result in H as (_ & [[-> _]|(r & -> & _)]);
    reflexivity.
Qed.

(** X25. Every detection the thread hands to [frame_ready] carries one
    of the three zone names, so the hypothesis under which the voice
    handler was studied holds for every frame the pipeline produces. *)
Theorem emitted_detections_have_zones (ticks : list tick) (self self' : t)
    (outcome : result unit) (acts : list action)
    (Hloop : processing_loop ticks self = Some (outcome, self', acts)) :
  Forall (Forall MainWindow.valid_detection) (emitted_detections acts).
Proof.
  revert self self' outcome acts Hloop.
  induction ticks as [|tk rest IH]; intros self self' outcome acts Hrun;
    [discriminate|].
  cbn [processing_loop] in Hrun.
  destruct (negb (running (control tk self))).
  { inversion Hrun; subst. constructor. }
  destruct (paused (control tk self)).
  { apply after_Some in Hrun as (acts' & Hrest & ->).
    rewrite emitted_detections_app. apply Forall_app.
    split; [constructor|exact (IH _ _ _ _ Hrest)]. }
  destruct (tick_read tk) as [[frame|]|e].
  - destruct (_process_frame _ _ frame _) as [[[processed dets]|e] s1] eqn:Hpf.
    + apply process_frame_valid in Hpf.
      destruct (_update_fps (tick_time tk) s1) as [[s2 emitted]|e] eqn:Hfps.
      * apply update_fps_no_frames in Hfps.
        apply after_Some in Hrun as (acts' & Hrest & ->).
        change (CapRead :: emitted ++ [EmitFrameReady processed dets])
          with ([CapRead] ++ emitted ++ [EmitFrameReady processed dets]).
        rewrite !emitted_detections_app, Hfps. simpl.
        constructor; [exact Hpf|exact (IH _ _ _ _ Hrest)].
      * inversion Hrun; subst. constructor.
    + inversion Hrun; subst. constructor.
  - destruct (String.eqb _ _).
    + apply after_Some in Hrun as (acts' & Hrest & ->).
      rewrite emitted_detections_app. apply Forall_app.
      split; [constructor|exact (IH _ _ _ _ Hrest)].
    + inversion Hrun; subst. constructor.
  - inversion Hrun; subst. constructor.
Qed.

Lemma emitted_detections_have_zones_witness :
  match processing_loop
          [mk_tick false false (Return (Some [[(0, 0, 0); (1, 1, 1); (2, 2, 2)]]))
             (Return [mkTracked 4 (0, 0, 1, 1) (0, 0) 1 "person" 0])
             (Scenario.drawn [[(0, 0, 0); (1, 1, 1); (2, 2, 2)]]) 1;
           Scenario.stop_request]
          (mk "webcam" true (1 # 4) true false 0 0 0 640 480 true true
              (Some (ZoneDetector.init 640 3))) with
  | Some (_, _, acts) =>
      Forall (Forall MainWindow.valid_detection) (emitted_detections acts)
      /\ map (map det_zone) (emitted_detections acts) = [["gauche"]]
  | None => False
  end.
Proof.
  destruct (processing_loop _ _) as [[[outcome s] acts]|] eqn:Hloop.
  - split; [exact (emitted_detections_have_zones _ _ _ _ _ Hloop)|].
    vm_compute in Hloop. inversion Hloop. reflexivity.
  - vm_compute in Hloop. discriminate.
Defined.

End PipelineControlExtras.

Section ThresholdExtras.

Import VideoProcessorThread VideoProcessorControl.

Lemma clamp_cases (threshold : Q) :
  ((threshold < MIN_CONF_THRESHOLD)%Q
   /\ clamp_threshold threshold = MIN_CONF_THRESHOLD)
  \/ ((MAX_CONF_THRESHOLD < threshold)%Q
      /\ clamp_threshold threshold = MAX_CONF_THRESHOLD)
  \/ ((MIN_CONF_THRESHOLD < threshold)%Q /\ (threshold <= MAX_CONF_THRESHOLD)%Q
      /\ clamp_threshold threshold = threshold)
  \/ ((threshold == MIN_CONF_THRESHOLD)%Q
      /\ clamp_threshold threshold = MIN_CONF_THRESHOLD).
Proof.
  unfold clamp_threshold, py_max, py_min, MIN_CONF_THRESHOLD,
    MAX_CONF_THRESHOLD.
  destruct (Qltb 1 threshold) eqn:Hmax.
  - apply Qltb_lt in Hmax. right; left. split; [exact Hmax|]. reflexivity.
  - apply Qltb_ge in Hmax.
    destruct (Qltb (1 # 100) threshold) eqn:Hmin.
    + apply Qltb_lt in Hmin. right; right; left. auto.
    + apply Qltb_ge in Hmin.
      destruct (Qlt_le_dec threshold (1 # 100)) as [Hlt|Hge].
      * left. auto.
      * right; right; right. split; [|reflexivity]. lra.
Qed.

(** X26. The confidence threshold stored by [set_conf_threshold] always
    lies in [0.01, 1.0]: a value inside the range is stored as given, a
    value below is replaced by 0.01 and one above by 1.0, and clamping
    twice changes nothing more.  Every position 1 .. 100 of the slider
    is therefore stored unchanged, as position / 100. *)
Theorem conf_threshold_clamped (threshold : Q) (self : t) :
  let stored := conf_threshold (set_conf_threshold threshold self) in
  (MIN_CONF_THRESHOLD <= stored)%Q
  /\ (stored <= MAX_CONF_THRESHOLD)%Q
  /\ ((MIN_CONF_THRESHOLD <= threshold)%Q ->
      (threshold <= MAX_CONF_THRESHOLD)%Q -> (stored == threshold)%Q)
  /\ ((threshold < MIN_CONF_THRESHOLD)%Q -> stored = MIN_CONF_THRESHOLD)
  /\ ((MAX_CONF_THRESHOLD < threshold)%Q -> stored = MAX_CONF_THRESHOLD)
  /\ clamp_threshold stored = stored
  /\ (forall slider_value : Z,
        (1 <= slider_value <= 100)%Z ->
        (conf_threshold (change_conf_threshold slider_value self)
         == slider_value # 100)%Q).
Proof.
  intros stored. unfold stored. cbn [set_conf_threshold conf_threshold].
  assert (Hmin : MIN_CONF_THRESHOLD = 1 # 100) by reflexivity.
  assert (Hmax : MAX_CONF_THRESHOLD = 1%Q) by reflexivity.
  assert (Hin : forall x : Q,
             (MIN_CONF_THRESHOLD <= x)%Q -> (x <= MAX_CONF_THRESHOLD)%Q ->
             (clamp_threshold x == x)%Q).
  { intros x H1 H2.
    destruct (clamp_cases x) as [[Hc He]|[[Hc He]|[(_ & _ & He)|[Hc He]]]];
      rewrite He; rewrite ?Hmin, ?Hmax in *; lra. }
  destruct (clamp_cases threshold)
    as [[Hc He]|[[Hc He]|[(Hc1 & Hc2 & He)|[Hc He]]]]; rewrite He;
    rewrite ?Hmin, ?Hmax in *.
  all: split; [lra|]; split; [lra|]; split; [intros; lra|].
  all: split; [intros; first [reflexivity | exfalso; lra]|].
  all: split; [intros; first [reflexivity | exfalso; lra]|].
  all: split;
    [first [reflexivity
           | destruct (clamp_cases threshold)
               as [[Hd Hf]|[[Hd Hf]|[(Hd1 & Hd2 & Hf)|[Hd Hf]]]];
             rewrite ?Hmin, ?Hmax in *; try (exfalso; lra); exact He]|].
  all: intros v Hv; unfold change_conf_threshold;
    cbn [set_conf_threshold conf_threshold]; apply Hin;
    rewrite ?Hmin, ?Hmax; unfold Qle; simpl; lia.
Qed.

Lemma conf_threshold_clamped_witness :
  (conf_threshold (change_conf_threshold 25 (init 0 true)) == 1 # 4)%Q
  /\ conf_threshold (set_conf_threshold 0 (init 0 true)) = 1 # 100
  /\ conf_threshold (set_conf_threshold 7 (init 0 true)) = 1%Q.
Proof.
  pose proof (conf_threshold_clamped 0 (init 0 true))
    as (_ & _ & _ & Hlow & _ & _ & Hslider).
  pose proof (conf_threshold_clamped 7 (init 0 true))
    as (_ & _ & _ & _ & Hhigh & _).
  split; [|split].
  - rewrite (Hslider 25%Z ltac:(lia)). reflexivity.
  - apply Hlow. reflexivity.
  - apply Hhigh. reflexivity.
Defined.

End ThresholdExtras.

Section ProcessFrameExtras.

Import VideoProcessorThread VideoProcessorControl ZoneDisplay.
Local Open Scope Z_scope.

Lemma get_zone_by_boundaries bbox center_x (a b : ZoneDetector.t) :
  ZoneDetector.left_boundary a = ZoneDetector.left_boundary b ->
  ZoneDetector.right_boundary a = ZoneDetector.right_boundary b ->
  ZoneDetector.get_zone bbox center_x a = ZoneDetector.get_zone bbox center_x b.
Proof. intros Hl Hr. unfold ZoneDetector.get_zone. rewrite Hl, Hr. reflexivity. Qed.

Lemma refreshed_boundaries (frame : Frame) (zd : ZoneDetector.t) :
  in_thirds zd ->
  in_thirds (ZoneDetector.draw_zones_boundaries frame zd)
  /\ ZoneDetector.frame_width (ZoneDetector.draw_zones_boundaries frame zd)
     = (frame_shape frame).2.
Proof.
  intros [Hl Hr]. unfold ZoneDetector.draw_zones_boundaries, frame_shape.
  cbn [snd].
  destruct (Z.eqb_spec (Z.of_nat (length (hd [] frame)))
                       (ZoneDetector.frame_width zd)) as [Heq|Hne];
    cbn [negb].
  - split; [split; assumption|congruence].
  - split; [split; reflexivity|reflexivity].
Qed.

(** X27. With a zone detector whose boundaries are the thirds of its
    width (as [run] sets it up), and when none of the OpenCV calls it
    makes raises, [_process_frame] classifies every tracked object
    against the thirds of the width of the frame it was given, whatever
    width was recorded before; it returns the objects in the tracker's
    order, unchanged apart from the zone; and when there is no tracker
    or no model it returns no detection and does not depend on the
    tracker at all.  The zone is the one [get_zone] gives for the box
    read as Python integers whenever the sum of the horizontal corners
    fits in 64 bits.  A frame is returned only if every OpenCV call
    made succeeded: an exception of [cv2.flip] leaves the thread as it
    was, one of the drawing calls of [draw_zones] is raised as it is,
    and unless [cv2.flip] raised the detector is left set up for the
    width of the frame. *)
Theorem process_frame_zones_by_width
    (tracked : result (list TrackedObject)) (drawn : drawing) (frame : Frame)
    (self : t) (zd : ZoneDetector.t)
    (Hzd : zone_detector self = Some zd)
    (Hthirds : in_thirds zd) :
  let width := (frame_shape frame).2 in
  let done := _process_frame tracked drawn frame self in
  let flip_ok :=
    is_raise (if flip_frame self then flipped drawn else Return tt) = false in
  (flip_ok -> is_raise (zones_drawn drawn) = false ->
   is_raise (overlays_drawn drawn) = false ->
   (forall objs,
       tracked = Return objs -> tracker self && model_loaded self = true ->
       (objs ≠ [] -> is_raise (boxes_drawn drawn) = false) ->
       done.1
         = Return (pixels drawn,
                   map (λ obj,
                          mkDetection obj
                            (zone_of_bbox (obj_bbox obj)
                               (ZoneDetector.init width 3)))
                       objs))
   /\ (tracker self && model_loaded self = false ->
       done.1 = Return (pixels drawn, [])))
  /\ (forall obj,
        fits_int64 ((obj_bbox obj).1.1.1 + (obj_bbox obj).1.2) ->
        zone_of_bbox (obj_bbox obj) (ZoneDetector.init width 3)
        = ZoneDetector.get_zone (Some (obj_bbox obj)) None
                                (ZoneDetector.init width 3))
  /\ (is_raise done.1 = false ->
      flip_ok
      /\ is_raise (zones_drawn drawn) = false
      /\ is_raise (overlays_drawn drawn) = false
      /\ (forall obj objs,
            tracker self && model_loaded self = true ->
            tracked = Return (obj :: objs) ->
            is_raise (boxes_drawn drawn) = false))
  /\ (forall e,
        flip_frame self = true -> flipped drawn = Raise e ->
        done = (Raise e, self))
  /\ (forall e, flip_ok -> zones_drawn drawn = Raise e -> done.1 = Raise e)
  /\ (flip_ok ->
      exists zd',
        zone_detector done.2 = Some zd'
        /\ in_thirds zd'
        /\ ZoneDetector.frame_width zd' = width).
Proof.
  intros width done flip_ok.
  destruct (refreshed_boundaries frame zd Hthirds) as [[Hl Hr] Hw].
  fold width in Hw. rewrite Hw in Hl, Hr.
  assert (Hzone : forall obj,
             zone_of_bbox (obj_bbox obj)
                          (ZoneDetector.draw_zones_boundaries frame zd)
             = zone_of_bbox (obj_bbox obj) (ZoneDetector.init width 3)).
  { intros obj. unfold zone_of_bbox.
    destruct (obj_bbox obj) as [[[x1 y1] x2] y2].
    apply get_zone_by_boundaries; [exact Hl|exact Hr]. }
  unfold done, flip_ok, _process_frame, zone_detections. rewrite Hzd.
  cbn [tracker model_loaded set_zone_detector].
  split; [|split; [|split; [|split; [|split]]]].
  - intros Hflip Hzones Hover.
    destruct (if flip_frame self then flipped drawn else Return tt);
      [|discriminate].
    destruct (zones_drawn drawn); [|discriminate].
    destruct (overlays_drawn drawn); [|discriminate].
    split.
    + intros objs -> Hon Hboxes. rewrite Hon.
      assert (Hmap : map (λ obj, mkDetection obj
                            (zone_of_bbox (obj_bbox obj)
                               (ZoneDetector.draw_zones_boundaries frame zd)))
                         objs
                     = map (λ obj, mkDetection obj
                              (zone_of_bbox (obj_bbox obj)
                                 (ZoneDetector.init width 3)))
                           objs).
      { apply map_ext. intros obj. rewrite Hzone. reflexivity. }
      destruct objs as [|obj objs]; [reflexivity|].
      destruct (boxes_drawn drawn);
        [|specialize (Hboxes ltac:(discriminate)); discriminate].
      cbn [fst]. rewrite Hmap. reflexivity.
    + intros Hoff. rewrite Hoff. reflexivity.
  - intros obj Hfits. unfold zone_of_bbox, ZoneDetector.get_zone.
    destruct (obj_bbox obj) as [[[x1 y1] x2] y2]. cbn [fst snd] in Hfits.
    unfold fits_int64 in Hfits. unfold int64_wrap.
    rewrite Z.mod_small by lia.
    replace (x1 + x2 + 2 ^ 63 - 2 ^ 63) with (x1 + x2) by lia.
    reflexivity.
  - destruct (if flip_frame self then flipped drawn else Return tt);
      [|discriminate].
    destruct (zones_drawn drawn); [|discriminate].
    destruct (tracker self && model_loaded self).
    + destruct tracked as [[|obj objs]|e]; [| |discriminate].
      * destruct (overlays_drawn drawn); [|discriminate].
        intros _. repeat split. intros obj objs _ Hobjs. discriminate.
      * destruct (boxes_drawn drawn); [|discriminate].
        destruct (overlays_drawn drawn); [|discriminate].
        intros _. repeat split.
    + destruct (overlays_drawn drawn); [|discriminate].
      intros _. repeat split. intros obj objs Hon. discriminate.
  - intros e -> ->. reflexivity.
  - intros e Hflip ->.
    destruct (if flip_frame self then flipped drawn else Return tt);
      [reflexivity|discriminate].
  - intros Hflip.
    destruct (if flip_frame self then flipped drawn else Return tt);
      [|discriminate].
    exists (ZoneDetector.draw_zones_boundaries frame zd).
    split.
    + destruct (zones_drawn drawn); [|reflexivity].
      destruct (tracker self && model_loaded self);
        [destruct tracked as [[|obj objs]|e];
         [|destruct (boxes_drawn drawn)|]|];
        destruct (overlays_drawn drawn); reflexivity.
    + split; [split|]; [rewrite Hl, Hw; reflexivity
                       |rewrite Hr, Hw; reflexivity|exact Hw].
Qed.

Lemma process_frame_zones_by_width_witness :
  let self := mk "file" false (1 # 4) true false 0 0 0 640 480 true true
                 (Some (ZoneDetector.init 640 3)) in
  (_process_frame
     (Return [mkTracked 4 (0, 0, 2, 1) (1, 0) 1 "person" 0;
              mkTracked 5 (8, 0, 9, 1) (8, 0) 1 "chair" 56])
     (Scenario.drawn [[(0, 0, 0)]])
     [[(0, 0, 0); (0, 0, 0); (0, 0, 0); (0, 0, 0); (0, 0, 0); (0, 0, 0);
       (0, 0, 0); (0, 0, 0); (0, 0, 0)]] self).1
    = Return ([[(0, 0, 0)]],
              [mkDetection (mkTracked 4 (0, 0, 2, 1) (1, 0) 1 "person" 0)
                           "gauche";
               mkDetection (mkTracked 5 (8, 0, 9, 1) (8, 0) 1 "chair" 56)
                           "droite"])
  /\ (_process_frame (Return [])
        (mk_drawing (Return tt) (Raise (OtherError "empty image"))
                    (Return tt) (Return tt) [])
        [] self).1
     = Raise (OtherError "empty image").
Proof.
  intros self.
  assert (Hthirds : in_thirds (ZoneDetector.init 640 3))
    by (split; reflexivity).
  pose proof (process_frame_zones_by_width
                (Return [mkTracked 4 (0, 0, 2, 1) (1, 0) 1 "person" 0;
                         mkTracked 5 (8, 0, 9, 1) (8, 0) 1 "chair" 56])
                (Scenario.drawn [[(0, 0, 0)]])
                [[(0, 0, 0); (0, 0, 0); (0, 0, 0); (0, 0, 0); (0, 0, 0);
                  (0, 0, 0); (0, 0, 0); (0, 0, 0); (0, 0, 0)]]
                self (ZoneDetector.init 640 3) eq_refl Hthirds)
    as (Hon & _).
  pose proof (process_frame_zones_by_width (Return [])
                (mk_drawing (Return tt) (Raise (OtherError "empty image"))
                            (Return tt) (Return tt) [])
                [] self (ZoneDetector.init 640 3) eq_refl Hthirds)
    as (_ & _ & _ & _ & Hzones & _).
  split.
  - destruct (Hon eq_refl eq_refl eq_refl) as [Hobjs _].
    rewrite (Hobjs _ eq_refl eq_refl (λ _, eq_refl)). reflexivity.
  - apply Hzones; reflexivity.
Defined.

End ProcessFrameExtras.

(** ** Recordings on disk *)

Section RecordingFilesFacts.

Import VideoRecorderFiles.

Lemma string_compare_trans (x : string) :
  forall y z : string,
    String.compare x y ≠ Gt -> String.compare y z ≠ Gt ->
    String.compare x z ≠ Gt.
Proof.
  induction x as [|a x IH]; intros [|b y] [|c z]; simpl;
    try congruence.
  unfold Ascii.compare.
  destruct (N.compare_spec (Ascii.N_of_ascii a) (Ascii.N_of_ascii b));
    destruct (N.compare_spec (Ascii.N_of_ascii b) (Ascii.N_of_ascii c));
    destruct (N.compare_spec (Ascii.N_of_ascii a) (Ascii.N_of_ascii c));
    try lia; try congruence.
  apply IH.
Qed.

#[local] Instance newer_first_trans : Transitive newer_first.
Proof.
  intros x y z Hxy Hyz. unfold newer_first, String.leb in *.
  destruct (String.compare z y) eqn:Hzy; try discriminate;
    destruct (String.compare y x) eqn:Hyx; try discriminate;
    destruct (String.compare z x) eqn:Hzx; try reflexivity;
    exfalso; apply (string_compare_trans z y x); congruence.
Qed.

#[local] Instance newer_first_total : Total newer_first.
Proof. intros x y. unfold newer_first. destruct (String.leb_total y x); auto. Qed.

#[local] Instance newer_first_antisym : AntiSymm (=) newer_first.
Proof. intros x y Hxy Hyx. apply String.leb_antisym; assumption. Qed.

Lemma string_app_inj (prefix a b : string) :
  prefix +:+ a = prefix +:+ b -> a = b.
Proof.
  induction prefix as [|c prefix IH]; simpl; intros H; [exact H|].
  inversion H. auto.
Qed.

#[local] Instance path_of_inj (dir : string) : Inj (=) (=) (path_of dir).
Proof.
  intros a b H. unfold path_of in H.
  apply string_app_inj in H. exact H.
Qed.

Lemma sorted_take (l : list string) (n : nat) :
  Sorted newer_first l -> Sorted newer_first (take n l).
Proof.
  intros Hs. apply Sorted_StronglySorted in Hs; [|apply _].
  apply StronglySorted_Sorted.
  rewrite <- (take_drop n l) in Hs.
  by apply StronglySorted_app_1_l in Hs.
Qed.

Lemma filter_all_true (removable : string → bool) (l : list string) :
  (forall p, removable p = true) ->
  filter (λ path, removable path = true) l = l.
Proof.
  intros Hall. induction l as [|p l IH]; [reflexivity|].
  rewrite filter_cons_True by apply Hall. by rewrite IH.
Qed.

Lemma recordings_sorted (names : list string) (self : VideoRecorder.t) :
  Sorted newer_first (get_recordings_list true names self)
  /\ get_recordings_list true names self
     ≡ₚ map (path_of (VideoRecorder.output_dir self))
            (filter (λ name, matches_recording name = true) names).
Proof.
  unfold get_recordings_list. split.
  - apply Sorted_merge_sort. apply _.
  - apply merge_sort_Permutation.
Qed.

Lemma recording_paths (names : list string) (dir path : string) :
  path ∈ map (path_of dir) (filter (λ name, matches_recording name = true) names)
  <-> exists name, path = path_of dir name /\ matches_recording name = true
                   /\ name ∈ names.
Proof.
  rewrite list_elem_of_fmap. split.
  - intros (name & -> & Hin). apply list_elem_of_filter in Hin as [Hm Hin].
    eauto.
  - intros (name & -> & Hm & Hin). exists name. split; [reflexivity|].
    apply list_elem_of_filter. auto.
Qed.

(** X28. [cleanup_old_recordings], when every removal succeeds, keeps
    the [keep_count] newest recordings (the greatest file names) and
    removes the others: the list of recordings afterwards is the head
    of the list before, every recording kept sorts before every one
    removed, and with no more than [keep_count] recordings nothing is
    removed.  A negative [keep_count] follows Python's slicing: it
    removes only the [-keep_count] oldest.  Entries of the directory
    that are not recordings are never removed, whether removals
    succeed or not. *)
Theorem cleanup_keeps_newest_recordings
    (keep_count : Z) (removable : string → bool) (names : list string)
    (self : VideoRecorder.t)
    (Hnodup : NoDup names) :
  let recordings := get_recordings_list true names self in
  let names' := cleanup_old_recordings keep_count true removable names self in
  let kept :=
    if (Z.of_nat (length recordings) >? keep_count)%Z
    then slice_start keep_count (length recordings)
    else length recordings in
  (forall name, matches_recording name = false ->
                (name ∈ names' <-> name ∈ names))
  /\ (forall name, name ∈ names' -> name ∈ names)
  /\ ((forall path, removable path = true) ->
      get_recordings_list true names' self = take kept recordings
      /\ ((0 <= keep_count)%Z ->
          (length (get_recordings_list true names' self)
           <= Z.to_nat keep_count)%nat)
      /\ (forall a b,
            a ∈ get_recordings_list true names' self ->
            b ∈ recordings -> b ∉ get_recordings_list true names' self ->
            newer_first a b)).
Proof.
  intros recordings names' kept.
  destruct (recordings_sorted names self) as [Hsorted Hperm].
  fold recordings in Hsorted, Hperm.
  set (dir := VideoRecorder.output_dir self) in *.
  assert (Hrecs : NoDup recordings).
  { rewrite Hperm. apply (NoDup_fmap_2 (path_of dir)).
    by apply NoDup_filter. }
  assert (Hsub : forall name, name ∈ names' -> name ∈ names).
  { intros name. unfold names', cleanup_old_recordings.
    fold recordings. destruct (_ >? _)%Z; [|auto].
    intros Hin. by apply list_elem_of_filter in Hin as [_ Hin]. }
  split; [|split; [exact Hsub|]].
  - intros name Hother. split; [apply Hsub|].
    intros Hin. unfold names', cleanup_old_recordings. fold recordings.
    destruct (_ >? _)%Z; [|exact Hin].
    apply list_elem_of_filter. split; [|exact Hin].
    intros Hrem. apply list_elem_of_filter in Hrem as [_ Hrem].
    pose proof (subseteq_drop _ _ _ Hrem) as Hi.
    rewrite Hperm in Hi. apply recording_paths in Hi as (n & Heq & Hm & _).
    apply path_of_inj in Heq. subst n. congruence.
  - intros Hall.
    assert (Hlist : get_recordings_list true names' self = take kept recordings).
    { unfold kept, names', cleanup_old_recordings. fold recordings.
      destruct (_ >? _)%Z eqn:Hmore.
      - rewrite (filter_all_true removable _ Hall).
        set (start := slice_start keep_count (length recordings)).
        apply (Sorted_unique newer_first).
        + apply recordings_sorted.
        + apply sorted_take. exact Hsorted.
        + rewrite (proj2 (recordings_sorted _ self)). fold dir.
          apply NoDup_Permutation.
          * apply (NoDup_fmap_2 (path_of dir)). apply NoDup_filter.
            by apply NoDup_filter.
          * rewrite <- (take_drop start recordings) in Hrecs.
            by apply NoDup_app in Hrecs as (Ht & _ & _).
          * intros path. rewrite recording_paths.
            pose proof Hrecs as Hdisj.
            rewrite <- (take_drop start recordings) in Hdisj.
            apply NoDup_app in Hdisj as (_ & Hdisj & _).
            split.
            -- intros (name & -> & Hm & Hin).
               apply list_elem_of_filter in Hin as [Hkeep Hin].
               assert (Hrec : path_of dir name ∈ recordings).
               { rewrite Hperm. apply recording_paths. eauto. }
               rewrite <- (take_drop start recordings) in Hrec.
               apply elem_of_app in Hrec as [Ht|Hd]; [exact Ht|contradiction].
            -- intros Ht.
               assert (Hrec : path ∈ recordings).
               { rewrite <- (take_drop start recordings).
                 apply elem_of_app. by left. }
               rewrite Hperm in Hrec.
               apply recording_paths in Hrec as (name & -> & Hm & Hin).
               exists name. split; [reflexivity|]. split; [exact Hm|].
               apply list_elem_of_filter. split; [|exact Hin].
               exact (Hdisj _ Ht).
      - rewrite take_ge by lia. reflexivity. }
    split; [exact Hlist|]. split.
    + intros Hpos. rewrite Hlist, length_take. unfold kept, slice_start.
      destruct (Z.of_nat (length recordings) >? keep_count)%Z eqn:Hmore.
      * destruct (Z.ltb_spec keep_count 0); lia.
      * lia.
    + intros a b Ha Hb Hnb. rewrite Hlist in Ha, Hnb.
      assert (Hss : StronglySorted newer_first recordings)
        by (apply Sorted_StronglySorted; [apply _|exact Hsorted]).
      rewrite <- (take_drop kept recordings) in Hss, Hb.
      apply elem_of_app in Hb as [Hb|Hb]; [contradiction|].
      exact (StronglySorted_app_1_elem_of _ _ _ _ _ Hss Ha Hb).
Qed.

Lemma cleanup_keeps_newest_recordings_witness :
  let names := ["recording_20240101_120000.mp4"; "notes.txt";
                "recording_20240301_090000.mp4";
                "recording_20240201_100000.mp4"] in
  get_recordings_list true
    (cleanup_old_recordings 2 true (λ _, true) names (VideoRecorder.init "/r"))
    (VideoRecorder.init "/r")
    = ["/r/recording_20240301_090000.mp4"; "/r/recording_20240201_100000.mp4"]
  /\ "notes.txt"
     ∈ cleanup_old_recordings 2 true (λ _, false) names (VideoRecorder.init "/r").
Proof.
  intros names.
  assert (Hnodup : NoDup names).
  { repeat (apply NoDup_cons_2;
            [intros Hin;
             repeat (apply elem_of_cons in Hin as [Hin|Hin]; [discriminate|]);
             by apply elem_of_nil in Hin|]).
    apply NoDup_nil_2. }
  pose proof (cleanup_keeps_newest_recordings 2 (λ _, true) names
                (VideoRecorder.init "/r") Hnodup) as (_ & _ & Hkeep).
  pose proof (cleanup_keeps_newest_recordings 2 (λ _, false) names
                (VideoRecorder.init "/r") Hnodup) as (Hother & _).
  split.
  - destruct (Hkeep ltac:(reflexivity)) as (Hlist & _).
    rewrite Hlist. vm_compute. reflexivity.
  - apply (Hother "notes.txt"); [reflexivity|].
    apply elem_of_cons. right. apply elem_of_cons. by left.
Defined.

End RecordingFilesFacts.

Section RecordingInfoExtras.

Import VideoRecorder VideoRecorderFiles Sessions.

(** X29. [get_recording_info] reports exactly what [stop_recording]
    would return at the same instant (path, frame count, duration), and
    whether a session is active; during a session (started with a codec
    of four characters) its path is the one [pathlib] joined at the
    start and its frame count is the number of frames written so far;
    and once the session is stopped it reports the idle values.  When
    the timestamp has no slash in it, the path is the file name alone
    for the directory ["."], after the root for a root, and after the
    directory and a slash for a directory that has components. *)
Theorem recording_info_matches_stop
    (self : t) (timestamp codec : string) (now_start now fps : Q)
    (width height : Z) (frames : list (result unit * Frame))
    (Hidle : is_recording_flag self = false)
    (Hcodec : py_len codec = 4%nat) :
  (forall (any : t) (t0 : Q),
      (stop_recording t0 any).1.1
        = Return (info_output_path (get_recording_info t0 any),
                  info_frame_count (get_recording_info t0 any),
                  info_duration (get_recording_info t0 any))
      /\ info_is_recording (get_recording_info t0 any) = is_recording any
      /\ get_recording_info t0 (stop_recording t0 any).1.2
         = mk_recording_info false None 0 0)
  /\ (let started := start_recording timestamp true now_start width height fps
                                     codec self in
      let running := (write_frames frames started.1.2).1.2 in
      get_recording_info now running
        = mk_recording_info true
            (Some (file_path ("recording_" +:+ timestamp +:+ ".mp4") self))
            (Z.of_nat (length (written frames)))
            (duration_since now (Some now_start)))
  /\ (let filename := "recording_" +:+ timestamp +:+ ".mp4" in
      let path := file_path filename self in
      let dir := PosixPath.parse (output_dir self) in
      PosixPath.split timestamp = [timestamp] ->
      (PosixPath.parts dir = [] -> path = PosixPath.root dir +:+ filename)
      /\ (PosixPath.parts dir ≠ [] ->
          path = PosixPath.str dir +:+ "/" +:+ filename)
      /\ (PosixPath.parts dir ≠ [] ->
          PosixPath.str dir = output_dir self ->
          path = output_dir self +:+ "/" +:+ filename)).
Proof.
  split; [|split; [|exact (recording_path timestamp self)]].
  - intros any t0. unfold get_recording_info, stop_recording, is_recording.
    destruct (is_recording_flag any) eqn:Hflag; simpl.
    + rewrite ?Hflag. repeat split; reflexivity.
    + rewrite ?Hflag. repeat split; reflexivity.
  - intros started running.
    assert (Hstart : started.1.2
                     = {| output_dir := output_dir self;
                          writer := Some (mk_writer
                                            (file_path
                                               ("recording_" +:+ timestamp
                                                  +:+ ".mp4") self)
                                            codec fps (width, height));
                          output_path := Some (file_path
                                                 ("recording_" +:+ timestamp
                                                    +:+ ".mp4") self);
                          is_recording_flag := true; frame_count := 0;
                          start_time := Some now_start |}).
    { unfold started, start_recording, VideoWriter_fourcc.
      rewrite Hidle, Hcodec. reflexivity. }
    unfold running. rewrite Hstart.
    erewrite write_frames_active; [|reflexivity|reflexivity].
    reflexivity.
Qed.

Lemma recording_info_matches_stop_witness :
  let started := start_recording "20240101_120000" true 10 2 1 20 "mp4v"
                                 (init "/home/user/rec") in
  let running := (write_frames [(Return tt, [[(0, 0, 0); (1, 1, 1)]%Z]);
                                (Raise (OtherError "disk full"),
                                 [[(2, 2, 2); (3, 3, 3)]%Z])]
                               started.1.2).1.2 in
  info_frame_count (get_recording_info 12 running) = 1%Z
  /\ info_duration (get_recording_info 12 running) = (12 - 10)%Q
  /\ info_output_path (get_recording_info 12 running)
     = Some "/home/user/rec/recording_20240101_120000.mp4"
  /\ info_output_path
       (get_recording_info 12
          (start_recording "X" true 10 2 1 20 "mp4v" (init ".")).1.2)
     = Some "recording_X.mp4"
  /\ info_output_path
       (get_recording_info 12
          (start_recording "X" true 10 2 1 20 "mp4v" (init "/")).1.2)
     = Some "/recording_X.mp4".
Proof.
  intros started running.
  pose proof (recording_info_matches_stop (init "/home/user/rec")
                "20240101_120000" "mp4v" 10 12 20 2 1
                [(Return tt, [[(0, 0, 0); (1, 1, 1)]%Z]);
                 (Raise (OtherError "disk full"), [[(2, 2, 2); (3, 3, 3)]%Z])]
                eq_refl eq_refl) as (_ & Hinfo & _).
  pose proof (recording_info_matches_stop (init ".") "X" "mp4v" 10 12 20 2 1
                [] eq_refl eq_refl) as (_ & Hdot & _).
  pose proof (recording_info_matches_stop (init "/") "X" "mp4v" 10 12 20 2 1
                [] eq_refl eq_refl) as (_ & Hroot & _).
  cbv zeta in Hinfo. fold started in Hinfo. fold running in Hinfo.
  rewrite Hinfo. split; [reflexivity|]. split; [reflexivity|].
  split; [vm_compute; reflexivity|].
  apply (f_equal info_output_path) in Hdot, Hroot.
  split; [vm_compute in Hdot |- *; exact Hdot
         |vm_compute in Hroot |- *; exact Hroot].
Defined.

End RecordingInfoExtras.
